(** * Capture-to-activation pipeline of webcam-capture-mvp

    A shallow embedding of the voice pipeline:
    - [src/audio/vad.py]              (modules [SileroVAD], [WebRTCVAD], [VoiceActivityDetector])
    - [src/audio/processor.py]        (module [AudioProcessor])
    - [src/capture/webcam_capture.py] (module [WebcamCapture])

    Conventions.  Python methods mutate [self] and may raise; they are
    embedded as computations [M S A := S -> result A * S] over the object
    state [S]: mutations made before an exception survive it, exactly as in
    Python.  Wall-clock readings ([time.time()]) and external models (the
    Silero network, the WebRTC detector, Whisper) are inputs of the embedded
    functions.  Python floats are rationals [Q]; integers are [Z]; [bytes]
    are [list byte]; an int16 [ndarray] is a [list Z]; [str] is [string] over
    the code points below 256. *)

From Stdlib Require Import String Ascii.
From Stdlib Require Import Strings.Byte.
From Stdlib Require Import ZArith QArith Bool Lia List.
Import ListNotations.

Set Implicit Arguments.

(** ** Python runtime *)

Module Py.

Inductive exn : Type :=
| ValueError (msg : string)
| ZeroDivisionError
| KeyError (key : string)
| BackendError (msg : string).

Inductive result (A : Type) : Type :=
| Ret (a : A)
| Raise (e : exn).
Arguments Ret {A} a.
Arguments Raise {A} e.

(** State with exceptions: the state is threaded through a raise. *)
Definition M (S A : Type) : Type := S -> result A * S.

Definition ret {S A} (a : A) : M S A := fun s => (Ret a, s).

Definition bind {S A B} (m : M S A) (k : A -> M S B) : M S B :=
  fun s => match m s with
           | (Ret a, s') => k a s'
           | (Raise e, s') => (Raise e, s')
           end.

Definition raise {S A} (e : exn) : M S A := fun s => (Raise e, s).

(** [try: m except Exception as e: h e] *)
Definition try_except {S A} (m : M S A) (h : exn -> M S A) : M S A :=
  fun s => match m s with
           | (Ret a, s') => (Ret a, s')
           | (Raise e, s') => h e s'
           end.

Definition get {S} : M S S := fun s => (Ret s, s).
Definition modify {S} (f : S -> S) : M S unit := fun s => (Ret tt, f s).

(** Lift the result of an external call into the monad. *)
Definition call {S A} (r : result A) : M S A := fun s => (r, s).

(** Run a computation of a component held in a field of [S]. *)
Definition zoom {S T A} (proj : S -> T) (upd : T -> S -> S) (m : M T A) : M S A :=
  fun s => let (r, t') := m (proj s) in (r, upd t' s).

(** Logging through structlog *)
Inductive level : Type := LDebug | LInfo | LWarning | LError.
Definition log_entry : Type := (level * string)%type.

(** Comparison of floats *)
Definition Qltb (x y : Q) : bool := negb (Qle_bool y x).

(** [int(x)] of a float: truncation toward zero *)
Definition int_of_float (x : Q) : Z := Z.quot (Qnum x) (Zpos (Qden x)).

(** [range(0, stop, step)] *)
Definition range0 (stop step : Z) : result (list Z) :=
  if (step =? 0)%Z then Raise (ValueError "range() arg 3 must not be zero")
  else if (step <? 0)%Z then Ret []
  else Ret (map (fun k => (Z.of_nat k * step)%Z)
                (seq 0 (Z.to_nat ((stop + step - 1) / step)))).

(** [l[i:j]] for [0 <= i] *)
Definition slice {A} (l : list A) (i j : Z) : list A :=
  firstn (Z.to_nat (j - i)) (skipn (Z.to_nat i) l).

(** [l[-n:]] for [0 < n] *)
Definition last_n {A} (n : nat) (l : list A) : list A :=
  skipn (length l - n) l.

Definition len {A} (l : list A) : Z := Z.of_nat (length l).

(** *** int16 arrays and their bytes (little endian) *)

Definition byte_of_Z (z : Z) : byte :=
  match Byte.of_N (Z.to_N (z mod 256)) with
  | Some b => b
  | None => x00
  end.

Definition Z_of_byte (b : byte) : Z := Z.of_N (Byte.to_N b).

Definition int16_wrap (u : Z) : Z :=
  let v := (u mod 65536)%Z in
  if (v <? 32768)%Z then v else (v - 65536)%Z.

(** [ndarray.astype(np.int16).tobytes()] *)
Fixpoint tobytes (a : list Z) : list byte :=
  match a with
  | [] => []
  | z :: a' =>
      let u := (z mod 65536)%Z in
      byte_of_Z u :: byte_of_Z (u / 256) :: tobytes a'
  end.

Fixpoint pairs_to_int16 (b : list byte) : list Z :=
  match b with
  | lo :: hi :: b' => int16_wrap (Z_of_byte lo + 256 * Z_of_byte hi) :: pairs_to_int16 b'
  | _ => []
  end.

(** [np.frombuffer(data, dtype=np.int16)] *)
Definition frombuffer (data : list byte) : result (list Z) :=
  if Nat.even (length data) then Ret (pairs_to_int16 data)
  else Raise (ValueError "buffer size must be a multiple of element size").

(** [collections.deque(maxlen=n).extend(xs)] *)
Definition deque_extend {A} (maxlen : Z) (buf xs : list A) : list A :=
  let all := buf ++ xs in
  skipn (length all - Z.to_nat maxlen) all.

(** *** Strings *)

(** [str.lower()] *)
Definition lower_char (c : ascii) : ascii :=
  let n := nat_of_ascii c in
  if ((65 <=? n) && (n <=? 90))%nat
     || ((192 <=? n) && (n <=? 222) && negb (n =? 215))%nat
  then ascii_of_nat (n + 32) else c.

Fixpoint lower (s : string) : string :=
  match s with
  | EmptyString => EmptyString
  | String c s' => String (lower_char c) (lower s')
  end.

Definition isspace (c : ascii) : bool :=
  let n := nat_of_ascii c in
  (((9 <=? n) && (n <=? 13)) || ((28 <=? n) && (n <=? 32))
   || (n =? 133) || (n =? 160))%nat.

Fixpoint lstrip (s : string) : string :=
  match s with
  | EmptyString => EmptyString
  | String c s' => if isspace c then lstrip s' else s
  end.

Fixpoint rstrip (s : string) : string :=
  match s with
  | EmptyString => EmptyString
  | String c s' =>
      match rstrip s' with
      | EmptyString => if isspace c then EmptyString else String c EmptyString
      | r => String c r
      end
  end.

(** [str.strip()] *)
Definition strip (s : string) : string := rstrip (lstrip s).

(** [needle in hay] *)
Fixpoint contains (needle hay : string) : bool :=
  if String.prefix needle hay then true
  else match hay with
       | EmptyString => false
       | String _ hay' => contains needle hay'
       end.

(** Truthiness of a [str] *)
Definition truthy (s : string) : bool :=
  match s with EmptyString => false | _ => true end.

End Py.

Import Py.

Declare Scope py_scope.
Delimit Scope py_scope with py.
Notation "x <- m ;; k" := (bind m (fun x => k))
  (at level 100, m at next level, right associativity) : py_scope.
Notation "m ;;; k" := (bind m (fun _ => k))
  (at level 100, right associativity) : py_scope.
Open Scope py_scope.

(** ** Settings ([src/main.py]) *)

Module Settings.

Record AudioSettings : Type := {
  vad_threshold : Q;
  vad_model : string;
  whisper_model : string;
  buffer_duration_sec : Z;
  chunk_duration_sec : Z;
  sample_rate : Z;
  channels : Z
}.

Record ActivationSettings : Type := {
  enabled : bool;
  phrases : list (string * string);
  cooldown_sec : Q
}.

Record SystemSettings : Type := {
  health_check_interval_sec : Z;
  restart_on_failure : bool;
  max_restart_attempts : Z;
  restart_delay_sec : Z
}.

Record t : Type := {
  audio : AudioSettings;
  activation : ActivationSettings;
  system : SystemSettings
}.

Definition default_audio : AudioSettings :=
  {| vad_threshold := 1 # 2; vad_model := "silero"; whisper_model := "base";
     buffer_duration_sec := 30; chunk_duration_sec := 1;
     sample_rate := 16000; channels := 1 |}.

Definition default_activation : ActivationSettings :=
  {| enabled := true;
     phrases := [ ("start_recording", "computer start recording");
                  ("mark_important", "computer mark important");
                  ("analyze_content", "computer analyze this");
                  ("show_status", "computer show status");
                  ("pause_recording", "computer pause recording") ]%string;
     cooldown_sec := 1 |}.

Definition default_system : SystemSettings :=
  {| health_check_interval_sec := 30; restart_on_failure := true;
     max_restart_attempts := 3; restart_delay_sec := 5 |}.

Definition default : t :=
  {| audio := default_audio; activation := default_activation;
     system := default_system |}.

(** [settings.activation.phrases[key]] *)
Fixpoint phrase_of (d : list (string * string)) (key : string) : result string :=
  match d with
  | [] => Raise (KeyError key)
  | (k, v) :: d' => if String.eqb k key then Ret v else phrase_of d' key
  end.

End Settings.

(** ** Voice activity detection ([src/audio/vad.py]) *)

Record vad_stats : Type := {
  detections_total : Z;
  voice_detected : Z;
  silence_detected : Z;
  vad_processing_time_total : Q
}.

Definition vad_stats0 : vad_stats :=
  {| detections_total := 0; voice_detected := 0; silence_detected := 0;
     vad_processing_time_total := 0 |}.

(** The statistics update shared by both backends:
    [detections_total += 1], [processing_time_total += processing_time],
    then one of [voice_detected] / [silence_detected]. *)
Definition record_detection (processing_time : Q) (has_voice : bool)
    (st : vad_stats) : vad_stats :=
  {| detections_total := st.(detections_total) + 1;
     voice_detected := if has_voice then st.(voice_detected) + 1 else st.(voice_detected);
     silence_detected := if has_voice then st.(silence_detected) else st.(silence_detected) + 1;
     vad_processing_time_total := st.(vad_processing_time_total) + processing_time |}.

(** The dict returned by [get_status]; a key that only one backend reports
    is optional.  The counters come with two derived figures. *)
Record VADStatus : Type := {
  model_type : string;
  status_model_loaded : bool;
  status_threshold : option Q;
  status_aggressiveness : option Z;
  status_sample_rate : Z;
  status_frame_duration_ms : option Z;
  status_stats : vad_stats;
  avg_processing_time_ms : Q;
  voice_ratio : Q
}.

(** [class VADInterface(ABC)].  [H] is the loaded backend resource. *)
Class VADInterface (T H : Type) : Type := {
  initialize : result H -> M T unit;
  detect_voice_activity : Q * Q -> list Z -> M T bool;
  cleanup : M T unit;
  model_loaded : T -> bool
}.

Module SileroVAD.

(** [self.model(audio_tensor, self.sample_rate).item()] *)
Definition net : Type := list Q -> Z -> result Q.

Record t : Type := {
  model : option net;
  sample_rate : Z;
  threshold : Q;
  stats : vad_stats;
  log : list log_entry
}.

Definition init (settings : Settings.t) : t :=
  {| model := None;
     sample_rate := settings.(Settings.audio).(Settings.sample_rate);
     threshold := settings.(Settings.audio).(Settings.vad_threshold);
     stats := vad_stats0;
     log := [] |}.

Definition set_model (m : option net) (self : t) : t :=
  {| model := m; sample_rate := self.(sample_rate); threshold := self.(threshold);
     stats := self.(stats); log := self.(log) |}.

Definition set_stats (st : vad_stats) (self : t) : t :=
  {| model := self.(model); sample_rate := self.(sample_rate);
     threshold := self.(threshold); stats := st; log := self.(log) |}.

Definition logger (lv : level) (msg : string) (self : t) : t :=
  {| model := self.(model); sample_rate := self.(sample_rate);
     threshold := self.(threshold); stats := self.(stats);
     log := self.(log) ++ [(lv, msg)] |}.

Definition initialize (load : result net) : M t unit :=
  try_except
    (modify (logger LInfo "Loading Silero VAD model") ;;;
     m <- call load ;;
     modify (set_model (Some m)) ;;;
     modify (logger LInfo "Silero VAD model loaded successfully"))
    (fun e => modify (logger LError "Failed to load Silero VAD model") ;;;
              raise e).

(** Pad with zeros up to the minimum of 512 samples. *)
Definition pad512 (audio_tensor : list Q) : list Q :=
  if (length audio_tensor <? 512)%nat
  then audio_tensor ++ repeat 0 (512 - length audio_tensor)
  else audio_tensor.

(** The body of the [try] in [detect_voice_activity]. *)
Definition detect_body (run : net) (clock : Q * Q) (audio : list Z) : M t bool :=
  self <- get ;;
  let start_time := fst clock in
  let audio_tensor := pad512 (map inject_Z audio) in
  confidence <- call (run audio_tensor self.(sample_rate)) ;;
  let has_voice := Qltb self.(threshold) confidence in
  let processing_time := snd clock - start_time in
  modify (fun s => set_stats (record_detection processing_time has_voice s.(stats)) s) ;;;
  ret has_voice.

Definition detect_voice_activity (clock : Q * Q) (audio : list Z) : M t bool :=
  self <- get ;;
  match self.(model) with
  | None => ret false
  | Some run =>
      try_except
        (detect_body run clock audio)
        (fun e => modify (logger LError "Error in Silero VAD detection") ;;;
                  ret false)
  end.

Definition cleanup : M t unit :=
  modify (set_model None) ;;;
  modify (logger LInfo "Silero VAD cleanup completed").

Definition model_loaded (self : t) : bool :=
  match self.(model) with Some _ => true | None => false end.

Definition get_status (self : t) : VADStatus :=
  let detections := self.(stats).(detections_total) in
  let avg_processing_time :=
    if (0 <? detections)%Z
    then self.(stats).(vad_processing_time_total) / inject_Z detections else 0 in
  let ratio :=
    if (0 <? detections)%Z
    then inject_Z self.(stats).(voice_detected) / inject_Z detections else 0 in
  {| model_type := "silero";
     status_model_loaded := model_loaded self;
     status_threshold := Some self.(threshold);
     status_aggressiveness := None;
     status_sample_rate := self.(sample_rate);
     status_frame_duration_ms := None;
     status_stats := self.(stats);
     avg_processing_time_ms := avg_processing_time * 1000;
     voice_ratio := ratio |}.

End SileroVAD.

Module WebRTCVAD.

(** [self.vad.is_speech(frame_bytes, self.sample_rate)] *)
Definition detector : Type := list byte -> Z -> result bool.

Record t : Type := {
  vad : option detector;
  sample_rate : Z;
  aggressiveness : Z;
  frame_duration_ms : Z;
  frame_size : Z;
  stats : vad_stats;
  log : list log_entry
}.

Definition init (settings : Settings.t) : t :=
  let sample_rate := settings.(Settings.audio).(Settings.sample_rate) in
  let frame_duration_ms := 30%Z in
  {| vad := None;
     sample_rate := sample_rate;
     aggressiveness := int_of_float (settings.(Settings.audio).(Settings.vad_threshold) * 3);
     frame_duration_ms := frame_duration_ms;
     frame_size := Z.quot (sample_rate * frame_duration_ms) 1000;
     stats := vad_stats0;
     log := [] |}.

Definition set_vad (v : option detector) (self : t) : t :=
  {| vad := v; sample_rate := self.(sample_rate);
     aggressiveness := self.(aggressiveness);
     frame_duration_ms := self.(frame_duration_ms);
     frame_size := self.(frame_size); stats := self.(stats); log := self.(log) |}.

Definition set_stats (st : vad_stats) (self : t) : t :=
  {| vad := self.(vad); sample_rate := self.(sample_rate);
     aggressiveness := self.(aggressiveness);
     frame_duration_ms := self.(frame_duration_ms);
     frame_size := self.(frame_size); stats := st; log := self.(log) |}.

Definition logger (lv : level) (msg : string) (self : t) : t :=
  {| vad := self.(vad); sample_rate := self.(sample_rate);
     aggressiveness := self.(aggressiveness);
     frame_duration_ms := self.(frame_duration_ms);
     frame_size := self.(frame_size); stats := self.(stats);
     log := self.(log) ++ [(lv, msg)] |}.

(** [webrtcvad.Vad(self.aggressiveness)] is the external constructor. *)
Definition initialize (make : result detector) : M t unit :=
  try_except
    (modify (logger LInfo "Initializing WebRTC VAD") ;;;
     v <- call make ;;
     modify (set_vad (Some v)) ;;;
     modify (logger LInfo "WebRTC VAD initialized successfully"))
    (fun e => modify (logger LError "Failed to initialize WebRTC VAD") ;;;
              raise e).

Definition supported_rates : list Z := [8000; 16000; 32000; 48000]%Z.

Definition supported (rate : Z) : bool := existsb (Z.eqb rate) supported_rates.

(** The body of [for i in range(0, len(audio_bytes), self.frame_size * 2)],
    with the two counters as accumulators. *)
Fixpoint frames_loop (is_speech : detector) (rate : Z) (audio_bytes : list byte)
    (step : Z) (indices : list Z) (voice_frames total_frames : Z) : M t (Z * Z) :=
  match indices with
  | [] => ret (voice_frames, total_frames)
  | i :: rest =>
      let frame_bytes := slice audio_bytes i (i + step) in
      if (len frame_bytes =? step)%Z then
        counters <-
          try_except
            (speech <- call (is_speech frame_bytes rate) ;;
             ret (if speech : bool then (voice_frames + 1)%Z else voice_frames,
                  (total_frames + 1)%Z))
            (fun e => modify (logger LDebug "WebRTC VAD frame processing error") ;;;
                      ret (voice_frames, total_frames)) ;;
        frames_loop is_speech rate audio_bytes step rest (fst counters) (snd counters)
      else
        frames_loop is_speech rate audio_bytes step rest voice_frames total_frames
  end.

(** [has_voice]: [voice_ratio > 0.3] when [total_frames > 0].  A ratio of
    two frame counts compares with the double nearest to 0.3 as it does with
    the rational 3/10. *)
Definition decide_voice (voice_frames total_frames : Z) : bool :=
  if (0 <? total_frames)%Z then
    let voice_ratio := inject_Z voice_frames / inject_Z total_frames in
    Qltb (3 # 10) voice_ratio
  else false.

(** The body of the [try] in [detect_voice_activity]. *)
Definition detect_body (is_speech : detector) (clock : Q * Q) (audio : list Z)
    : M t bool :=
  self <- get ;;
  let start_time := fst clock in
  if negb (supported self.(sample_rate)) then
    modify (logger LWarning "WebRTC VAD: Unsupported sample rate") ;;;
    ret false
  else
    let audio_bytes := tobytes audio in
    let step := (self.(frame_size) * 2)%Z in
    indices <- call (range0 (len audio_bytes) step) ;;
    counters <- frames_loop is_speech self.(sample_rate) audio_bytes step indices 0 0 ;;
    let has_voice := decide_voice (fst counters) (snd counters) in
    let processing_time := snd clock - start_time in
    modify (fun s => set_stats (record_detection processing_time has_voice s.(stats)) s) ;;;
    ret has_voice.

Definition detect_voice_activity (clock : Q * Q) (audio : list Z) : M t bool :=
  self <- get ;;
  match self.(vad) with
  | None => ret false
  | Some is_speech =>
      try_except
        (detect_body is_speech clock audio)
        (fun e => modify (logger LError "Error in WebRTC VAD detection") ;;;
                  ret false)
  end.

Definition cleanup : M t unit :=
  modify (set_vad None) ;;;
  modify (logger LInfo "WebRTC VAD cleanup completed").

Definition model_loaded (self : t) : bool :=
  match self.(vad) with Some _ => true | None => false end.

Definition get_status (self : t) : VADStatus :=
  let detections := self.(stats).(detections_total) in
  let avg_processing_time :=
    if (0 <? detections)%Z
    then self.(stats).(vad_processing_time_total) / inject_Z detections else 0 in
  let ratio :=
    if (0 <? detections)%Z
    then inject_Z self.(stats).(voice_detected) / inject_Z detections else 0 in
  {| model_type := "webrtc";
     status_model_loaded := model_loaded self;
     status_threshold := None;
     status_aggressiveness := Some self.(aggressiveness);
     status_sample_rate := self.(sample_rate);
     status_frame_duration_ms := Some self.(frame_duration_ms);
     status_stats := self.(stats);
     avg_processing_time_ms := avg_processing_time * 1000;
     voice_ratio := ratio |}.

End WebRTCVAD.

#[export] Instance silero_interface : VADInterface SileroVAD.t SileroVAD.net :=
  {| initialize := SileroVAD.initialize;
     detect_voice_activity := SileroVAD.detect_voice_activity;
     cleanup := SileroVAD.cleanup;
     model_loaded := SileroVAD.model_loaded |}.

#[export] Instance webrtc_interface : VADInterface WebRTCVAD.t WebRTCVAD.detector :=
  {| initialize := WebRTCVAD.initialize;
     detect_voice_activity := WebRTCVAD.detect_voice_activity;
     cleanup := WebRTCVAD.cleanup;
     model_loaded := WebRTCVAD.model_loaded |}.

(** [class VoiceActivityDetector]: factory and facade over the two backends. *)
Module VoiceActivityDetector.

Inductive t : Type :=
| Silero (impl : SileroVAD.t)
| WebRTC (impl : WebRTCVAD.t).

Definition init (settings : Settings.t) : result t :=
  let vad_model := lower settings.(Settings.audio).(Settings.vad_model) in
  if String.eqb vad_model "silero" then Ret (Silero (SileroVAD.init settings))
  else if String.eqb vad_model "webrtc" then Ret (WebRTC (WebRTCVAD.init settings))
  else Raise (ValueError "Unsupported VAD model").

(** Delegate to [self.vad], whichever backend it is. *)
Definition delegate {A} (ms : M SileroVAD.t A) (mw : M WebRTCVAD.t A) : M t A :=
  fun self =>
    match self with
    | Silero impl => let (r, impl') := ms impl in (r, Silero impl')
    | WebRTC impl => let (r, impl') := mw impl in (r, WebRTC impl')
    end.

Definition detect_voice_activity (clock : Q * Q) (audio : list Z) : M t bool :=
  delegate (detect_voice_activity clock audio) (detect_voice_activity clock audio).

Definition initialize (load : result SileroVAD.net) (make : result WebRTCVAD.detector)
    : M t unit :=
  delegate (initialize load) (initialize make).

Definition cleanup : M t unit := delegate cleanup cleanup.

Definition model_loaded (self : t) : bool :=
  match self with
  | Silero impl => model_loaded impl
  | WebRTC impl => model_loaded impl
  end.

Definition stats (self : t) : vad_stats :=
  match self with
  | Silero impl => impl.(SileroVAD.stats)
  | WebRTC impl => impl.(WebRTCVAD.stats)
  end.

Definition log (self : t) : list log_entry :=
  match self with
  | Silero impl => impl.(SileroVAD.log)
  | WebRTC impl => impl.(WebRTCVAD.log)
  end.

Definition get_status (self : t) : VADStatus :=
  match self with
  | Silero impl => SileroVAD.get_status impl
  | WebRTC impl => WebRTCVAD.get_status impl
  end.

End VoiceActivityDetector.

(** ** Audio processor ([src/audio/processor.py]) *)

Module AudioProcessor.

Record segment : Type := {
  audio : list Z;
  timestamp : Q;
  duration : Q
}.

Record proc_stats : Type := {
  chunks_processed : Z;
  voice_segments_detected : Z;
  activations_detected : Z;
  processing_time_total : Q
}.

(** The bound methods registered in [__init__], and callables registered
    through [add_custom_activation_phrase].  A custom callable is known by
    what awaiting it does: return or raise. *)
Inductive handler : Type :=
| _handle_start_recording
| _handle_mark_important
| _handle_analyze_content
| _handle_show_status
| _handle_pause_recording
| custom (name : string) (behaviour : result unit).

(** Keyword arguments of [vault_writer.write_transcription] (the
    [timestamp=datetime.now()] argument is left out). *)
Record transcription : Type := {
  text : string;
  confidence : Q;
  is_activation : bool;
  activation_command : option string
}.

(** Calls made to collaborators, in order.  This is not a Python field: it
    records which external calls a method has issued. *)
Inductive event : Type :=
| Classified (audio_array : list Z)
| Transcribed (combined_audio : list Z)
| Dispatched (h : handler)
| Wrote (entry : transcription)
| Printed (msg : string).

(** [self._whisper_model.transcribe(audio_float)], then the ["text"] entry
    of the returned dict if there is one. *)
Definition whisper : Type := list Q -> result (option string).

Record t : Type := mk {
  settings : Settings.t;
  vad : VoiceActivityDetector.t;
  audio_buffer : list Z;
  audio_buffer_maxlen : Z;
  voice_segments : list segment;
  activation_phrases : list (string * handler);
  is_running : bool;
  last_activation_time : Q;
  stats : proc_stats;
  _whisper_model : option whisper;
  log : list log_entry;
  trace : list event
}.

Definition set_vad v (s : t) : t :=
  mk s.(settings) v s.(audio_buffer) s.(audio_buffer_maxlen) s.(voice_segments)
     s.(activation_phrases) s.(is_running) s.(last_activation_time) s.(stats)
     s.(_whisper_model) s.(log) s.(trace).
Definition set_audio_buffer b (s : t) : t :=
  mk s.(settings) s.(vad) b s.(audio_buffer_maxlen) s.(voice_segments)
     s.(activation_phrases) s.(is_running) s.(last_activation_time) s.(stats)
     s.(_whisper_model) s.(log) s.(trace).
Definition set_voice_segments v (s : t) : t :=
  mk s.(settings) s.(vad) s.(audio_buffer) s.(audio_buffer_maxlen) v
     s.(activation_phrases) s.(is_running) s.(last_activation_time) s.(stats)
     s.(_whisper_model) s.(log) s.(trace).
Definition set_activation_phrases p (s : t) : t :=
  mk s.(settings) s.(vad) s.(audio_buffer) s.(audio_buffer_maxlen) s.(voice_segments)
     p s.(is_running) s.(last_activation_time) s.(stats)
     s.(_whisper_model) s.(log) s.(trace).
Definition set_is_running r (s : t) : t :=
  mk s.(settings) s.(vad) s.(audio_buffer) s.(audio_buffer_maxlen) s.(voice_segments)
     s.(activation_phrases) r s.(last_activation_time) s.(stats)
     s.(_whisper_model) s.(log) s.(trace).
Definition set_last_activation_time l (s : t) : t :=
  mk s.(settings) s.(vad) s.(audio_buffer) s.(audio_buffer_maxlen) s.(voice_segments)
     s.(activation_phrases) s.(is_running) l s.(stats)
     s.(_whisper_model) s.(log) s.(trace).
Definition set_stats st (s : t) : t :=
  mk s.(settings) s.(vad) s.(audio_buffer) s.(audio_buffer_maxlen) s.(voice_segments)
     s.(activation_phrases) s.(is_running) s.(last_activation_time) st
     s.(_whisper_model) s.(log) s.(trace).
Definition set_whisper_model w (s : t) : t :=
  mk s.(settings) s.(vad) s.(audio_buffer) s.(audio_buffer_maxlen) s.(voice_segments)
     s.(activation_phrases) s.(is_running) s.(last_activation_time) s.(stats)
     w s.(log) s.(trace).
Definition logger (lv : level) (msg : string) (s : t) : t :=
  mk s.(settings) s.(vad) s.(audio_buffer) s.(audio_buffer_maxlen) s.(voice_segments)
     s.(activation_phrases) s.(is_running) s.(last_activation_time) s.(stats)
     s.(_whisper_model) (s.(log) ++ [(lv, msg)]) s.(trace).
Definition record (e : event) (s : t) : t :=
  mk s.(settings) s.(vad) s.(audio_buffer) s.(audio_buffer_maxlen) s.(voice_segments)
     s.(activation_phrases) s.(is_running) s.(last_activation_time) s.(stats)
     s.(_whisper_model) s.(log) (s.(trace) ++ [e]).

(** [d[key] = value] on an insertion-ordered dict: an existing key keeps
    its position and takes the new value, a new key goes last. *)
Fixpoint dict_set {V} (d : list (string * V)) (key : string) (value : V) : list (string * V) :=
  match d with
  | [] => [(key, value)]
  | (k, v) :: d' =>
      if String.eqb k key then (k, value) :: d' else (k, v) :: dict_set d' key value
  end.

Fixpoint dict_del {V} (d : list (string * V)) (key : string) : list (string * V) :=
  match d with
  | [] => []
  | (k, v) :: d' => if String.eqb k key then d' else (k, v) :: dict_del d' key
  end.

Definition builtin_handlers : list (string * handler) :=
  [ ("start_recording", _handle_start_recording);
    ("mark_important", _handle_mark_important);
    ("analyze_content", _handle_analyze_content);
    ("show_status", _handle_show_status);
    ("pause_recording", _handle_pause_recording) ]%string.

(** The dict display of [__init__], entry by entry. *)
Fixpoint build_phrases (phrases : list (string * string))
    (entries : list (string * handler)) (acc : list (string * handler))
    : result (list (string * handler)) :=
  match entries with
  | [] => Ret acc
  | (key, h) :: rest =>
      match Settings.phrase_of phrases key with
      | Ret phrase => build_phrases phrases rest (dict_set acc phrase h)
      | Raise e => Raise e
      end
  end.

Definition stats0 : proc_stats :=
  {| chunks_processed := 0; voice_segments_detected := 0;
     activations_detected := 0; processing_time_total := 0 |}.

Definition init (settings : Settings.t) : result t :=
  match VoiceActivityDetector.init settings with
  | Raise e => Raise e
  | Ret vad =>
      let maxlen := (settings.(Settings.audio).(Settings.buffer_duration_sec)
                     * settings.(Settings.audio).(Settings.sample_rate))%Z in
      if (maxlen <? 0)%Z then Raise (ValueError "maxlen must be non-negative")
      else
        match build_phrases settings.(Settings.activation).(Settings.phrases)
                            builtin_handlers [] with
        | Raise e => Raise e
        | Ret table =>
            Ret {| settings := settings; vad := vad;
                   audio_buffer := []; audio_buffer_maxlen := maxlen;
                   voice_segments := [];
                   activation_phrases := table;
                   is_running := false;
                   last_activation_time := 0;
                   stats := stats0;
                   _whisper_model := None;
                   log := []; trace := [] |}
        end
  end.

Definition add_custom_activation_phrase (phrase : string) (h : handler) : M t unit :=
  modify (fun s => set_activation_phrases (dict_set s.(activation_phrases) (lower phrase) h) s) ;;;
  modify (logger LInfo "Added custom activation phrase").

Definition remove_activation_phrase (phrase : string) : M t unit :=
  self <- get ;;
  if existsb (fun kv => String.eqb (fst kv) (lower phrase)) self.(activation_phrases) then
    modify (fun s => set_activation_phrases (dict_del s.(activation_phrases) (lower phrase)) s) ;;;
    modify (logger LInfo "Removed activation phrase")
  else ret tt.

(** *** Lifecycle *)

Definition _load_whisper_model (load : result whisper) : M t unit :=
  try_except
    (modify (logger LInfo "Loading Whisper model") ;;;
     m <- call load ;;
     modify (set_whisper_model (Some m)) ;;;
     modify (logger LInfo "Whisper model loaded successfully"))
    (fun e => modify (logger LError "Failed to load Whisper model") ;;;
              raise e).

Definition start (load_silero : result SileroVAD.net)
    (make_webrtc : result WebRTCVAD.detector) (load_whisper : result whisper)
    : M t unit :=
  self <- get ;;
  if self.(is_running) then ret tt
  else
    try_except
      (modify (logger LInfo "Starting audio processor") ;;;
       zoom vad set_vad (VoiceActivityDetector.initialize load_silero make_webrtc) ;;;
       _load_whisper_model load_whisper ;;;
       modify (set_is_running true) ;;;
       modify (logger LInfo "Audio processor started successfully"))
      (fun e => modify (logger LError "Failed to start audio processor") ;;;
                raise e).

Definition stop : M t unit :=
  self <- get ;;
  if negb self.(is_running) then ret tt
  else
    try_except
      (modify (logger LInfo "Stopping audio processor") ;;;
       modify (set_is_running false) ;;;
       zoom vad set_vad VoiceActivityDetector.cleanup ;;;
       modify (logger LInfo "Audio processor stopped"))
      (fun e => modify (logger LError "Error stopping audio processor")).

(** *** Voice activation handlers *)

Definition run_handler (h : handler) : M t unit :=
  match h with
  | _handle_start_recording =>
      modify (logger LInfo "Activating high-quality recording mode")
  | _handle_mark_important =>
      modify (logger LInfo "Marking recent content as important")
  | _handle_analyze_content =>
      modify (logger LInfo "Starting content analysis")
  | _handle_show_status =>
      modify (logger LInfo "Displaying system status") ;;;
      modify (record (Printed "System Status:"))
  | _handle_pause_recording =>
      modify (logger LInfo "Pausing recording temporarily")
  | custom _ behaviour => call behaviour
  end.

(** [await handler()] *)
Definition dispatch (h : handler) : M t unit :=
  modify (record (Dispatched h)) ;;;
  run_handler h.

(** *** Transcription and phrase matching *)

Definition _transcribe_audio (audio_array : list Z) : M t (option string) :=
  self <- get ;;
  match self.(_whisper_model) with
  | None => ret None
  | Some transcribe =>
      try_except
        (let audio_float := map (fun z => inject_Z z / 32768) audio_array in
         modify (record (Transcribed audio_array)) ;;;
         result <- call (transcribe audio_float) ;;
         ret (Some (strip (match result with Some txt => txt | None => EmptyString end))))
        (fun e => modify (logger LError "Error transcribing audio") ;;;
                  ret None)
  end.

(** [np.concatenate] refuses an empty sequence of arrays. *)
Definition concatenate (arrays : list (list Z)) : result (list Z) :=
  match arrays with
  | [] => Raise (ValueError "need at least one array to concatenate")
  | _ => Ret (concat arrays)
  end.

(** Modelled from the spec: [vault.writer.VaultWriter] is not among the
    sources; following the journal collaborator of the specification,
    [write_transcription] records the entry it is handed. *)
Definition write_transcription (entry : transcription) : M t unit :=
  modify (record (Wrote entry)).

(** [for phrase, handler in self.activation_phrases.items(): ... break],
    returning [(activation_detected, matched_phrase)]. *)
Fixpoint match_phrases (text_lower : string) (current_time : Q)
    (table : list (string * handler)) : M t (bool * option string) :=
  match table with
  | [] => ret (false, None)
  | (phrase, h) :: rest =>
      if contains phrase text_lower then
        modify (logger LInfo "Voice activation detected") ;;;
        dispatch h ;;;
        modify (set_last_activation_time current_time) ;;;
        modify (fun s =>
          set_stats {| chunks_processed := s.(stats).(chunks_processed);
                       voice_segments_detected := s.(stats).(voice_segments_detected);
                       activations_detected := s.(stats).(activations_detected) + 1;
                       processing_time_total := s.(stats).(processing_time_total) |} s) ;;;
        ret (true, Some phrase)
      else match_phrases text_lower current_time rest
  end.

(** The [if text:] block of [_check_for_activation_phrases]. *)
Definition match_and_record (txt : string) (current_time : Q) : M t unit :=
  let text_lower := strip (lower txt) in
  self <- get ;;
  found <- match_phrases text_lower current_time self.(activation_phrases) ;;
  write_transcription {| text := txt; confidence := 9 # 10;
                         is_activation := fst found;
                         activation_command := snd found |}.

Definition gated (self : t) (current_time : Q) : bool :=
  Qltb (current_time - self.(last_activation_time))
       self.(settings).(Settings.activation).(Settings.cooldown_sec).

Definition _check_for_activation_phrases (current_time : Q) : M t unit :=
  self <- get ;;
  if gated self current_time then ret tt
  else
    try_except
      (combined_audio <- call (concatenate (map audio (last_n 5 self.(voice_segments)))) ;;
       transcript <- _transcribe_audio combined_audio ;;
       match transcript with
       | Some txt => if truthy txt then match_and_record txt current_time else ret tt
       | None => ret tt
       end)
      (fun e => modify (logger LError "Error checking activation phrases")).

(** *** Per-chunk processing *)

Definition _handle_voice_detected (audio_array : list Z) (timestamp : Q)
    (current_time : Q) : M t unit :=
  self <- get ;;
  let sample_rate := self.(settings).(Settings.audio).(Settings.sample_rate) in
  (if (sample_rate =? 0)%Z then raise ZeroDivisionError else ret tt) ;;;
  let seg := {| audio := audio_array; timestamp := timestamp;
                duration := inject_Z (len audio_array) / inject_Z sample_rate |} in
  modify (fun s => set_voice_segments (s.(voice_segments) ++ [seg]) s) ;;;
  let cutoff_time := timestamp - 10 in
  modify (fun s => set_voice_segments
                     (filter (fun sg => Qltb cutoff_time sg.(AudioProcessor.timestamp))
                             s.(voice_segments)) s) ;;;
  modify (fun s =>
    set_stats {| chunks_processed := s.(stats).(chunks_processed);
                 voice_segments_detected := s.(stats).(voice_segments_detected) + 1;
                 activations_detected := s.(stats).(activations_detected);
                 processing_time_total := s.(stats).(processing_time_total) |} s) ;;;
  self <- get ;;
  if (3 <=? length self.(voice_segments))%nat
  then _check_for_activation_phrases current_time
  else ret tt.

Definition _mark_for_pruning (timestamp : Q) : M t unit := ret tt.

Definition _handle_silence_detected (audio_array : list Z) (timestamp : Q) : M t unit :=
  _mark_for_pruning timestamp.

(** The readings of [time.time()] taken while one chunk is processed. *)
Record clock : Type := {
  t_start : Q;
  t_vad : Q * Q;
  t_check : Q;
  t_end : Q
}.

Definition process_chunk (clk : clock) (audio_data : list byte) (timestamp : Q)
    : M t unit :=
  self <- get ;;
  if negb self.(is_running) then ret tt
  else
    let start_time := clk.(t_start) in
    try_except
      (audio_array <- call (frombuffer audio_data) ;;
       modify (fun s => set_audio_buffer
                          (deque_extend s.(audio_buffer_maxlen) s.(audio_buffer) audio_array) s) ;;;
       modify (record (Classified audio_array)) ;;;
       has_voice <- zoom vad set_vad
                      (VoiceActivityDetector.detect_voice_activity clk.(t_vad) audio_array) ;;
       (if has_voice : bool
        then _handle_voice_detected audio_array timestamp clk.(t_check)
        else _handle_silence_detected audio_array timestamp) ;;;
       let processing_time := clk.(t_end) - start_time in
       modify (fun s =>
         set_stats {| chunks_processed := s.(stats).(chunks_processed) + 1;
                      voice_segments_detected := s.(stats).(voice_segments_detected);
                      activations_detected := s.(stats).(activations_detected);
                      processing_time_total :=
                        s.(stats).(processing_time_total) + processing_time |} s))
      (fun e => modify (logger LError "Error processing audio chunk")).

(** *** Status *)

(** The dict returned by [get_status]; [avg_processing_time_ms] is the
    entry added to the copy of [self.stats]. *)
Record status : Type := {
  status_is_running : bool;
  buffer_size : Z;
  buffer_max_size : Z;
  voice_segments_count : Z;
  whisper_model_loaded : bool;
  status_counters : proc_stats;
  avg_processing_time_ms : Q;
  vad_status : option VADStatus
}.

Definition get_status (self : t) : status :=
  let avg_processing_time :=
    if (0 <? self.(stats).(chunks_processed))%Z
    then self.(stats).(processing_time_total) / inject_Z self.(stats).(chunks_processed)
    else 0 in
  {| status_is_running := self.(is_running);
     buffer_size := len self.(audio_buffer);
     buffer_max_size := self.(audio_buffer_maxlen);
     voice_segments_count := len self.(voice_segments);
     whisper_model_loaded :=
       match self.(_whisper_model) with Some _ => true | None => false end;
     status_counters := self.(stats);
     avg_processing_time_ms := avg_processing_time * 1000;
     vad_status := Some (VoiceActivityDetector.get_status self.(vad)) |}.

End AudioProcessor.

(** ** Capture supervision and stream segmentation
       ([src/capture/webcam_capture.py]) *)

Module WebcamCapture.

(** A [subprocess.Popen] handle. *)
Record Popen : Type := { pid : Z }.

Record t : Type := mk {
  settings : Settings.t;
  audio_processor : AudioProcessor.t;
  is_recording : bool;
  process : option Popen;
  start_time : option Q;
  last_heartbeat : option Q;
  log : list log_entry;
  (** Arguments of the calls [audio_processor.process_chunk(audio_data, t)],
      in order; not a Python field. *)
  sent : list (list byte * Q)
}.

Definition set_audio_processor a (s : t) : t :=
  mk s.(settings) a s.(is_recording) s.(process) s.(start_time)
     s.(last_heartbeat) s.(log) s.(sent).
Definition set_process p (s : t) : t :=
  mk s.(settings) s.(audio_processor) s.(is_recording) p s.(start_time)
     s.(last_heartbeat) s.(log) s.(sent).
Definition set_last_heartbeat h (s : t) : t :=
  mk s.(settings) s.(audio_processor) s.(is_recording) s.(process) s.(start_time)
     h s.(log) s.(sent).
Definition logger (lv : level) (msg : string) (s : t) : t :=
  mk s.(settings) s.(audio_processor) s.(is_recording) s.(process) s.(start_time)
     s.(last_heartbeat) (s.(log) ++ [(lv, msg)]) s.(sent).
Definition record_sent (audio_data : list byte) (now : Q) (s : t) : t :=
  mk s.(settings) s.(audio_processor) s.(is_recording) s.(process) s.(start_time)
     s.(last_heartbeat) s.(log) (s.(sent) ++ [(audio_data, now)]).

(** *** Stream segmentation *)

Definition chunk_size : Z := 1024.
Definition frame_bytes : Z := 32000.

(** What one turn of the read loop meets: the outcome of
    [self.process.stdout.read(chunk_size)] and, should a frame be complete,
    the clock readings used while it is handed on. *)
Record read : Type := {
  chunk : result (list byte);
  now : Q;
  clk : AudioProcessor.clock;
  wall : Q
}.

(** [await self.audio_processor.process_chunk(audio_data, time.time())] *)
Definition send (r : read) (audio_data : list byte) : M t unit :=
  modify (record_sent audio_data r.(now)) ;;;
  zoom audio_processor set_audio_processor
       (AudioProcessor.process_chunk r.(clk) audio_data r.(now)).

(** The [while self.is_recording and self.process] loop, one [read] per
    turn, with the local [buffer] as accumulator; the result is the buffer
    the loop leaves behind.  A list of reads that runs out stands for the
    loop being stopped from outside. *)
Fixpoint stream_loop (reads : list read) (buffer : list byte) : M t (list byte) :=
  match reads with
  | [] => ret buffer
  | r :: rest =>
      self <- get ;;
      match self.(is_recording), self.(process) with
      | true, Some _ =>
          match r.(chunk) with
          | Raise e =>
              modify (logger LError "Error processing audio chunk") ;;;
              stream_loop rest buffer
          | Ret [] => ret buffer
          | Ret data =>
              let buffer := buffer ++ data in
              if (frame_bytes <=? len buffer)%Z then
                let audio_data := slice buffer 0 frame_bytes in
                let buffer := skipn (Z.to_nat frame_bytes) buffer in
                try_except
                  (send r audio_data ;;;
                   modify (set_last_heartbeat (Some r.(wall))))
                  (fun e => modify (logger LError "Error processing audio chunk")) ;;;
                stream_loop rest buffer
              else stream_loop rest buffer
          end
      | _, _ => ret buffer
      end
  end.

Definition _process_audio_stream (reads : list read) : M t unit :=
  self <- get ;;
  match self.(process) with
  | None => ret tt
  | Some _ =>
      modify (logger LInfo "Starting audio stream processing") ;;;
      try_except
        (stream_loop reads [] ;;; ret tt)
        (fun e => modify (logger LError "Audio stream processing failed")) ;;;
      modify (logger LInfo "Audio stream processing stopped")
  end.

(** *** Supervision *)

(** [subprocess.Popen(cmd, ...)]; the reader task it is followed by is
    [_process_audio_stream], run on its own. *)
Definition _start_capture_process (spawn : result Popen) : M t unit :=
  modify (logger LInfo "Starting FFmpeg process") ;;;
  try_except
    (p <- call spawn ;;
     modify (set_process (Some p)))
    (fun e => modify (logger LError "Failed to start FFmpeg process") ;;;
              raise e).

(** [self.process.terminate()] then [await self._wait_for_process()]:
    both return once the process has exited. *)
Definition _wait_for_process : M t unit := ret tt.

Definition _restart_capture (spawn : result Popen) : M t unit :=
  try_except
    (modify (logger LInfo "Restarting capture process") ;;;
     self <- get ;;
     (match self.(process) with
      | Some _ => _wait_for_process
      | None => ret tt
      end) ;;;
     _start_capture_process spawn ;;;
     modify (logger LInfo "Capture process restarted successfully"))
    (fun e => modify (logger LError "Failed to restart capture process")).

(** What one health check observes: [self.process.poll()], the wall clock,
    and the outcome of [Popen] should a restart be made. *)
Record health_check : Type := {
  poll : option Z;
  checked_at : Q;
  spawn : result Popen
}.

(** The body of [while self.is_recording] in [_monitor_capture]. *)
Definition monitor_iteration (hc : health_check) : M t unit :=
  try_except
    (self <- get ;;
     match self.(process) with
     | None => ret tt
     | Some _ =>
         match hc.(poll) with
         | Some return_code =>
             modify (logger LWarning "Capture process died, restarting") ;;;
             _restart_capture hc.(spawn)
         | None =>
             match self.(last_heartbeat) with
             | Some beat =>
                 let heartbeat_age := hc.(checked_at) - beat in
                 if Qltb 60 heartbeat_age then
                   modify (logger LWarning "No audio data received, restarting capture") ;;;
                   _restart_capture hc.(spawn)
                 else ret tt
             | None => ret tt
             end
         end
     end)
    (fun e => modify (logger LError "Error in capture monitoring")).

Fixpoint _monitor_capture (checks : list health_check) : M t unit :=
  match checks with
  | [] => ret tt
  | hc :: rest =>
      self <- get ;;
      if self.(is_recording)
      then monitor_iteration hc ;;; _monitor_capture rest
      else ret tt
  end.

Definition is_restart_entry (e : log_entry) : bool :=
  match e with
  | (LInfo, msg) => String.eqb msg "Restarting capture process"
  | _ => false
  end.

(** Number of restart attempts made so far, read off the log. *)
Definition restart_attempts (self : t) : nat :=
  length (filter is_restart_entry self.(log)).

(** *** Starting, stopping, pausing *)

Definition set_is_recording r (s : t) : t :=
  mk s.(settings) s.(audio_processor) r s.(process) s.(start_time)
     s.(last_heartbeat) s.(log) s.(sent).
Definition set_start_time st (s : t) : t :=
  mk s.(settings) s.(audio_processor) s.(is_recording) s.(process) st
     s.(last_heartbeat) s.(log) s.(sent).

(** [start]; [started_at] is the reading of [datetime.now()].  The
    monitoring task it creates is [_monitor_capture], run on its own. *)
Definition start (spawn : result Popen) (started_at : Q) : M t unit :=
  self <- get ;;
  if self.(is_recording) then modify (logger LWarning "Capture already running")
  else
    try_except
      (modify (logger LInfo "Starting webcam capture") ;;;
       _start_capture_process spawn ;;;
       modify (set_is_recording true) ;;;
       modify (set_start_time (Some started_at)) ;;;
       modify (logger LInfo "Webcam capture started successfully"))
      (fun e => modify (logger LError "Failed to start webcam capture") ;;;
                raise e).

(** [stop]; [exits_in_time] tells whether the process exits within the ten
    seconds [asyncio.wait_for] allows, failing which it is killed. *)
Definition stop (exits_in_time : bool) : M t unit :=
  self <- get ;;
  if negb self.(is_recording) then ret tt
  else
    try_except
      (modify (logger LInfo "Stopping webcam capture") ;;;
       modify (set_is_recording false) ;;;
       self <- get ;;
       (match self.(process) with
        | Some _ =>
            if exits_in_time then _wait_for_process
            else modify (logger LWarning "Process didn't terminate gracefully, forcing kill")
        | None => ret tt
        end) ;;;
       modify (logger LInfo "Webcam capture stopped"))
      (fun e => modify (logger LError "Error stopping webcam capture")).

Definition pause_video : M t unit :=
  self <- get ;;
  if negb self.(is_recording) then ret tt
  else
    try_except
      (modify (logger LInfo "Pausing video recording") ;;;
       self <- get ;;
       (match self.(process) with
        | Some _ => _wait_for_process ;;; modify (set_process None)
        | None => ret tt
        end) ;;;
       modify (logger LInfo "Video recording paused"))
      (fun e => modify (logger LError "Failed to pause video recording")).

Definition resume_video (spawn : result Popen) : M t unit :=
  self <- get ;;
  match self.(process) with
  | Some _ => ret tt
  | None =>
      try_except
        (modify (logger LInfo "Resuming video recording") ;;;
         _start_capture_process spawn ;;;
         modify (logger LInfo "Video recording resumed"))
        (fun e => modify (logger LError "Failed to resume video recording"))
  end.

End WebcamCapture.

(** * Specification vocabulary *)

(** ** Frames of computations *)

(** [keeps f m]: running [m] leaves the component [f] of the state as it
    was, whether [m] returns or raises. *)
Definition keeps {S A X} (f : S -> X) (m : M S A) : Prop :=
  forall s, f (snd (m s)) = f s.

(** [total m]: [m] returns normally from every state. *)
Definition total {S A} (m : M S A) : Prop :=
  forall s, exists a, fst (m s) = Ret a.

(** ** The heuristic backend *)

Module HeuristicSpec.
Import WebRTCVAD.

(** Verdicts of the detector on a sub-frame: voice, and classified at all
    (the detector returned rather than raised). *)
Definition voiced (is_speech : detector) (rate : Z) (f : list byte) : bool :=
  match is_speech f rate with Ret true => true | _ => false end.

Definition classified (is_speech : detector) (rate : Z) (f : list byte) : bool :=
  match is_speech f rate with Ret _ => true | Raise _ => false end.

(** The full-size slices met by the loop over [indices]. *)
Definition windows (audio_bytes : list byte) (step : Z) (indices : list Z)
    : list (list byte) :=
  filter (fun f => (len f =? step)%Z)
         (map (fun i => slice audio_bytes i (i + step)) indices).

(** The complete sub-frames of a frame: consecutive windows of
    [frame_size] samples (two bytes each), as many as fit. *)
Definition sub_frames (frame_size : Z) (audio_bytes : list byte) : list (list byte) :=
  let step := Z.to_nat (frame_size * 2) in
  map (fun k => firstn step (skipn (k * step) audio_bytes))
      (seq 0 (length audio_bytes / step)).

(** What [__init__] establishes and no method changes: sub-frames last
    30 ms. *)
Definition well_formed (w : t) : Prop :=
  w.(frame_duration_ms) = 30%Z
  /\ w.(frame_size) = Z.quot (w.(sample_rate) * w.(frame_duration_ms)) 1000.

End HeuristicSpec.

Import HeuristicSpec.

(** ** Processor states and recognition *)

Module ProcessorSpec.
Import AudioProcessor.

Definition new_segment (self : AudioProcessor.t) (audio_array : list Z) (timestamp : Q)
    : AudioProcessor.segment :=
  {| AudioProcessor.audio := audio_array;
     AudioProcessor.timestamp := timestamp;
     AudioProcessor.duration :=
       inject_Z (len audio_array)
       / inject_Z self.(AudioProcessor.settings).(Settings.audio).(Settings.sample_rate) |}.

(** The processor once [_handle_voice_detected] has appended the segment,
    evicted the expired ones and counted the detection. *)
Definition with_segment (self : AudioProcessor.t) (audio_array : list Z) (timestamp : Q)
    : AudioProcessor.t :=
  let kept := filter (fun sg => Qltb (timestamp - 10) sg.(AudioProcessor.timestamp))
                     (self.(AudioProcessor.voice_segments)
                      ++ [new_segment self audio_array timestamp]) in
  AudioProcessor.set_stats
    {| AudioProcessor.chunks_processed :=
         self.(AudioProcessor.stats).(AudioProcessor.chunks_processed);
       AudioProcessor.voice_segments_detected :=
         self.(AudioProcessor.stats).(AudioProcessor.voice_segments_detected) + 1;
       AudioProcessor.activations_detected :=
         self.(AudioProcessor.stats).(AudioProcessor.activations_detected);
       AudioProcessor.processing_time_total :=
         self.(AudioProcessor.stats).(AudioProcessor.processing_time_total) |}
    (AudioProcessor.set_voice_segments kept self).

(** An exception reaches the [except] clause of the backend's
    [detect_voice_activity]: the body of its [try] ends in an exception. *)
Definition reaches_except (v : VoiceActivityDetector.t) (clock : Q * Q)
    (audio : list Z) : Prop :=
  match v with
  | VoiceActivityDetector.Silero s =>
      exists run e, s.(SileroVAD.model) = Some run
                    /\ fst (SileroVAD.detect_body run clock audio s) = Raise e
  | VoiceActivityDetector.WebRTC w =>
      exists is_speech e, w.(WebRTCVAD.vad) = Some is_speech
                          /\ fst (WebRTCVAD.detect_body is_speech clock audio w) = Raise e
  end.

(** The detector of the heuristic backend raises on the frame: on each of
    its complete sub-frames, of which there is at least one.  (These
    exceptions are caught sub-frame by sub-frame and never reach the outer
    [except].) *)
Definition detector_fails (v : VoiceActivityDetector.t) (audio : list Z) : Prop :=
  match v with
  | VoiceActivityDetector.Silero _ => False
  | VoiceActivityDetector.WebRTC w =>
      exists is_speech,
        w.(WebRTCVAD.vad) = Some is_speech
        /\ well_formed w
        /\ WebRTCVAD.supported w.(WebRTCVAD.sample_rate) = true
        /\ sub_frames w.(WebRTCVAD.frame_size) (tobytes audio) <> []
        /\ (forall f, In f (sub_frames w.(WebRTCVAD.frame_size) (tobytes audio)) ->
                      exists e, is_speech f w.(WebRTCVAD.sample_rate) = Raise e)
  end.

(** The backend raises on a frame. *)
Definition backend_raises (v : VoiceActivityDetector.t) (clock : Q * Q)
    (audio : list Z) : Prop :=
  reaches_except v clock audio \/ detector_fails v audio.

(** The detector after its [except] clause has logged the error. *)
Definition error_logged (v : VoiceActivityDetector.t) : VoiceActivityDetector.t :=
  match v with
  | VoiceActivityDetector.Silero s =>
      VoiceActivityDetector.Silero
        (SileroVAD.logger LError "Error in Silero VAD detection" s)
  | VoiceActivityDetector.WebRTC w =>
      VoiceActivityDetector.WebRTC
        (WebRTCVAD.logger LError "Error in WebRTC VAD detection" w)
  end.

(** The processor after a chunk that went down the silence path. *)
Definition after_silence (self : t) (clk : clock) (audio_array : list Z)
    (v : VoiceActivityDetector.t) : t :=
  let s := set_vad v
             (record (Classified audio_array)
                (set_audio_buffer
                   (deque_extend self.(audio_buffer_maxlen) self.(audio_buffer) audio_array)
                   self)) in
  set_stats {| chunks_processed := self.(stats).(chunks_processed) + 1;
               voice_segments_detected := self.(stats).(voice_segments_detected);
               activations_detected := self.(stats).(activations_detected);
               processing_time_total :=
                 self.(stats).(processing_time_total) + (clk.(t_end) - clk.(t_start)) |} s.

(** [p] occurs in [s] as a substring. *)
Definition substring_of (p s : string) : Prop :=
  exists a b, s = (a ++ p ++ b)%string.

(** Handlers awaited and journal entries written, read off the record of
    collaborator calls. *)
Definition dispatched (tr : list event) : list handler :=
  flat_map (fun e => match e with Dispatched h => [h] | _ => [] end) tr.

Definition written (tr : list event) : list transcription :=
  flat_map (fun e => match e with Wrote entry => [entry] | _ => [] end) tr.

Definition returns_normally (h : handler) : Prop :=
  match h with
  | custom _ (Raise _) => False
  | _ => True
  end.

(** The processor after a handler that returned. *)
Definition after_handler (h : handler) (s : t) : t :=
  match h with
  | _handle_start_recording => logger LInfo "Activating high-quality recording mode" s
  | _handle_mark_important => logger LInfo "Marking recent content as important" s
  | _handle_analyze_content => logger LInfo "Starting content analysis" s
  | _handle_show_status =>
      record (Printed "System Status:") (logger LInfo "Displaying system status" s)
  | _handle_pause_recording => logger LInfo "Pausing recording temporarily" s
  | custom _ _ => s
  end.

(** The state once the matched handler has been awaited, up to the
    [break]. *)
Definition activated (h : handler) (current_time : Q) (s : t) : t :=
  let s1 := after_handler h
              (record (Dispatched h) (logger LInfo "Voice activation detected" s)) in
  set_stats {| chunks_processed := s1.(stats).(chunks_processed);
               voice_segments_detected := s1.(stats).(voice_segments_detected);
               activations_detected := s1.(stats).(activations_detected) + 1;
               processing_time_total := s1.(stats).(processing_time_total) |}
    (set_last_activation_time current_time s1).

Definition entry_of (txt : string) (found : bool * option string) : transcription :=
  {| text := txt; confidence := 9 # 10;
     is_activation := fst found; activation_command := snd found |}.

(** What the cooldown gate reads and what an activation updates. *)
Definition cool (s : t) : Q * Z :=
  (s.(last_activation_time), s.(stats).(activations_detected)).

(** Either nothing moved, or one activation completed at [current_time]. *)
Definition advance (current_time : Q) (c c' : Q * Z) : Prop :=
  c' = c \/ c' = (current_time, (snd c + 1)%Z).

Definition moves {A} (current_time : Q) (m : M t A) : Prop :=
  forall s, advance current_time (cool s) (cool (snd (m s))).

(** Attempt after attempt: each at its own time, each preceded by whatever
    else happened to the processor in between ([prepare]).  The result
    lists the times at which an activation completed. *)
Fixpoint activation_times (attempts : list (Q * (t -> t))) (s : t) : list Q :=
  match attempts with
  | [] => []
  | (current_time, prepare) :: rest =>
      let s0 := prepare s in
      let s1 := snd (_check_for_activation_phrases current_time s0) in
      (if (s1.(stats).(activations_detected) =? s0.(stats).(activations_detected))%Z
       then [] else [current_time])
      ++ activation_times rest s1
  end.

(** [prepare] leaves the cooldown state and its setting alone. *)
Definition bystander (prepare : t -> t) : Prop :=
  forall s, cool (prepare s) = cool s
            /\ (prepare s).(settings) = s.(settings).

(** Each time is at least [cooldown] after the one before, starting
    from [last]. *)
Inductive separated (cooldown : Q) : Q -> list Q -> Prop :=
| separated_nil : forall last, separated cooldown last []
| separated_cons : forall last current_time rest,
    cooldown <= current_time - last ->
    separated cooldown current_time rest ->
    separated cooldown last (current_time :: rest).

End ProcessorSpec.

Import ProcessorSpec.

(** ** Capture *)

Module CaptureSpec.
Import WebcamCapture.

(** The bytes the loop consumes: the chunks read up to the first empty
    read, failed reads aside. *)
Fixpoint stream_bytes (reads : list read) : list byte :=
  match reads with
  | [] => []
  | r :: rest =>
      match r.(chunk) with
      | Raise _ => stream_bytes rest
      | Ret [] => []
      | Ret data => data ++ stream_bytes rest
      end
  end.

(** [read(chunk_size)] returns at most [chunk_size] bytes. *)
Definition bounded (r : read) : Prop :=
  match r.(chunk) with
  | Ret data => (len data <= chunk_size)%Z
  | Raise _ => True
  end.

(** Handing one frame on, as the loop does it. *)
Definition emit (r : read) (audio_data : list byte) : M t unit :=
  try_except
    (send r audio_data ;;;
     modify (set_last_heartbeat (Some r.(wall))))
    (fun e => modify (logger LError "Error processing audio chunk")).

(** The health check finds that the process has exited with a non-zero
    code. *)
Definition died (hc : health_check) : Prop :=
  exists return_code, hc.(poll) = Some return_code /\ return_code <> 0%Z.

End CaptureSpec.

Import CaptureSpec.

(** ** Detector life cycle *)

Module DetectorSpec.

(** The counters add up: each detection was counted as voice or as
    silence, never as both. *)
Definition consistent (st : vad_stats) : Prop :=
  (0 <= st.(voice_detected))%Z /\ (0 <= st.(silence_detected))%Z
  /\ st.(detections_total) = (st.(voice_detected) + st.(silence_detected))%Z.

(** What a client may ask of the facade. *)
Inductive detector_call : Type :=
| Initialize (load : result SileroVAD.net) (make : result WebRTCVAD.detector)
| Detect (clock : Q * Q) (audio : list Z)
| Cleanup.

(** The detector after a call, whether the call returned or raised. *)
Definition step_detector (v : VoiceActivityDetector.t) (c : detector_call)
    : VoiceActivityDetector.t :=
  match c with
  | Initialize load make => snd (VoiceActivityDetector.initialize load make v)
  | Detect clock audio => snd (VoiceActivityDetector.detect_voice_activity clock audio v)
  | Cleanup => snd (VoiceActivityDetector.cleanup v)
  end.

Definition run_detector (calls : list detector_call) (v : VoiceActivityDetector.t)
    : VoiceActivityDetector.t :=
  fold_left step_detector calls v.

(** What one detection does to the counters: nothing (and then the verdict
    is [False]), or one detection counted with the verdict returned. *)
Definition counted (clock : Q * Q) (has_voice : bool) (st st' : vad_stats) : Prop :=
  (st' = st /\ has_voice = false)
  \/ st' = record_detection (snd clock - fst clock) has_voice st.

End DetectorSpec.

Import DetectorSpec.

(** ** Phrase tables *)

Module TableSpec.

(** [d.get(key)] *)
Fixpoint lookup {V} (d : list (string * V)) (key : string) : option V :=
  match d with
  | [] => None
  | (k, v) :: d' => if String.eqb k key then Some v else lookup d' key
  end.

(** [list(d.keys())] *)
Definition keys {V} (d : list (string * V)) : list string := map fst d.

(** The characters of a string. *)
Fixpoint chars (s : string) : list ascii :=
  match s with
  | EmptyString => []
  | String c s' => c :: chars s'
  end.

End TableSpec.

Import TableSpec.

(** ** Processor sessions *)

Module SessionSpec.
Import AudioProcessor.

(** What a client may ask of a processor. *)
Inductive request : Type :=
| Start (load_silero : result SileroVAD.net) (make_webrtc : result WebRTCVAD.detector)
        (load_whisper : result whisper)
| Stop
| Chunk (clk : clock) (audio_data : list byte) (timestamp : Q)
| AddPhrase (phrase : string) (h : handler)
| RemovePhrase (phrase : string).

(** The processor after a request, whether the call returned or raised. *)
Definition serve (s : t) (r : request) : t :=
  match r with
  | Start load_silero make_webrtc load_whisper =>
      snd (start load_silero make_webrtc load_whisper s)
  | Stop => snd (stop s)
  | Chunk clk audio_data timestamp => snd (process_chunk clk audio_data timestamp s)
  | AddPhrase phrase h => snd (add_custom_activation_phrase phrase h s)
  | RemovePhrase phrase => snd (remove_activation_phrase phrase s)
  end.

Definition session (requests : list request) (s : t) : t := fold_left serve requests s.

(** The counters never run ahead of one another, nor of the detector's. *)
Definition ordered (s : t) : Prop :=
  (0 <= s.(stats).(activations_detected))%Z
  /\ (s.(stats).(activations_detected) <= s.(stats).(voice_segments_detected))%Z
  /\ (s.(stats).(voice_segments_detected) <= s.(stats).(chunks_processed))%Z
  /\ (s.(stats).(voice_segments_detected)
      <= (VoiceActivityDetector.stats s.(vad)).(voice_detected))%Z.

(** What every request preserves. *)
Definition sound (s : t) : Prop :=
  (0 <= len s.(audio_buffer) <= s.(audio_buffer_maxlen))%Z
  /\ NoDup (keys s.(activation_phrases))
  /\ ordered s
  /\ consistent (VoiceActivityDetector.stats s.(vad)).

(** The counters a recognition attempt leaves alone. *)
Definition steady (s : t) : Z * Z * Q :=
  (s.(stats).(chunks_processed), s.(stats).(voice_segments_detected),
   s.(stats).(processing_time_total)).

(** The fields processing a chunk leaves alone. *)
Definition rigid (s : t) :=
  (s.(settings), s.(audio_buffer_maxlen), s.(activation_phrases), s.(is_running),
   s.(_whisper_model)).

(** The processor once a decoded chunk has been buffered and classified. *)
Definition classified_as (s : t) (audio_array : list Z) (v' : VoiceActivityDetector.t) : t :=
  set_vad v' (record (Classified audio_array)
                (set_audio_buffer
                   (deque_extend s.(audio_buffer_maxlen) s.(audio_buffer) audio_array) s)).

(** The statistics update that ends [process_chunk]. *)
Definition count_chunk (clk : clock) (s : t) : t :=
  set_stats {| chunks_processed := s.(stats).(chunks_processed) + 1;
               voice_segments_detected := s.(stats).(voice_segments_detected);
               activations_detected := s.(stats).(activations_detected);
               processing_time_total :=
                 s.(stats).(processing_time_total) + (clk.(t_end) - clk.(t_start)) |} s.

End SessionSpec.

Import SessionSpec.

(** ** Health checks *)

Module SupervisionSpec.
Import WebcamCapture.

(** The health check finds the process running. *)
Definition alive (hc : health_check) : Prop := hc.(poll) = None.

(** The last frame was handed on more than a minute before the check. *)
Definition stale (beat : Q) (hc : health_check) : Prop := 60 < hc.(checked_at) - beat.

(** The last frame, if any, was handed on at most a minute before the
    check. *)
Definition recent (last_heartbeat : option Q) (hc : health_check) : Prop :=
  match last_heartbeat with
  | Some beat => hc.(checked_at) - beat <= 60
  | None => True
  end.

End SupervisionSpec.

Import SupervisionSpec.

(** ** Concrete inputs *)

Definition sample_frame : list Z := [12; -7; 300; 0; -32768; 32767]%Z.

Definition clock0 : AudioProcessor.clock :=
  {| AudioProcessor.t_start := 100; AudioProcessor.t_vad := (100, 100 + (1 # 100));
     AudioProcessor.t_check := 100 + (2 # 100); AudioProcessor.t_end := 100 + (3 # 100) |}.

(** The processor [AudioProcessor(Settings())] builds. *)
Definition fresh_processor : AudioProcessor.t :=
  {| AudioProcessor.settings := Settings.default;
     AudioProcessor.vad := VoiceActivityDetector.Silero (SileroVAD.init Settings.default);
     AudioProcessor.audio_buffer := [];
     AudioProcessor.audio_buffer_maxlen := 480000;
     AudioProcessor.voice_segments := [];
     AudioProcessor.activation_phrases :=
       [ ("computer start recording", AudioProcessor._handle_start_recording);
         ("computer mark important", AudioProcessor._handle_mark_important);
         ("computer analyze this", AudioProcessor._handle_analyze_content);
         ("computer show status", AudioProcessor._handle_show_status);
         ("computer pause recording", AudioProcessor._handle_pause_recording) ]%string;
     AudioProcessor.is_running := false;
     AudioProcessor.last_activation_time := 0;
     AudioProcessor.stats := AudioProcessor.stats0;
     AudioProcessor._whisper_model := None;
     AudioProcessor.log := [];
     AudioProcessor.trace := [] |}.

Definition webrtc_8k : WebRTCVAD.t :=
  WebRTCVAD.set_vad
    (Some (fun frame _ => Ret (negb (Z_of_byte (hd x00 frame) =? 0)%Z)))
    (WebRTCVAD.init
       {| Settings.audio :=
            {| Settings.vad_threshold := 1 # 2; Settings.vad_model := "webrtc";
               Settings.whisper_model := "tiny"; Settings.buffer_duration_sec := 5;
               Settings.chunk_duration_sec := 1; Settings.sample_rate := 8000;
               Settings.channels := 1 |};
          Settings.activation := Settings.default_activation;
          Settings.system := Settings.default_system |}).

Definition broken_silero : AudioProcessor.t :=
  AudioProcessor.set_is_running true
    (AudioProcessor.set_vad
       (VoiceActivityDetector.Silero
          (SileroVAD.set_model (Some (fun _ _ => Raise (BackendError "inference failed")))
             (SileroVAD.init Settings.default)))
       fresh_processor).

(** A running processor with three seconds of voice whose Whisper model
    hears [raw] whatever it is given. *)
Definition second_of_voice (timestamp : Q) : AudioProcessor.segment :=
  {| AudioProcessor.audio := sample_frame;
     AudioProcessor.timestamp := timestamp;
     AudioProcessor.duration := 1 |}.

Definition listening (raw : string) : AudioProcessor.t :=
  AudioProcessor.set_whisper_model (Some (fun _ => Ret (Some raw)))
    (AudioProcessor.set_voice_segments
       [second_of_voice 98; second_of_voice 99; second_of_voice 100]
       (AudioProcessor.set_is_running true fresh_processor)).

(** A phrase registered through [add_custom_activation_phrase] whose
    handler raises. *)
Definition faulty : AudioProcessor.handler :=
  AudioProcessor.custom "lights" (Raise (BackendError "no bridge")).

Definition listening_with_faulty (raw : string) : AudioProcessor.t :=
  snd (AudioProcessor.add_custom_activation_phrase "Lights On" faulty (listening raw)).

Definition recording : WebcamCapture.t :=
  {| WebcamCapture.settings := Settings.default;
     WebcamCapture.audio_processor := fresh_processor;
     WebcamCapture.is_recording := true;
     WebcamCapture.process := Some {| WebcamCapture.pid := 4242 |};
     WebcamCapture.start_time := Some 0;
     WebcamCapture.last_heartbeat := None;
     WebcamCapture.log := [];
     WebcamCapture.sent := [] |}.

Definition read_of (data : list byte) : WebcamCapture.read :=
  {| WebcamCapture.chunk := Ret data; WebcamCapture.now := 100;
     WebcamCapture.clk := clock0; WebcamCapture.wall := 100 |}.

(** 74000 bytes, read 1000 at a time, then the end of the stream. *)
Definition reads_74000 : list WebcamCapture.read :=
  repeat (read_of (repeat x01 1000)) 74 ++ [read_of []].

Definition crash (next_pid : Z) : WebcamCapture.health_check :=
  {| WebcamCapture.poll := Some 1%Z;
     WebcamCapture.checked_at := 130;
     WebcamCapture.spawn := Ret {| WebcamCapture.pid := next_pid |} |}.

Definition five_crashes : list WebcamCapture.health_check :=
  [crash 1; crash 2; crash 3; crash 4; crash 5].

(** A Silero detector whose network is confident of voice whatever the
    frame. *)
Definition confident_net : SileroVAD.net := fun _ _ => Ret (7 # 10).

Definition confident_silero : SileroVAD.t :=
  SileroVAD.set_model (Some confident_net) (SileroVAD.init Settings.default).

Definition sample_calls : list detector_call :=
  [ Detect (0, 1 # 100) sample_frame;
    Initialize (Ret confident_net) (Raise (BackendError "No module named webrtcvad"));
    Detect (1, 1 + (1 # 100)) sample_frame;
    Cleanup;
    Detect (2, 2 + (1 # 100)) sample_frame ].

(** A phrase configured with capital letters. *)
Definition capitalised_table : list (string * AudioProcessor.handler) :=
  [ ("Computer Start Recording"%string, AudioProcessor._handle_start_recording) ].

Definition sample_requests : list request :=
  [ Chunk clock0 (tobytes sample_frame) 99;
    Start (Ret confident_net) (Raise (BackendError "No module named webrtcvad"))
          (Ret (fun _ => Ret (Some "computer show status"%string)));
    Chunk clock0 (tobytes sample_frame) 100;
    AddPhrase "Lights On" faulty;
    Chunk clock0 [x01; x00; x02] 101;
    RemovePhrase "LIGHTS ON";
    Stop ].

(** A capture whose last frame was handed on at time 0. *)
Definition quiet_recording : WebcamCapture.t :=
  WebcamCapture.set_last_heartbeat (Some 0) recording.

(** A check that finds the process running at time [checked_at]. *)
Definition running_check (checked_at : Q) (next_pid : Z) : WebcamCapture.health_check :=
  {| WebcamCapture.poll := None;
     WebcamCapture.checked_at := checked_at;
     WebcamCapture.spawn := Ret {| WebcamCapture.pid := next_pid |} |}.

(** A crash met while FFmpeg cannot be started again. *)
Definition crash_no_ffmpeg : WebcamCapture.health_check :=
  {| WebcamCapture.poll := Some 1%Z;
     WebcamCapture.checked_at := 130;
     WebcamCapture.spawn := Raise (BackendError "ffmpeg not found") |}.

(** * Properties *)

(** ** Floats as rationals *)

Lemma Qltb_lt x y : Qltb x y = true <-> x < y.
Proof.
  unfold Qltb. rewrite negb_true_iff, <- not_true_iff_false, Qle_bool_iff.
  split; [apply Qnot_le_lt | apply Qlt_not_le].
Qed.

Lemma Qltb_ge x y : Qltb x y = false <-> y <= x.
Proof.
  unfold Qltb. rewrite negb_false_iff. apply Qle_bool_iff.
Qed.

(** ** The runtime on small inputs *)

Example strip_lower_example :
  strip (lower "  Computer START Recording  ") = "computer start recording"%string.
Proof. reflexivity. Qed.

Example contains_example :
  contains "start" "computer start now" = true
  /\ contains "stop" "computer start now" = false
  /\ contains "" "" = true.
Proof. repeat split; reflexivity. Qed.

Example range0_example : range0 10 3 = Ret [0; 3; 6; 9]%Z.
Proof. reflexivity. Qed.

Example slice_example : slice [1; 2; 3; 4; 5]%Z 3 6 = [4; 5]%Z.
Proof. reflexivity. Qed.

Example deque_extend_example :
  deque_extend 3 [1; 2]%Z [3; 4]%Z = [2; 3; 4]%Z
  /\ deque_extend 0 [1; 2]%Z [3]%Z = [].
Proof. split; reflexivity. Qed.

Example frombuffer_example :
  frombuffer (tobytes [12; -7; 300; 0; -32768; 32767]%Z)
  = Ret [12; -7; 300; 0; -32768; 32767]%Z
  /\ frombuffer [x01; x00; x02]
     = Raise (ValueError "buffer size must be a multiple of element size").
Proof. split; reflexivity. Qed.

Example int_of_float_example :
  int_of_float ((1 # 2) * 3) = 1%Z /\ int_of_float (- (3 # 2)) = (-1)%Z.
Proof. split; reflexivity. Qed.

Example dict_set_example :
  AudioProcessor.dict_set [("a", 1); ("b", 2)]%string "a" 3 = [("a", 3); ("b", 2)]%string
  /\ AudioProcessor.dict_set [("a", 1)]%string "c" 3 = [("a", 1); ("c", 3)]%string.
Proof. split; reflexivity. Qed.

(** ** Reasoning about computations *)

Section Frames.

Context {S : Type}.

Lemma keeps_ret {A X} (f : S -> X) (a : A) : keeps f (ret a).
Proof. intro s. reflexivity. Qed.

Lemma keeps_raise {A X} (f : S -> X) e : keeps f (@raise S A e).
Proof. intro s. reflexivity. Qed.

Lemma keeps_call {A X} (f : S -> X) (r : result A) : keeps f (call r).
Proof. intro s. reflexivity. Qed.

Lemma keeps_get {X} (f : S -> X) : keeps f get.
Proof. intro s. reflexivity. Qed.

Lemma keeps_modify {X} (f : S -> X) (g : S -> S) :
  (forall s, f (g s) = f s) -> keeps f (modify g).
Proof. intros H s. apply H. Qed.

Lemma keeps_bind {A B X} (f : S -> X) (m : M S A) (k : A -> M S B) :
  keeps f m -> (forall a, keeps f (k a)) -> keeps f (bind m k).
Proof.
  intros Hm Hk s. unfold bind. specialize (Hm s).
  destruct (m s) as [[a|e] s']; simpl in *.
  - rewrite Hk. exact Hm.
  - exact Hm.
Qed.

Lemma keeps_try_except {A X} (f : S -> X) (m : M S A) (h : exn -> M S A) :
  keeps f m -> (forall e, keeps f (h e)) -> keeps f (try_except m h).
Proof.
  intros Hm Hh s. unfold try_except. specialize (Hm s).
  destruct (m s) as [[a|e] s']; simpl in *.
  - exact Hm.
  - rewrite Hh. exact Hm.
Qed.

Lemma keeps_zoom {T A X} (f : S -> X) (proj : S -> T) (upd : T -> S -> S) (m : M T A) :
  (forall t s, f (upd t s) = f s) -> keeps f (zoom proj upd m).
Proof.
  intros H s. unfold zoom. destruct (m (proj s)) as [r t']. simpl. apply H.
Qed.

Lemma total_ret {A} (a : A) : @total S A (ret a).
Proof. intro s. exists a. reflexivity. Qed.

Lemma total_get : @total S S get.
Proof. intro s. exists s. reflexivity. Qed.

Lemma total_modify (g : S -> S) : total (modify g).
Proof. intro s. exists tt. reflexivity. Qed.

Lemma total_bind {A B} (m : M S A) (k : A -> M S B) :
  total m -> (forall a, total (k a)) -> total (bind m k).
Proof.
  intros Hm Hk s. unfold bind. destruct (Hm s) as [a Ha].
  destruct (m s) as [[a'|e] s']; simpl in Ha; [|discriminate].
  apply Hk.
Qed.

(** A handler that returns makes the whole [try] return. *)
Lemma total_try_except {A} (m : M S A) (h : exn -> M S A) :
  (forall e, total (h e)) -> total (try_except m h).
Proof.
  intros Hh s. unfold try_except.
  destruct (m s) as [[a|e] s']; [exists a; reflexivity | apply Hh].
Qed.

End Frames.

Create HintDb frame discriminated.
#[export] Hint Resolve keeps_ret keeps_raise keeps_call keeps_get keeps_modify
  keeps_bind keeps_try_except keeps_zoom : frame.
#[export] Hint Resolve total_ret total_get total_modify total_bind
  total_try_except : frame.

(** Decompose a computation along its control flow. *)
Ltac frame :=
  repeat first
    [ assumption
    | progress intros
    | match goal with
      | |- keeps _ (bind _ _) => apply keeps_bind
      | |- keeps _ (try_except _ _) => apply keeps_try_except
      | |- keeps _ (modify _) => apply keeps_modify
      | |- keeps _ (zoom _ _ _) => apply keeps_zoom
      | |- keeps _ (ret _) => apply keeps_ret
      | |- keeps _ (raise _) => apply keeps_raise
      | |- keeps _ (call _) => apply keeps_call
      | |- keeps _ get => apply keeps_get
      | |- total (bind _ _) => apply total_bind
      | |- total (try_except _ _) => apply total_try_except
      | |- total (modify _) => apply total_modify
      | |- total (ret _) => apply total_ret
      | |- total get => apply total_get
      | |- keeps _ (if ?b then _ else _) => destruct b
      | |- keeps _ (match ?x with _ => _ end) => destruct x
      | |- total (if ?b then _ else _) => destruct b
      | |- total (match ?x with _ => _ end) => destruct x
      | |- _ = _ => reflexivity
      end ].

(** ** Voice activity detection *)

Lemma silero_detect_unloaded (self : SileroVAD.t) clock audio :
  self.(SileroVAD.model) = None ->
  SileroVAD.detect_voice_activity clock audio self = (Ret false, self).
Proof.
  intros H. unfold SileroVAD.detect_voice_activity, bind, get.
  rewrite H. reflexivity.
Qed.

Lemma webrtc_detect_unloaded (self : WebRTCVAD.t) clock audio :
  self.(WebRTCVAD.vad) = None ->
  WebRTCVAD.detect_voice_activity clock audio self = (Ret false, self).
Proof.
  intros H. unfold WebRTCVAD.detect_voice_activity, bind, get.
  rewrite H. reflexivity.
Qed.

(** C10. Before [initialize] has stored a backend resource ([model_loaded]
    is false), [detect_voice_activity] of either backend returns [False]
    without raising, and leaves the detector, its statistics included, as it
    was; this for every frame and every clock. *)
Theorem detect_before_initialize :
  forall (v : VoiceActivityDetector.t) (clock : Q * Q) (audio : list Z),
    VoiceActivityDetector.model_loaded v = false ->
    VoiceActivityDetector.detect_voice_activity clock audio v = (Ret false, v)
    /\ VoiceActivityDetector.stats
         (snd (VoiceActivityDetector.detect_voice_activity clock audio v))
       = VoiceActivityDetector.stats v.
Proof.
  intros v clock audio H.
  assert (E : VoiceActivityDetector.detect_voice_activity clock audio v = (Ret false, v)).
  { destruct v as [s|w]; simpl in *;
      unfold VoiceActivityDetector.detect_voice_activity, VoiceActivityDetector.delegate;
      simpl.
    - unfold SileroVAD.model_loaded in H.
      destruct (SileroVAD.model s) eqn:Hm; [discriminate|].
      rewrite (silero_detect_unloaded s clock audio Hm). reflexivity.
    - unfold WebRTCVAD.model_loaded in H.
      destruct (WebRTCVAD.vad w) eqn:Hm; [discriminate|].
      rewrite (webrtc_detect_unloaded w clock audio Hm). reflexivity. }
  rewrite E. split; reflexivity.
Qed.

Lemma detect_before_initialize_silero :
  VoiceActivityDetector.detect_voice_activity (0, 1) sample_frame
    (VoiceActivityDetector.Silero (SileroVAD.init Settings.default))
  = (Ret false, VoiceActivityDetector.Silero (SileroVAD.init Settings.default)).
Proof.
  apply (detect_before_initialize
           (VoiceActivityDetector.Silero (SileroVAD.init Settings.default))
           (0, 1) sample_frame).
  reflexivity.
Defined.

(** *** The heuristic backend *)

Module WebRTCFacts.
Import WebRTCVAD.

Section Detector.
Variable is_speech : detector.
Variable rate : Z.

Lemma frames_loop_counts audio_bytes step indices :
  forall v t s,
    fst (frames_loop is_speech rate audio_bytes step indices v t s)
    = Ret ((v + Z.of_nat (length (filter (voiced is_speech rate)
                                           (windows audio_bytes step indices))))%Z,
           (t + Z.of_nat (length (filter (classified is_speech rate)
                                           (windows audio_bytes step indices))))%Z).
Proof.
  induction indices as [|i rest IH]; intros v t s.
  - simpl. f_equal. f_equal; lia.
  - unfold windows in *. simpl.
    destruct (len (slice audio_bytes i (i + step)) =? step)%Z eqn:Hc.
    + unfold bind at 1, try_except, call. simpl.
      unfold voiced at 1, classified at 1.
      destruct (is_speech (slice audio_bytes i (i + step)) rate) as [[|]|e]; simpl;
        rewrite IH; f_equal; f_equal; lia.
    + apply IH.
Qed.
End Detector.

Lemma slice_window (audio_bytes : list byte) (step k : nat) :
  slice audio_bytes (Z.of_nat k * Z.of_nat step)
        (Z.of_nat k * Z.of_nat step + Z.of_nat step)
  = firstn step (skipn (k * step) audio_bytes).
Proof.
  unfold slice. f_equal.
  - lia.
  - f_equal. lia.
Qed.

Lemma window_complete (audio_bytes : list byte) (step k : nat) :
  (0 < step)%nat ->
  (len (firstn step (skipn (k * step) audio_bytes)) =? Z.of_nat step)%Z
  = (k <? length audio_bytes / step)%nat.
Proof.
  intros Hs. unfold len. rewrite length_firstn, length_skipn.
  destruct (k <? length audio_bytes / step)%nat eqn:Hk.
  - apply Nat.ltb_lt in Hk. apply Z.eqb_eq.
    assert (S k * step <= length audio_bytes)%nat.
    { transitivity ((length audio_bytes / step) * step)%nat.
      - apply Nat.mul_le_mono_r. lia.
      - rewrite Nat.mul_comm. apply Nat.Div0.mul_div_le. }
    simpl in H. lia.
  - apply Nat.ltb_ge in Hk. apply Z.eqb_neq.
    assert (length audio_bytes < S k * step)%nat.
    { pose proof (Nat.mul_succ_div_gt (length audio_bytes) step ltac:(lia)) as Hd.
      apply Nat.lt_le_trans with (1 := Hd).
      rewrite Nat.mul_comm. apply Nat.mul_le_mono_r. lia. }
    simpl in H. lia.
Qed.

Lemma windows_prefix (audio_bytes : list byte) (step : nat) :
  (0 < step)%nat ->
  forall c,
    windows audio_bytes (Z.of_nat step)
            (map (fun k => (Z.of_nat k * Z.of_nat step)%Z) (seq 0 c))
    = map (fun k => firstn step (skipn (k * step) audio_bytes))
          (seq 0 (Nat.min c (length audio_bytes / step))).
Proof.
  intros Hs. unfold windows. induction c as [|c IH].
  - reflexivity.
  - rewrite seq_S, !map_app, filter_app, IH.
    cbn [map filter Nat.add].
    rewrite slice_window, window_complete by exact Hs.
    destruct (c <? length audio_bytes / step)%nat eqn:Hk.
    + apply Nat.ltb_lt in Hk.
      replace (Nat.min (S c) (length audio_bytes / step)) with (S c) by lia.
      replace (Nat.min c (length audio_bytes / step)) with c by lia.
      rewrite seq_S, map_app. reflexivity.
    + apply Nat.ltb_ge in Hk. rewrite app_nil_r.
      f_equal. f_equal. lia.
Qed.

Lemma windows_range (audio_bytes : list byte) (frame_size : Z) indices :
  (0 < frame_size)%Z ->
  range0 (len audio_bytes) (frame_size * 2) = Ret indices ->
  windows audio_bytes (frame_size * 2) indices = sub_frames frame_size audio_bytes.
Proof.
  intros Hf Hr. unfold range0 in Hr.
  destruct (frame_size * 2 =? 0)%Z eqn:E0; [apply Z.eqb_eq in E0; lia|].
  destruct (frame_size * 2 <? 0)%Z eqn:E1; [apply Z.ltb_lt in E1; lia|].
  injection Hr as <-. unfold sub_frames.
  set (step := Z.to_nat (frame_size * 2)).
  assert (Hstep : (frame_size * 2)%Z = Z.of_nat step) by (unfold step; lia).
  rewrite Hstep. rewrite windows_prefix by lia.
  f_equal. f_equal. apply Nat.min_r.
  unfold len.
  apply Nat2Z.inj_le. rewrite Nat2Z.inj_div, Z2Nat.id.
  - apply Z.div_le_mono; lia.
  - apply Z.div_pos; lia.
Qed.

Lemma init_well_formed settings : well_formed (init settings).
Proof. split; reflexivity. Qed.

Lemma supported_In rate : supported rate = true <-> In rate supported_rates.
Proof.
  unfold supported. rewrite existsb_exists. split.
  - intros [x [Hin Hx]]. apply Z.eqb_eq in Hx. subst. exact Hin.
  - intros Hin. exists rate. split; [exact Hin | apply Z.eqb_refl].
Qed.

Lemma supported_frame_size w :
  well_formed w -> supported w.(sample_rate) = true -> (0 < w.(frame_size))%Z.
Proof.
  intros [Hd Hf] Hs. apply supported_In in Hs. rewrite Hf, Hd.
  simpl in Hs. destruct Hs as [<-|[<-|[<-|[<-|[]]]]]; reflexivity.
Qed.

Lemma decide_voice_spec voice total :
  decide_voice voice total = true
  <-> (0 < total)%Z /\ 3 # 10 < inject_Z voice / inject_Z total.
Proof.
  unfold decide_voice. destruct (0 <? total)%Z eqn:Ht.
  - apply Z.ltb_lt in Ht. rewrite Qltb_lt. tauto.
  - apply Z.ltb_ge in Ht. split; [discriminate | intros [H _]; lia].
Qed.

Lemma detect_supported w is_speech clock audio :
  w.(vad) = Some is_speech -> well_formed w ->
  supported w.(sample_rate) = true ->
  let frames := sub_frames w.(frame_size) (tobytes audio) in
  fst (detect_voice_activity clock audio w)
  = Ret (decide_voice
           (Z.of_nat (length (filter (voiced is_speech w.(sample_rate)) frames)))
           (Z.of_nat (length (filter (classified is_speech w.(sample_rate)) frames)))).
Proof.
  intros Hv Hwf Hs frames.
  pose proof (supported_frame_size Hwf Hs) as Hpos.
  unfold detect_voice_activity, bind at 1, get. rewrite Hv.
  unfold try_except, detect_body, bind at 1, get. rewrite Hs. cbn [negb].
  unfold bind at 1, call.
  destruct (range0 (len (tobytes audio)) (frame_size w * 2)) as [indices|e] eqn:Hr.
  2:{ unfold range0 in Hr.
      destruct (frame_size w * 2 =? 0)%Z eqn:E0; [apply Z.eqb_eq in E0; lia|].
      destruct (frame_size w * 2 <? 0)%Z; discriminate. }
  unfold bind at 1.
  pose proof (frames_loop_counts is_speech (sample_rate w) (tobytes audio)
                (frame_size w * 2) indices 0 0 w) as Hc.
  rewrite (windows_range _ Hpos Hr) in Hc.
  destruct (frames_loop is_speech (sample_rate w) (tobytes audio)
              (frame_size w * 2) indices 0 0 w) as [[counters|e] w'];
    simpl in Hc; [|discriminate].
  injection Hc as ->. reflexivity.
Qed.

Lemma detect_unsupported w is_speech clock audio :
  w.(vad) = Some is_speech ->
  supported w.(sample_rate) = false ->
  detect_voice_activity clock audio w
  = (Ret false, logger LWarning "WebRTC VAD: Unsupported sample rate" w).
Proof.
  intros Hv Hs.
  unfold detect_voice_activity, bind at 1, get. rewrite Hv.
  unfold try_except, detect_body, bind at 1, get. rewrite Hs. reflexivity.
Qed.

End WebRTCFacts.

Import WebRTCFacts.

Lemma filter_all {A} (p : A -> bool) (l : list A) :
  (forall x, In x l -> p x = true) -> filter p l = l.
Proof.
  induction l as [|x l IH]; intros H; [reflexivity|].
  simpl. rewrite (H x (or_introl eq_refl)). f_equal. apply IH.
  intros y Hy. apply H. right. exact Hy.
Qed.

(** C8. The heuristic backend, once initialized, declares a frame voice
    exactly when its sample rate is one of 8000, 16000, 32000, 48000 and
    the fraction of voice sub-frames among the classified complete 30 ms
    sub-frames is strictly above 0.3; with any other sample rate the frame
    is not voice.  The classified sub-frames are all the complete sub-frames
    whenever the detector returns a verdict on each.  The float comparison
    [voice_ratio > 0.3] agrees with the rational one for every count a frame
    can reach. *)
Theorem heuristic_decision_rule :
  forall (w : WebRTCVAD.t) (is_speech : WebRTCVAD.detector)
         (clock : Q * Q) (audio : list Z),
    w.(WebRTCVAD.vad) = Some is_speech ->
    well_formed w ->
    let rate := w.(WebRTCVAD.sample_rate) in
    let frames := sub_frames w.(WebRTCVAD.frame_size) (tobytes audio) in
    let voice := Z.of_nat (length (filter (voiced is_speech rate) frames)) in
    let total := Z.of_nat (length (filter (classified is_speech rate) frames)) in
    (fst (WebRTCVAD.detect_voice_activity clock audio w) = Ret true
     <-> In rate WebRTCVAD.supported_rates
         /\ (0 < total)%Z /\ 3 # 10 < inject_Z voice / inject_Z total)
    /\ (~ In rate WebRTCVAD.supported_rates ->
        fst (WebRTCVAD.detect_voice_activity clock audio w) = Ret false)
    /\ ((forall f, In f frames -> exists verdict, is_speech f rate = Ret verdict) ->
        total = len frames).
Proof.
  intros w is_speech clock audio Hv Hwf rate frames voice total.
  assert (Hall : (forall f, In f frames -> exists verdict, is_speech f rate = Ret verdict) ->
                 total = len frames).
  { intros H. unfold total, len. rewrite filter_all; [reflexivity|].
    intros f Hf. destruct (H f Hf) as [verdict E]. unfold classified. rewrite E.
    reflexivity. }
  destruct (WebRTCVAD.supported rate) eqn:Hs.
  - pose proof (detect_supported clock audio Hv Hwf Hs) as E. cbv zeta in E.
    fold rate frames voice total in E. rewrite E.
    apply supported_In in Hs. split; [|split; [|exact Hall]].
    + split.
      * intros H. injection H as H. apply decide_voice_spec in H. tauto.
      * intros [_ H]. f_equal. apply decide_voice_spec. exact H.
    + intros Hn. contradiction.
  - rewrite (@detect_unsupported w is_speech clock audio Hv Hs). simpl.
    assert (Hn : ~ In rate WebRTCVAD.supported_rates).
    { intros Hin. apply supported_In in Hin. rewrite Hin in Hs. discriminate. }
    split; [split; [discriminate | intros [Hin _]; contradiction] |].
    split; [reflexivity | exact Hall].
Qed.

Lemma heuristic_decision_rule_8k :
  fst (WebRTCVAD.detect_voice_activity (0, 1) (repeat 1000%Z 500) webrtc_8k) = Ret true.
Proof.
  apply (proj1 (@heuristic_decision_rule webrtc_8k _ (0, 1) (repeat 1000%Z 500)
                  eq_refl (conj eq_refl eq_refl))).
  vm_compute. intuition congruence.
Defined.

(** ** Audio processor *)

Module ProcessorFacts.
Import AudioProcessor.

Lemma init_default : init Settings.default = Ret fresh_processor.
Proof. reflexivity. Qed.

Lemma init_not_running settings self :
  init settings = Ret self -> self.(is_running) = false.
Proof.
  unfold init. intros H.
  destruct (VoiceActivityDetector.init settings); [|discriminate].
  destruct (_ <? 0)%Z; [discriminate|].
  destruct (build_phrases _ _ _); [|discriminate].
  injection H as <-. reflexivity.
Qed.

Lemma keeps_is_running_cleanup :
  keeps is_running (zoom vad set_vad VoiceActivityDetector.cleanup).
Proof. frame. Qed.

Lemma stop_not_running self : (snd (stop self)).(is_running) = false.
Proof.
  unfold stop, bind at 1, get.
  destruct (is_running self) eqn:Hr; simpl; [|exact Hr].
  unfold try_except, bind at 1, modify.
  unfold bind at 1.
  unfold bind at 1.
  pose proof (keeps_is_running_cleanup
                (set_is_running false (logger LInfo "Stopping audio processor" self))) as K.
  destruct (zoom vad set_vad VoiceActivityDetector.cleanup _) as [[u|e] s'];
    simpl in K |- *; exact K.
Qed.

End ProcessorFacts.

Module ProcessorFrames.
Import AudioProcessor.

Section Field.
Context {X : Type} (f : t -> X).
Hypothesis f_logger : forall lv msg s, f (logger lv msg s) = f s.
Hypothesis f_record : forall e s, f (record e s) = f s.
Hypothesis f_last : forall l s, f (set_last_activation_time l s) = f s.
Hypothesis f_stats : forall st s, f (set_stats st s) = f s.

Lemma keeps_dispatch h : keeps f (dispatch h).
Proof. unfold dispatch, run_handler. destruct h; frame; auto. Qed.

Lemma keeps_match_phrases text_lower current_time table :
  keeps f (match_phrases text_lower current_time table).
Proof.
  induction table as [|[phrase h] rest IH]; simpl.
  - frame.
  - destruct (contains phrase text_lower); [|exact IH].
    pose proof (keeps_dispatch h). frame; auto.
Qed.

Lemma keeps_transcribe audio_array : keeps f (_transcribe_audio audio_array).
Proof. unfold _transcribe_audio. frame; auto. Qed.

Lemma keeps_match_and_record txt current_time :
  keeps f (match_and_record txt current_time).
Proof.
  unfold match_and_record, write_transcription.
  pose proof keeps_match_phrases. frame; auto.
Qed.

Lemma keeps_check current_time : keeps f (_check_for_activation_phrases current_time).
Proof.
  unfold _check_for_activation_phrases.
  pose proof keeps_transcribe. pose proof keeps_match_and_record.
  frame; auto.
Qed.
End Field.

Lemma total_dispatch_builtin h :
  (forall name e, h <> custom name (Raise e)) -> total (dispatch h).
Proof.
  intros Hh. unfold dispatch, run_handler. destruct h; frame.
  destruct behaviour as [[]|e].
  - intro s. exists tt. reflexivity.
  - exfalso. eapply Hh. reflexivity.
Qed.

Lemma total_check current_time : total (_check_for_activation_phrases current_time).
Proof. unfold _check_for_activation_phrases. frame. Qed.

End ProcessorFrames.

Import ProcessorFrames.

Lemma handle_voice_unfold (self : AudioProcessor.t) audio_array timestamp current_time :
  self.(AudioProcessor.settings).(Settings.audio).(Settings.sample_rate) <> 0%Z ->
  AudioProcessor._handle_voice_detected audio_array timestamp current_time self
  = (if (3 <=? length (with_segment self audio_array timestamp).(AudioProcessor.voice_segments))%nat
     then AudioProcessor._check_for_activation_phrases current_time
     else ret tt) (with_segment self audio_array timestamp).
Proof.
  intros Hrate. unfold AudioProcessor._handle_voice_detected.
  unfold bind at 1, get.
  apply Z.eqb_neq in Hrate. rewrite Hrate.
  reflexivity.
Qed.

Lemma handle_voice_segments (self : AudioProcessor.t) audio_array timestamp current_time :
  self.(AudioProcessor.settings).(Settings.audio).(Settings.sample_rate) <> 0%Z ->
  fst (AudioProcessor._handle_voice_detected audio_array timestamp current_time self) = Ret tt
  /\ (snd (AudioProcessor._handle_voice_detected audio_array timestamp current_time self))
       .(AudioProcessor.voice_segments)
     = filter (fun sg => Qltb (timestamp - 10) sg.(AudioProcessor.timestamp))
              (self.(AudioProcessor.voice_segments)
               ++ [new_segment self audio_array timestamp]).
Proof.
  intros Hrate. rewrite (handle_voice_unfold _ _ _ _ Hrate).
  destruct (3 <=? _)%nat.
  - split.
    + destruct (total_check current_time (with_segment self audio_array timestamp))
        as [[] T]. exact T.
    + rewrite (@keeps_check _ AudioProcessor.voice_segments); reflexivity.
  - split; reflexivity.
Qed.

(** C4. Right after [_handle_voice_detected] has appended a segment with
    timestamp [timestamp] (the "now" of the append), the new segment is
    retained and every retained segment lies strictly inside the trailing
    10-second window: its timestamp is above [timestamp - 10], hence not below
    it.  This holds from any earlier state, so after each append of any
    sequence of appends. *)
Theorem window_retention :
  forall (self : AudioProcessor.t) (audio_array : list Z) (timestamp current_time : Q),
    self.(AudioProcessor.settings).(Settings.audio).(Settings.sample_rate) <> 0%Z ->
    let self' :=
      snd (AudioProcessor._handle_voice_detected audio_array timestamp current_time self) in
    In (new_segment self audio_array timestamp) self'.(AudioProcessor.voice_segments)
    /\ Forall (fun sg => timestamp - 10 < sg.(AudioProcessor.timestamp)
                         /\ ~ sg.(AudioProcessor.timestamp) < timestamp - 10)
              self'.(AudioProcessor.voice_segments).
Proof.
  intros self audio_array timestamp current_time Hrate self'.
  destruct (handle_voice_segments self audio_array timestamp current_time Hrate) as [_ E].
  fold self' in E. rewrite E. split.
  - apply filter_In. split.
    + apply in_or_app. right. left. reflexivity.
    + apply Qltb_lt. simpl.
      rewrite <- (Qplus_0_r timestamp) at 2. unfold Qminus.
      apply Qplus_lt_r. reflexivity.
  - apply Forall_forall. intros sg Hin. apply filter_In in Hin.
    destruct Hin as [_ Hlt]. apply Qltb_lt in Hlt.
    split; [exact Hlt | apply Qle_not_lt, Qlt_le_weak, Hlt].
Qed.

Lemma window_retention_fresh :
  let self' :=
    snd (AudioProcessor._handle_voice_detected sample_frame 100 100 fresh_processor) in
  In (new_segment fresh_processor sample_frame 100) self'.(AudioProcessor.voice_segments)
  /\ Forall (fun sg => 100 - 10 < sg.(AudioProcessor.timestamp)
                       /\ ~ sg.(AudioProcessor.timestamp) < 100 - 10)
            self'.(AudioProcessor.voice_segments).
Proof.
  apply (@window_retention fresh_processor sample_frame 100 100).
  simpl. lia.
Defined.

(** A segment 15 seconds old is evicted by the next append, as in
    [test_voice_segment_expiration]. *)
Example old_segment_evicted :
  let s1 := snd (AudioProcessor._handle_voice_detected sample_frame 85 85
                   fresh_processor) in
  let s2 := snd (AudioProcessor._handle_voice_detected sample_frame 100 100 s1) in
  map AudioProcessor.timestamp s2.(AudioProcessor.voice_segments) = [100].
Proof. vm_compute. reflexivity. Qed.

Module FailClosed.

Lemma silero_body_raise run clock audio (s : SileroVAD.t) e :
  fst (SileroVAD.detect_body run clock audio s) = Raise e ->
  SileroVAD.detect_body run clock audio s = (Raise e, s).
Proof.
  unfold SileroVAD.detect_body, bind, get, call.
  destruct (run _ _) as [c|e']; simpl; intros H; [discriminate|congruence].
Qed.

Lemma webrtc_body_raise is_speech clock audio (w : WebRTCVAD.t) e :
  fst (WebRTCVAD.detect_body is_speech clock audio w) = Raise e ->
  WebRTCVAD.detect_body is_speech clock audio w = (Raise e, w).
Proof.
  unfold WebRTCVAD.detect_body, bind, get, call, modify, ret.
  destruct (negb _); [discriminate|].
  destruct (range0 _ _) as [indices|e']; [|simpl; intros H; congruence].
  pose proof (frames_loop_counts is_speech (WebRTCVAD.sample_rate w) (tobytes audio)
                (WebRTCVAD.frame_size w * 2) indices 0 0 w) as Hc.
  destruct (WebRTCVAD.frames_loop _ _ _ _ _ _ _ _) as [[counters|e'] w'];
    simpl in Hc; [|discriminate].
  discriminate.
Qed.

Lemma detect_fail_closed v clock audio :
  reaches_except v clock audio ->
  VoiceActivityDetector.detect_voice_activity clock audio v
  = (Ret false, error_logged v).
Proof.
  unfold VoiceActivityDetector.detect_voice_activity, VoiceActivityDetector.delegate.
  destruct v as [s|w]; simpl; intros (f & e & Hm & Hr).
  - unfold SileroVAD.detect_voice_activity, bind at 1, get. rewrite Hm.
    unfold try_except. rewrite (silero_body_raise _ _ _ _ Hr). reflexivity.
  - unfold WebRTCVAD.detect_voice_activity, bind at 1, get. rewrite Hm.
    unfold try_except. rewrite (webrtc_body_raise _ _ _ _ Hr). reflexivity.
Qed.

Lemma filter_none {A} (p : A -> bool) (l : list A) :
  (forall x, In x l -> p x = false) -> filter p l = [].
Proof.
  induction l as [|x l IH]; intros H; [reflexivity|].
  simpl. rewrite (H x (or_introl eq_refl)). apply IH.
  intros y Hy. apply H. right. exact Hy.
Qed.

Lemma detector_fails_closed v clock audio :
  detector_fails v audio ->
  fst (VoiceActivityDetector.detect_voice_activity clock audio v) = Ret false.
Proof.
  destruct v as [s|w]; simpl; [contradiction|].
  intros (is_speech & Hv & Hwf & Hs & _ & Hall).
  unfold VoiceActivityDetector.detect_voice_activity, VoiceActivityDetector.delegate.
  pose proof (detect_supported clock audio Hv Hwf Hs) as E. cbv zeta in E.
  change (@detect_voice_activity WebRTCVAD.t WebRTCVAD.detector webrtc_interface)
    with WebRTCVAD.detect_voice_activity.
  destruct (WebRTCVAD.detect_voice_activity clock audio w) as [r w'].
  simpl in E |- *. rewrite E.
  rewrite (filter_none (classified is_speech (WebRTCVAD.sample_rate w))).
  - reflexivity.
  - intros f Hf. destruct (Hall f Hf) as [e He].
    unfold classified. rewrite He. reflexivity.
Qed.

Lemma backend_fail_closed v clock audio :
  backend_raises v clock audio ->
  fst (VoiceActivityDetector.detect_voice_activity clock audio v) = Ret false.
Proof.
  intros [H|H].
  - rewrite (detect_fail_closed _ _ _ H). reflexivity.
  - apply detector_fails_closed. exact H.
Qed.

Import AudioProcessor.

Lemma process_chunk_silence (self : t) clk audio_data audio_array timestamp v :
  self.(is_running) = true ->
  frombuffer audio_data = Ret audio_array ->
  VoiceActivityDetector.detect_voice_activity clk.(t_vad) audio_array self.(vad)
    = (Ret false, v) ->
  process_chunk clk audio_data timestamp self
  = (Ret tt, after_silence self clk audio_array v).
Proof.
  intros Hrun Hbuf Hdet.
  unfold process_chunk, bind at 1, get. rewrite Hrun. cbn [negb].
  unfold try_except, bind at 1, call. rewrite Hbuf.
  unfold bind at 1, modify. unfold bind at 1. unfold bind at 1, zoom.
  cbn [vad record set_audio_buffer]. rewrite Hdet.
  reflexivity.
Qed.

Lemma total_process_chunk clk audio_data timestamp :
  total (process_chunk clk audio_data timestamp).
Proof. unfold process_chunk. frame. Qed.

Lemma keeps_is_running_process_chunk clk audio_data timestamp :
  keeps is_running (process_chunk clk audio_data timestamp).
Proof.
  unfold process_chunk, _handle_voice_detected, _handle_silence_detected,
    _mark_for_pruning.
  pose proof (@ProcessorFrames.keeps_check _ is_running
                ltac:(reflexivity) ltac:(reflexivity) ltac:(reflexivity)
                ltac:(reflexivity)).
  frame; auto.
Qed.

End FailClosed.

Import FailClosed.

(** C5. When the backend raises on a frame, the classification of the
    frame is [False]; when the exception reaches the backend's [except]
    clause the detector only gains an error entry in its log (its statistics
    do not move).  [process_chunk] returns normally, having treated the frame
    as silence: no voice segment is added, the chunk is counted, no
    transcription, dispatch or journal write is made, and the processor
    keeps running; the next chunk, whatever it is, is processed and returns
    normally as well. *)
Theorem fail_closed_classification :
  forall (self : AudioProcessor.t) (clk : AudioProcessor.clock)
         (audio_data : list byte) (audio_array : list Z) (timestamp : Q),
    self.(AudioProcessor.is_running) = true ->
    frombuffer audio_data = Ret audio_array ->
    backend_raises self.(AudioProcessor.vad) clk.(AudioProcessor.t_vad) audio_array ->
    let classification :=
      VoiceActivityDetector.detect_voice_activity clk.(AudioProcessor.t_vad) audio_array
        self.(AudioProcessor.vad) in
    let self' := snd (AudioProcessor.process_chunk clk audio_data timestamp self) in
    fst classification = Ret false
    /\ (reaches_except self.(AudioProcessor.vad) clk.(AudioProcessor.t_vad) audio_array ->
        snd classification = error_logged self.(AudioProcessor.vad))
    /\ AudioProcessor.process_chunk clk audio_data timestamp self
       = (Ret tt, after_silence self clk audio_array (snd classification))
    /\ self'.(AudioProcessor.voice_segments) = self.(AudioProcessor.voice_segments)
    /\ self'.(AudioProcessor.stats).(AudioProcessor.voice_segments_detected)
       = self.(AudioProcessor.stats).(AudioProcessor.voice_segments_detected)
    /\ self'.(AudioProcessor.stats).(AudioProcessor.chunks_processed)
       = (self.(AudioProcessor.stats).(AudioProcessor.chunks_processed) + 1)%Z
    /\ self'.(AudioProcessor.trace)
       = self.(AudioProcessor.trace) ++ [AudioProcessor.Classified audio_array]
    /\ self'.(AudioProcessor.is_running) = true
    /\ (forall clk' audio_data' timestamp',
          fst (AudioProcessor.process_chunk clk' audio_data' timestamp' self') = Ret tt
          /\ (snd (AudioProcessor.process_chunk clk' audio_data' timestamp' self'))
               .(AudioProcessor.is_running) = true).
Proof.
  intros self clk audio_data audio_array timestamp Hrun Hbuf Hraise classification self'.
  pose proof (@backend_fail_closed _ _ _ Hraise) as Hfalse. fold classification in Hfalse.
  assert (Hdet : classification = (Ret false, snd classification)).
  { rewrite <- Hfalse. apply surjective_pairing. }
  pose proof (process_chunk_silence self clk audio_data timestamp Hrun Hbuf Hdet) as E.
  split; [exact Hfalse|]. split.
  { intros H. unfold classification. rewrite (detect_fail_closed _ _ _ H). reflexivity. }
  split; [exact E|].
  unfold self' in *. rewrite E in *. cbn [snd].
  repeat split; try reflexivity; try exact Hrun.
  - destruct (total_process_chunk clk' audio_data' timestamp'
                (after_silence self clk audio_array (snd classification)))
      as [[] T]. exact T.
  - rewrite keeps_is_running_process_chunk. exact Hrun.
Qed.

Lemma fail_closed_classification_silero :
  fst (AudioProcessor.process_chunk clock0 (tobytes sample_frame) 100 broken_silero) = Ret tt
  /\ (snd (AudioProcessor.process_chunk clock0 (tobytes sample_frame) 100 broken_silero))
       .(AudioProcessor.voice_segments) = [].
Proof.
  destruct (@fail_closed_classification broken_silero clock0 (tobytes sample_frame)
              sample_frame 100 eq_refl eq_refl)
    as (_ & _ & E & Hseg & _).
  - left. simpl. eexists. eexists. split; reflexivity.
  - rewrite E. split; [reflexivity | exact Hseg].
Defined.

(** For comparison: the heuristic backend handles a detector error on a
    sub-frame inside the body of its [try].  The sub-frame is left out of
    both counters and the frame is decided on the others. *)
Example webrtc_skips_failed_sub_frame :
  let is_speech := fun (frame : list byte) (_ : Z) =>
    if (Z_of_byte (hd x00 frame) =? 0)%Z
    then Raise (BackendError "Error while processing frame")
    else Ret true in
  let audio := repeat 0%Z 240 ++ repeat 1000%Z 480 in
  fst (WebRTCVAD.detect_voice_activity (0, 1) audio
         (WebRTCVAD.set_vad (Some is_speech) webrtc_8k)) = Ret true.
Proof. vm_compute. reflexivity. Qed.

(** ** Phrase recognition *)

Module StringFacts.

Lemma prefix_spec p : forall s,
  String.prefix p s = true <-> exists b, s = (p ++ b)%string.
Proof.
  induction p as [|c p IH]; intros s.
  - simpl. split; [intros _; exists s; reflexivity | destruct s; reflexivity].
  - destruct s as [|d s]; simpl.
    + split; [discriminate | intros [b Hb]; discriminate].
    + destruct (Ascii.ascii_dec c d) as [->|Hn].
      * rewrite IH. split; intros [b Hb]; exists b; congruence.
      * split; [discriminate | intros [b Hb]; congruence].
Qed.

Lemma contains_nil p :
  contains p "" = if String.prefix p "" then true else false.
Proof. reflexivity. Qed.

Lemma contains_cons p c s :
  contains p (String c s)
  = if String.prefix p (String c s) then true else contains p s.
Proof. reflexivity. Qed.

Lemma contains_spec p : forall s,
  contains p s = true <-> substring_of p s.
Proof.
  induction s as [|c s IH].
  - rewrite contains_nil. destruct (String.prefix p "") eqn:Hp.
    + split; [|reflexivity]. intros _. apply prefix_spec in Hp.
      destruct Hp as [b Hb]. exists EmptyString, b. exact Hb.
    + split; [discriminate|]. intros (a & b & Hab).
      destruct a; [|discriminate]. simpl in Hab.
      assert (String.prefix p "" = true) by (apply prefix_spec; eauto).
      congruence.
  - rewrite contains_cons. destruct (String.prefix p (String c s)) eqn:Hp.
    + split; [|reflexivity]. intros _. apply prefix_spec in Hp.
      destruct Hp as [b Hb]. exists EmptyString, b. exact Hb.
    + rewrite IH. split.
      * intros (a & b & Hab). exists (String c a), b. simpl. congruence.
      * intros (a & b & Hab). destruct a as [|d a].
        -- simpl in Hab.
           assert (String.prefix p (String c s) = true) by (apply prefix_spec; eauto).
           congruence.
        -- simpl in Hab. injection Hab as _ Hab. exists a, b. exact Hab.
Qed.

Lemma contains_false p s : contains p s = false <-> ~ substring_of p s.
Proof.
  rewrite <- contains_spec. destruct (contains p s); split; congruence.
Qed.

End StringFacts.

Module RecognizerFacts.
Import AudioProcessor StringFacts.

Lemma run_handler_returns h s :
  returns_normally h -> run_handler h s = (Ret tt, after_handler h s).
Proof.
  destruct h; try reflexivity.
  destruct behaviour as [[]|e]; [reflexivity | contradiction].
Qed.

Lemma handler_cases h :
  returns_normally h \/ exists name e, h = custom name (Raise e).
Proof.
  destruct h; try (left; exact I).
  destruct behaviour as [[]|e]; [left; exact I | right; eauto].
Qed.

Lemma after_handler_dispatched h s :
  dispatched (after_handler h s).(trace) = dispatched s.(trace).
Proof.
  destruct h; try reflexivity.
  simpl. unfold dispatched. rewrite flat_map_app. simpl. apply app_nil_r.
Qed.

Lemma after_handler_written h s :
  written (after_handler h s).(trace) = written s.(trace).
Proof.
  destruct h; try reflexivity.
  simpl. unfold written. rewrite flat_map_app. simpl. apply app_nil_r.
Qed.

Lemma after_handler_stats h s : (after_handler h s).(stats) = s.(stats).
Proof. destruct h; reflexivity. Qed.

Lemma match_phrases_hit text_lower current_time phrase h rest :
  forall skipped s,
    (forall p, In p skipped -> contains (fst p) text_lower = false) ->
    contains phrase text_lower = true ->
    returns_normally h ->
    match_phrases text_lower current_time (skipped ++ (phrase, h) :: rest) s
    = (Ret (true, Some phrase), activated h current_time s).
Proof.
  induction skipped as [|[p0 h0] skipped IH]; intros s Hskip Hhit Hret.
  - simpl. rewrite Hhit.
    unfold bind at 1, modify. unfold bind at 1, dispatch.
    unfold bind at 1, modify. rewrite (run_handler_returns _ _ Hret).
    reflexivity.
  - pose proof (Hskip (p0, h0) (or_introl eq_refl)) as E0. simpl in E0 |- *. rewrite E0.
    apply IH; auto. intros p Hp. apply Hskip. right. exact Hp.
Qed.

Lemma match_phrases_raise text_lower current_time phrase name e rest :
  forall skipped s,
    (forall p, In p skipped -> contains (fst p) text_lower = false) ->
    contains phrase text_lower = true ->
    match_phrases text_lower current_time
      (skipped ++ (phrase, custom name (Raise e)) :: rest) s
    = (Raise e, record (Dispatched (custom name (Raise e)))
                  (logger LInfo "Voice activation detected" s)).
Proof.
  induction skipped as [|[p0 h0] skipped IH]; intros s Hskip Hhit.
  - simpl. rewrite Hhit. reflexivity.
  - pose proof (Hskip (p0, h0) (or_introl eq_refl)) as E0. simpl in E0 |- *. rewrite E0.
    apply IH; auto. intros p Hp. apply Hskip. right. exact Hp.
Qed.

Lemma match_phrases_miss text_lower current_time :
  forall table s,
    (forall p, In p table -> contains (fst p) text_lower = false) ->
    match_phrases text_lower current_time table s = (Ret (false, None), s).
Proof.
  induction table as [|[p0 h0] table IH]; intros s Hmiss.
  - reflexivity.
  - pose proof (Hmiss (p0, h0) (or_introl eq_refl)) as E0. simpl in E0 |- *. rewrite E0.
    apply IH. intros p Hp. apply Hmiss. right. exact Hp.
Qed.

(** *** One recognition attempt *)

Lemma transcribe_some combined txt (self : t) :
  fst (_transcribe_audio combined self) = Ret (Some txt) ->
  _transcribe_audio combined self = (Ret (Some txt), record (Transcribed combined) self).
Proof.
  unfold _transcribe_audio, bind, get, try_except, modify, call, ret.
  destruct (_whisper_model self) as [transcribe|]; [|discriminate].
  destruct (transcribe _) as [r|e]; simpl; [|discriminate].
  intros H. injection H as <-. reflexivity.
Qed.

(** An attempt that is not gated and obtains a non-empty transcript runs
    the matching block under the [try]. *)
Lemma check_with_transcript (self : t) current_time combined txt :
  gated self current_time = false ->
  concatenate (map audio (last_n 5 self.(voice_segments))) = Ret combined ->
  fst (_transcribe_audio combined self) = Ret (Some txt) ->
  txt <> EmptyString ->
  _check_for_activation_phrases current_time self
  = try_except (match_and_record txt current_time)
      (fun e => modify (logger LError "Error checking activation phrases"))
      (record (Transcribed combined) self).
Proof.
  intros Hgate Hcat Htr Htxt.
  unfold _check_for_activation_phrases, bind at 1, get. rewrite Hgate.
  unfold try_except at 1. unfold bind at 1, call. rewrite Hcat.
  unfold bind at 1. rewrite (transcribe_some _ _ Htr).
  destruct txt; [contradiction|]. reflexivity.
Qed.

Lemma check_gated (self : t) current_time :
  gated self current_time = true ->
  _check_for_activation_phrases current_time self = (Ret tt, self).
Proof.
  intros H. unfold _check_for_activation_phrases, bind, get. rewrite H. reflexivity.
Qed.

End RecognizerFacts.

Import StringFacts RecognizerFacts.

Module Recognition.
Import AudioProcessor.

Lemma check_hit (self : t) current_time combined txt skipped phrase h rest :
  gated self current_time = false ->
  concatenate (map audio (last_n 5 self.(voice_segments))) = Ret combined ->
  fst (_transcribe_audio combined self) = Ret (Some txt) ->
  txt <> EmptyString ->
  self.(activation_phrases) = skipped ++ (phrase, h) :: rest ->
  (forall p, In p skipped -> ~ substring_of (fst p) (strip (lower txt))) ->
  substring_of phrase (strip (lower txt)) ->
  returns_normally h ->
  _check_for_activation_phrases current_time self
  = (Ret tt,
     record (Wrote (entry_of txt (true, Some phrase)))
       (activated h current_time (record (Transcribed combined) self))).
Proof.
  intros Hgate Hcat Htr Htxt Htab Hskip Hhit Hret.
  rewrite (check_with_transcript _ _ Hgate Hcat Htr Htxt).
  unfold try_except, match_and_record, bind at 1, get.
  cbn [activation_phrases record]. rewrite Htab.
  unfold bind at 1. rewrite match_phrases_hit; auto.
  - intros p Hp. apply contains_false. apply Hskip. exact Hp.
  - apply contains_spec. exact Hhit.
Qed.

Lemma check_miss (self : t) current_time combined txt :
  gated self current_time = false ->
  concatenate (map audio (last_n 5 self.(voice_segments))) = Ret combined ->
  fst (_transcribe_audio combined self) = Ret (Some txt) ->
  txt <> EmptyString ->
  (forall p, In p self.(activation_phrases) ->
             ~ substring_of (fst p) (strip (lower txt))) ->
  _check_for_activation_phrases current_time self
  = (Ret tt,
     record (Wrote (entry_of txt (false, None)))
       (record (Transcribed combined) self)).
Proof.
  intros Hgate Hcat Htr Htxt Hmiss.
  rewrite (check_with_transcript _ _ Hgate Hcat Htr Htxt).
  unfold try_except, match_and_record, bind at 1, get.
  cbn [activation_phrases record].
  unfold bind at 1. rewrite match_phrases_miss; [reflexivity|].
  intros p Hp. apply contains_false. apply Hmiss. exact Hp.
Qed.

Lemma check_raise (self : t) current_time combined txt skipped phrase name e rest :
  gated self current_time = false ->
  concatenate (map audio (last_n 5 self.(voice_segments))) = Ret combined ->
  fst (_transcribe_audio combined self) = Ret (Some txt) ->
  txt <> EmptyString ->
  self.(activation_phrases) = skipped ++ (phrase, custom name (Raise e)) :: rest ->
  (forall p, In p skipped -> ~ substring_of (fst p) (strip (lower txt))) ->
  substring_of phrase (strip (lower txt)) ->
  _check_for_activation_phrases current_time self
  = (Ret tt,
     logger LError "Error checking activation phrases"
       (record (Dispatched (custom name (Raise e)))
          (logger LInfo "Voice activation detected"
             (record (Transcribed combined) self)))).
Proof.
  intros Hgate Hcat Htr Htxt Htab Hskip Hhit.
  rewrite (check_with_transcript _ _ Hgate Hcat Htr Htxt).
  unfold try_except, match_and_record, bind at 1, get.
  cbn [activation_phrases record]. rewrite Htab.
  unfold bind at 1. rewrite match_phrases_raise; [reflexivity| |].
  - intros p Hp. apply contains_false. apply Hskip. exact Hp.
  - apply contains_spec. exact Hhit.
Qed.

(** What a completed activation followed by its journal entry adds to the
    record of collaborator calls. *)
Lemma hit_dispatched h current_time entry combined (self : t) :
  dispatched (record (Wrote entry)
                (activated h current_time (record (Transcribed combined) self))).(trace)
  = dispatched self.(trace) ++ [h].
Proof.
  unfold activated.
  cbn [trace record set_stats set_last_activation_time].
  unfold dispatched at 1. rewrite flat_map_app. cbn [flat_map]. rewrite app_nil_r.
  fold (dispatched (trace
          (after_handler h
             (record (Dispatched h)
                (logger LInfo "Voice activation detected"
                   (record (Transcribed combined) self)))))).
  rewrite after_handler_dispatched. cbn [trace record logger].
  unfold dispatched. rewrite !flat_map_app. cbn [flat_map app].
  rewrite app_nil_r. reflexivity.
Qed.

Lemma hit_written h current_time entry combined (self : t) :
  written (record (Wrote entry)
             (activated h current_time (record (Transcribed combined) self))).(trace)
  = written self.(trace) ++ [entry].
Proof.
  unfold activated.
  cbn [trace record set_stats set_last_activation_time].
  unfold written at 1. rewrite flat_map_app. cbn [flat_map].
  fold (written (trace
          (after_handler h
             (record (Dispatched h)
                (logger LInfo "Voice activation detected"
                   (record (Transcribed combined) self)))))).
  rewrite after_handler_written. cbn [trace record logger].
  unfold written. rewrite !flat_map_app. cbn [flat_map app].
  rewrite !app_nil_r. reflexivity.
Qed.

End Recognition.

Import Recognition.

(** C6 (as amended). In a recognition attempt that is not gated and
    obtains the non-empty transcript [txt], the transcript is lowercased and
    stripped and the phrase table is walked in registration order; the
    handler of the first phrase that is a substring is awaited exactly once
    and no other.  If it returns normally, the cooldown timestamp and the
    activation counter are updated and exactly one journal entry is written,
    with [is_activation = True], the phrase as command and [txt] verbatim.
    If it raises, the exception is caught by the attempt, and no journal
    entry is written and neither timestamp nor counter moves. *)
Theorem first_match_dispatch :
  forall (self : AudioProcessor.t) (current_time : Q) (combined : list Z)
         (txt : string) (skipped : list (string * AudioProcessor.handler))
         (phrase : string) (h : AudioProcessor.handler)
         (rest : list (string * AudioProcessor.handler)),
    AudioProcessor.gated self current_time = false ->
    AudioProcessor.concatenate
      (map AudioProcessor.audio (last_n 5 self.(AudioProcessor.voice_segments)))
      = Ret combined ->
    fst (AudioProcessor._transcribe_audio combined self) = Ret (Some txt) ->
    txt <> EmptyString ->
    self.(AudioProcessor.activation_phrases) = skipped ++ (phrase, h) :: rest ->
    (forall p, In p skipped -> ~ substring_of (fst p) (strip (lower txt))) ->
    substring_of phrase (strip (lower txt)) ->
    let self' := snd (AudioProcessor._check_for_activation_phrases current_time self) in
    fst (AudioProcessor._check_for_activation_phrases current_time self) = Ret tt
    /\ dispatched self'.(AudioProcessor.trace)
       = dispatched self.(AudioProcessor.trace) ++ [h]
    /\ (returns_normally h ->
        written self'.(AudioProcessor.trace)
        = written self.(AudioProcessor.trace)
          ++ [ {| AudioProcessor.text := txt;
                  AudioProcessor.confidence := 9 # 10;
                  AudioProcessor.is_activation := true;
                  AudioProcessor.activation_command := Some phrase |} ]
        /\ self'.(AudioProcessor.last_activation_time) = current_time
        /\ self'.(AudioProcessor.stats).(AudioProcessor.activations_detected)
           = (self.(AudioProcessor.stats).(AudioProcessor.activations_detected) + 1)%Z)
    /\ (~ returns_normally h ->
        written self'.(AudioProcessor.trace) = written self.(AudioProcessor.trace)
        /\ self'.(AudioProcessor.last_activation_time)
           = self.(AudioProcessor.last_activation_time)
        /\ self'.(AudioProcessor.stats) = self.(AudioProcessor.stats)).
Proof.
  intros self current_time combined txt skipped phrase h rest
         Hgate Hcat Htr Htxt Htab Hskip Hhit self'.
  unfold self'.
  destruct (handler_cases h) as [Hret|(name & e & ->)].
  - rewrite (@check_hit self current_time combined txt skipped phrase h rest
               Hgate Hcat Htr Htxt Htab Hskip Hhit Hret).
    cbn [fst snd]. split; [reflexivity|].
    split; [apply hit_dispatched|]. split; [|intros Hn; contradiction].
    intros _. split; [apply hit_written|].
    unfold activated.
    cbn [AudioProcessor.set_stats AudioProcessor.set_last_activation_time
         AudioProcessor.record AudioProcessor.last_activation_time
         AudioProcessor.stats AudioProcessor.activations_detected].
    split; [reflexivity|].
    rewrite after_handler_stats. reflexivity.
  - rewrite (@check_raise self current_time combined txt skipped phrase name e rest
               Hgate Hcat Htr Htxt Htab Hskip Hhit).
    cbn [fst snd AudioProcessor.trace AudioProcessor.logger AudioProcessor.record
         AudioProcessor.last_activation_time AudioProcessor.stats].
    split; [reflexivity|]. split; [|split].
    + unfold dispatched. rewrite !flat_map_app. cbn [flat_map app].
      rewrite !app_nil_r. reflexivity.
    + intros Hret. contradiction.
    + intros _. split; [|split; reflexivity].
      unfold written. rewrite !flat_map_app. cbn [flat_map app].
      rewrite !app_nil_r. reflexivity.
Qed.

(** C7. In a recognition attempt that is not gated and obtains a non-empty
    transcript containing none of the configured phrases, exactly one
    journal entry is written, with [is_activation = False], no command and
    the transcript verbatim; no handler is awaited; the cooldown timestamp
    and the statistics are unchanged, so whether a later attempt is gated
    is decided exactly as before this attempt. *)
Theorem no_match_recorded :
  forall (self : AudioProcessor.t) (current_time : Q) (combined : list Z) (txt : string),
    AudioProcessor.gated self current_time = false ->
    AudioProcessor.concatenate
      (map AudioProcessor.audio (last_n 5 self.(AudioProcessor.voice_segments)))
      = Ret combined ->
    fst (AudioProcessor._transcribe_audio combined self) = Ret (Some txt) ->
    txt <> EmptyString ->
    (forall p, In p self.(AudioProcessor.activation_phrases) ->
               ~ substring_of (fst p) (strip (lower txt))) ->
    let self' := snd (AudioProcessor._check_for_activation_phrases current_time self) in
    fst (AudioProcessor._check_for_activation_phrases current_time self) = Ret tt
    /\ written self'.(AudioProcessor.trace)
       = written self.(AudioProcessor.trace)
         ++ [ {| AudioProcessor.text := txt;
                 AudioProcessor.confidence := 9 # 10;
                 AudioProcessor.is_activation := false;
                 AudioProcessor.activation_command := None |} ]
    /\ dispatched self'.(AudioProcessor.trace) = dispatched self.(AudioProcessor.trace)
    /\ self'.(AudioProcessor.last_activation_time) = self.(AudioProcessor.last_activation_time)
    /\ self'.(AudioProcessor.stats) = self.(AudioProcessor.stats)
    /\ (forall later, AudioProcessor.gated self' later = AudioProcessor.gated self later).
Proof.
  intros self current_time combined txt Hgate Hcat Htr Htxt Hmiss self'.
  unfold self'.
  rewrite (@check_miss self current_time combined txt Hgate Hcat Htr Htxt Hmiss).
  cbn [fst snd AudioProcessor.trace AudioProcessor.record].
  repeat split.
  - unfold written. rewrite !flat_map_app. simpl. rewrite app_nil_r. reflexivity.
  - unfold dispatched. rewrite !flat_map_app. simpl. rewrite !app_nil_r. reflexivity.
Qed.

Lemma first_match_dispatch_start_recording :
  let self := listening " computer start recording now please" in
  let self' := snd (AudioProcessor._check_for_activation_phrases 100 self) in
  dispatched self'.(AudioProcessor.trace) = [AudioProcessor._handle_start_recording]
  /\ written self'.(AudioProcessor.trace)
     = [ {| AudioProcessor.text := "computer start recording now please";
            AudioProcessor.confidence := 9 # 10;
            AudioProcessor.is_activation := true;
            AudioProcessor.activation_command := Some "computer start recording"%string |} ].
Proof.
  destruct (@first_match_dispatch
              (listening " computer start recording now please") 100
              (sample_frame ++ sample_frame ++ sample_frame)
              "computer start recording now please" []
              "computer start recording" AudioProcessor._handle_start_recording
              [ ("computer mark important", AudioProcessor._handle_mark_important);
                ("computer analyze this", AudioProcessor._handle_analyze_content);
                ("computer show status", AudioProcessor._handle_show_status);
                ("computer pause recording", AudioProcessor._handle_pause_recording)
              ]%string)
    as (_ & Hd & Hok & _).
  - vm_compute. reflexivity.
  - reflexivity.
  - reflexivity.
  - discriminate.
  - reflexivity.
  - intros p [].
  - apply contains_spec. vm_compute. reflexivity.
  - split; [exact Hd | exact (proj1 (Hok I))].
Defined.

Lemma no_match_recorded_small_talk :
  let self := listening "nice weather today" in
  let self' := snd (AudioProcessor._check_for_activation_phrases 100 self) in
  written self'.(AudioProcessor.trace)
  = [ {| AudioProcessor.text := "nice weather today";
         AudioProcessor.confidence := 9 # 10;
         AudioProcessor.is_activation := false;
         AudioProcessor.activation_command := None |} ]
  /\ dispatched self'.(AudioProcessor.trace) = []
  /\ self'.(AudioProcessor.last_activation_time) = 0.
Proof.
  destruct (@no_match_recorded (listening "nice weather today") 100
              (sample_frame ++ sample_frame ++ sample_frame) "nice weather today")
    as (_ & Hw & Hd & Hl & _).
  - vm_compute. reflexivity.
  - reflexivity.
  - reflexivity.
  - discriminate.
  - intros p Hp. apply contains_false.
    simpl in Hp. repeat (destruct Hp as [<-|Hp]; [vm_compute; reflexivity|]).
    destruct Hp.
  - split; [exact Hw | split; [exact Hd | exact Hl]].
Defined.

(** C6 as stated fails when the matched handler raises: the transcript
    "lights on please" contains the registered phrase "lights on" and its
    handler is awaited, but the exception leaves the [try] before
    [write_transcription]: no journal entry is written and the cooldown
    timestamp stays as it was. *)
Lemma first_match_raising_handler :
  let self := listening_with_faulty "lights on please" in
  let self' := snd (AudioProcessor._check_for_activation_phrases 100 self) in
  AudioProcessor.gated self 100 = false
  /\ contains "lights on" (strip (lower "lights on please")) = true
  /\ fst (AudioProcessor._check_for_activation_phrases 100 self) = Ret tt
  /\ dispatched self'.(AudioProcessor.trace) = [faulty]
  /\ written self'.(AudioProcessor.trace) = []
  /\ self'.(AudioProcessor.last_activation_time) = self.(AudioProcessor.last_activation_time).
Proof. vm_compute. repeat split; reflexivity. Qed.

(** ** Cooldown *)

Module Cooldown.
Import AudioProcessor.

Lemma moves_of_keeps {A} current_time (m : M t A) :
  keeps cool m -> moves current_time m.
Proof. intros K s. left. apply K. Qed.

Lemma moves_bind_l {A B} current_time (m : M t A) (k : A -> M t B) :
  keeps cool m -> (forall a, moves current_time (k a)) ->
  moves current_time (bind m k).
Proof.
  intros K Hk s. unfold bind. specialize (K s).
  destruct (m s) as [[a|e] s']; simpl in K.
  - rewrite <- K. apply Hk.
  - left. exact K.
Qed.

Lemma moves_bind_r {A B} current_time (m : M t A) (k : A -> M t B) :
  moves current_time m -> (forall a, keeps cool (k a)) ->
  moves current_time (bind m k).
Proof.
  intros Hm K s. unfold bind. specialize (Hm s).
  destruct (m s) as [[a|e] s']; simpl in Hm.
  - rewrite K. exact Hm.
  - exact Hm.
Qed.

Lemma moves_try_except {A} current_time (m : M t A) (h : exn -> M t A) :
  moves current_time m -> (forall e, keeps cool (h e)) ->
  moves current_time (try_except m h).
Proof.
  intros Hm K s. unfold try_except. specialize (Hm s).
  destruct (m s) as [[a|e] s']; simpl in Hm.
  - exact Hm.
  - rewrite K. exact Hm.
Qed.

Lemma moves_match_phrases text_lower current_time table :
  moves current_time (match_phrases text_lower current_time table).
Proof.
  induction table as [|[phrase h] rest IH]; intros s.
  - left. reflexivity.
  - destruct (contains phrase text_lower) eqn:Hc.
    + destruct (handler_cases h) as [Hret|(name & e & ->)].
      * pose proof (@match_phrases_hit text_lower current_time phrase h rest [] s
                      (fun p (F : In p []) => match F with end) Hc Hret) as E.
        cbn [app] in E. rewrite E.
        right. unfold cool, activated. simpl. rewrite after_handler_stats. reflexivity.
      * pose proof (@match_phrases_raise text_lower current_time phrase name e rest [] s
                      (fun p (F : In p []) => match F with end) Hc) as E.
        cbn [app] in E. rewrite E.
        left. reflexivity.
    + simpl. rewrite Hc. apply IH.
Qed.

Lemma moves_match_and_record txt current_time :
  moves current_time (match_and_record txt current_time).
Proof.
  unfold match_and_record, write_transcription.
  apply moves_bind_l; [frame|]. intros self.
  apply moves_bind_r; [apply moves_match_phrases|]. frame.
Qed.

Lemma keeps_cool_transcribe audio_array : keeps cool (_transcribe_audio audio_array).
Proof. unfold _transcribe_audio. frame. Qed.

Lemma moves_check current_time :
  moves current_time (_check_for_activation_phrases current_time).
Proof.
  unfold _check_for_activation_phrases.
  apply moves_bind_l; [frame|]. intros self.
  destruct (gated self current_time); [apply moves_of_keeps; frame|].
  apply moves_try_except; [|frame].
  apply moves_bind_l; [frame|]. intros combined.
  apply moves_bind_l; [apply keeps_cool_transcribe|]. intros [txt|].
  - destruct (truthy txt); [apply moves_match_and_record | apply moves_of_keeps; frame].
  - apply moves_of_keeps; frame.
Qed.

(** An activation completes only outside the cooldown. *)
Lemma activation_step (self : t) current_time :
  let self' := snd (_check_for_activation_phrases current_time self) in
  cool self' = cool self
  \/ (cool self' = (current_time, (self.(stats).(activations_detected) + 1)%Z)
      /\ self.(settings).(Settings.activation).(Settings.cooldown_sec)
         <= current_time - self.(last_activation_time)).
Proof.
  intros self'. destruct (gated self current_time) eqn:Hg.
  - left. unfold self'. rewrite (check_gated _ _ Hg). reflexivity.
  - destruct (moves_check current_time self) as [H|H].
    + left. exact H.
    + right. split; [exact H|]. apply Qltb_ge. exact Hg.
Qed.

(** *** Any number of attempts *)

Lemma keeps_settings_check current_time :
  keeps settings (_check_for_activation_phrases current_time).
Proof. apply ProcessorFrames.keeps_check; reflexivity. Qed.

Lemma activations_separated attempts :
  Forall (fun a => bystander (snd a)) attempts ->
  forall s,
    separated s.(settings).(Settings.activation).(Settings.cooldown_sec)
              s.(last_activation_time) (activation_times attempts s).
Proof.
  induction 1 as [|[current_time prepare] rest Hp _ IH]; intros s.
  - constructor.
  - cbn [activation_times]. simpl in Hp. destruct (Hp s) as [Hc Hs].
    set (s0 := prepare s) in *.
    set (s1 := snd (_check_for_activation_phrases current_time s0)).
    specialize (IH s1).
    assert (Hset : s1.(settings) = s.(settings)).
    { unfold s1. rewrite keeps_settings_check. exact Hs. }
    rewrite Hset in IH.
    unfold cool in Hc. injection Hc as Hlast Hacts.
    destruct (activation_step s0 current_time) as [H|[H Hcd]];
      fold s1 in H; unfold cool in H; injection H as Hl Ha.
    + rewrite Ha, Z.eqb_refl. rewrite Hl, Hlast in IH. exact IH.
    + rewrite Ha.
      destruct (Z.eqb_spec (activations_detected (stats s0) + 1)
                           (activations_detected (stats s0))) as [E|_]; [lia|].
      cbn [app]. constructor.
      * rewrite Hs, Hlast in Hcd. exact Hcd.
      * rewrite Hl in IH. exact IH.
Qed.

End Cooldown.

Import Cooldown.

(** C1 (as amended). Take a recognition attempt at time [first] that is
    not gated, matches a phrase and whose handler returns normally, and a
    second attempt less than [cooldown_sec] later (0.5 s later with a
    cooldown of 1 s, say).  The second attempt is skipped entirely, so over
    the two attempts exactly one handler is awaited and exactly one journal
    entry with [is_activation = True] is written.  In general an attempt
    with [current_time - last_activation_time < cooldown_sec] leaves the
    processor untouched, and over any number of attempts, whatever else
    happens to the processor in between, each completed activation comes at
    least [cooldown_sec] after the one before. *)
Theorem cooldown_gating :
  forall (self : AudioProcessor.t) (first second : Q) (combined : list Z)
         (txt : string) (skipped : list (string * AudioProcessor.handler))
         (phrase : string) (h : AudioProcessor.handler)
         (rest : list (string * AudioProcessor.handler)),
    AudioProcessor.gated self first = false ->
    AudioProcessor.concatenate
      (map AudioProcessor.audio (last_n 5 self.(AudioProcessor.voice_segments)))
      = Ret combined ->
    fst (AudioProcessor._transcribe_audio combined self) = Ret (Some txt) ->
    txt <> EmptyString ->
    self.(AudioProcessor.activation_phrases) = skipped ++ (phrase, h) :: rest ->
    (forall p, In p skipped -> ~ substring_of (fst p) (strip (lower txt))) ->
    substring_of phrase (strip (lower txt)) ->
    returns_normally h ->
    second - first
      < self.(AudioProcessor.settings).(Settings.activation).(Settings.cooldown_sec) ->
    let s1 := snd (AudioProcessor._check_for_activation_phrases first self) in
    let s2 := snd (AudioProcessor._check_for_activation_phrases second s1) in
    (AudioProcessor._check_for_activation_phrases second s1 = (Ret tt, s1)
     /\ dispatched s2.(AudioProcessor.trace)
        = dispatched self.(AudioProcessor.trace) ++ [h]
     /\ written s2.(AudioProcessor.trace)
        = written self.(AudioProcessor.trace)
          ++ [ {| AudioProcessor.text := txt;
                  AudioProcessor.confidence := 9 # 10;
                  AudioProcessor.is_activation := true;
                  AudioProcessor.activation_command := Some phrase |} ])
    /\ (forall (s : AudioProcessor.t) (current_time : Q),
          current_time - s.(AudioProcessor.last_activation_time)
            < s.(AudioProcessor.settings).(Settings.activation).(Settings.cooldown_sec) ->
          AudioProcessor._check_for_activation_phrases current_time s = (Ret tt, s))
    /\ (forall (attempts : list (Q * (AudioProcessor.t -> AudioProcessor.t)))
               (s : AudioProcessor.t),
          Forall (fun a => bystander (snd a)) attempts ->
          separated s.(AudioProcessor.settings).(Settings.activation).(Settings.cooldown_sec)
                    s.(AudioProcessor.last_activation_time)
                    (activation_times attempts s)).
Proof.
  intros self first second combined txt skipped phrase h rest
         Hgate Hcat Htr Htxt Htab Hskip Hhit Hret Hclose s1 s2.
  assert (Hskipped : forall (s : AudioProcessor.t) (current_time : Q),
            current_time - s.(AudioProcessor.last_activation_time)
              < s.(AudioProcessor.settings).(Settings.activation).(Settings.cooldown_sec) ->
            AudioProcessor._check_for_activation_phrases current_time s = (Ret tt, s)).
  { intros s current_time Hlt. apply check_gated.
    unfold AudioProcessor.gated. apply Qltb_lt. exact Hlt. }
  pose proof (@check_hit self first combined txt skipped phrase h rest
                Hgate Hcat Htr Htxt Htab Hskip Hhit Hret) as Ehit.
  assert (Hd : dispatched s1.(AudioProcessor.trace)
               = dispatched self.(AudioProcessor.trace) ++ [h]).
  { unfold s1. rewrite Ehit. apply hit_dispatched. }
  assert (Hw : written s1.(AudioProcessor.trace)
               = written self.(AudioProcessor.trace)
                 ++ [entry_of txt (true, Some phrase)]).
  { unfold s1. rewrite Ehit. apply hit_written. }
  assert (Hl : s1.(AudioProcessor.last_activation_time) = first).
  { unfold s1. rewrite Ehit. reflexivity. }
  assert (Hset : s1.(AudioProcessor.settings) = self.(AudioProcessor.settings)).
  { unfold s1. apply keeps_settings_check. }
  assert (E : AudioProcessor._check_for_activation_phrases second s1 = (Ret tt, s1)).
  { apply Hskipped. rewrite Hl, Hset. exact Hclose. }
  split; [|split].
  - unfold s2. rewrite E. cbn [snd]. auto.
  - exact Hskipped.
  - intros attempts s Hb. apply activations_separated. exact Hb.
Qed.

Lemma cooldown_gating_half_second :
  let self := listening " computer start recording now please" in
  let s1 := snd (AudioProcessor._check_for_activation_phrases 100 self) in
  let s2 := snd (AudioProcessor._check_for_activation_phrases (100 + (1 # 2)) s1) in
  self.(AudioProcessor.settings).(Settings.activation).(Settings.cooldown_sec) = 1
  /\ dispatched s2.(AudioProcessor.trace) = [AudioProcessor._handle_start_recording]
  /\ written s2.(AudioProcessor.trace)
     = [ {| AudioProcessor.text := "computer start recording now please";
            AudioProcessor.confidence := 9 # 10;
            AudioProcessor.is_activation := true;
            AudioProcessor.activation_command := Some "computer start recording"%string |} ].
Proof.
  destruct (@cooldown_gating
              (listening " computer start recording now please") 100 (100 + (1 # 2))
              (sample_frame ++ sample_frame ++ sample_frame)
              "computer start recording now please" []
              "computer start recording" AudioProcessor._handle_start_recording
              [ ("computer mark important", AudioProcessor._handle_mark_important);
                ("computer analyze this", AudioProcessor._handle_analyze_content);
                ("computer show status", AudioProcessor._handle_show_status);
                ("computer pause recording", AudioProcessor._handle_pause_recording)
              ]%string)
    as ((_ & Hd & Hw) & _).
  - vm_compute. reflexivity.
  - reflexivity.
  - reflexivity.
  - discriminate.
  - reflexivity.
  - intros p [].
  - apply contains_spec. vm_compute. reflexivity.
  - exact I.
  - vm_compute. reflexivity.
  - split; [reflexivity | split; [exact Hd | exact Hw]].
Defined.

(** C1 as stated fails when the matched handler raises: with a cooldown of
    1 s, two attempts 0.5 s apart that both hear the registered phrase
    "lights on" both await its handler, because the exception leaves the
    [try] before [last_activation_time] is set; and no journal entry is
    written at all. *)
Lemma cooldown_raising_handler :
  let self := listening_with_faulty "lights on please" in
  let s1 := snd (AudioProcessor._check_for_activation_phrases 100 self) in
  let s2 := snd (AudioProcessor._check_for_activation_phrases (100 + (1 # 2)) s1) in
  self.(AudioProcessor.settings).(Settings.activation).(Settings.cooldown_sec) = 1
  /\ contains "lights on" (strip (lower "lights on please")) = true
  /\ dispatched s2.(AudioProcessor.trace) = [faulty; faulty]
  /\ written s2.(AudioProcessor.trace) = [].
Proof. vm_compute. repeat split; reflexivity. Qed.

(** C9. A processor that is not running ignores the chunk: [process_chunk]
    returns at once and the processor is left exactly as it was, so its
    audio buffer, voice segments, statistics, cooldown timestamp, detector,
    log and record of collaborator calls are all untouched. *)
Theorem process_chunk_not_running :
  forall (self : AudioProcessor.t) (clk : AudioProcessor.clock)
         (audio_data : list byte) (timestamp : Q),
    self.(AudioProcessor.is_running) = false ->
    AudioProcessor.process_chunk clk audio_data timestamp self = (Ret tt, self).
Proof.
  intros self clk audio_data timestamp H.
  unfold AudioProcessor.process_chunk, bind, get. rewrite H. reflexivity.
Qed.

Lemma process_chunk_not_running_fresh :
  AudioProcessor.process_chunk clock0 (tobytes sample_frame) 100 fresh_processor
  = (Ret tt, fresh_processor).
Proof.
  apply (process_chunk_not_running fresh_processor clock0 (tobytes sample_frame) 100).
  reflexivity.
Defined.

(** ** Stream segmentation *)

Module Segmenter.
Import WebcamCapture.

Lemma keeps_is_recording_emit r audio_data : keeps is_recording (emit r audio_data).
Proof. unfold emit, send. frame. Qed.

Lemma keeps_process_emit r audio_data : keeps process (emit r audio_data).
Proof. unfold emit, send. frame. Qed.

Lemma total_emit r audio_data : total (emit r audio_data).
Proof. unfold emit. frame. Qed.

Lemma sent_emit r audio_data s :
  (snd (emit r audio_data s)).(sent) = s.(sent) ++ [(audio_data, r.(now))].
Proof.
  unfold emit, send, try_except, bind, modify, zoom. cbn [audio_processor record_sent].
  destruct (AudioProcessor.process_chunk _ _ _ _) as [[[]|e] a']; reflexivity.
Qed.

Lemma slice_from_start {A} (l : list A) (n : Z) :
  slice l 0 n = firstn (Z.to_nat n) l.
Proof. unfold slice. rewrite Z.sub_0_r. reflexivity. Qed.

Lemma stream_loop_frames reads :
  forall buffer (s : t) p,
    s.(is_recording) = true -> s.(process) = Some p ->
    exists leftover frames s',
      stream_loop reads buffer s = (Ret leftover, s')
      /\ s'.(sent) = s.(sent) ++ frames
      /\ Forall (fun f => len (fst f) = frame_bytes) frames
      /\ concat (map fst frames) ++ leftover = buffer ++ stream_bytes reads
      /\ (Forall bounded reads -> (len buffer < frame_bytes)%Z ->
          (len leftover < frame_bytes)%Z).
Proof.
  induction reads as [|r rest IH]; intros buffer s p Hrec Hproc.
  - exists buffer, [], s. simpl. rewrite !app_nil_r. auto.
  - cbn [stream_loop stream_bytes]. unfold bind at 1, get. rewrite Hrec, Hproc.
    destruct (chunk r) as [[|b data]|e] eqn:Hchunk.
    + exists buffer, [], s. cbn [map concat app]. rewrite !app_nil_r. auto.
    + set (data' := b :: data) in *.
      destruct (frame_bytes <=? len (buffer ++ data'))%Z eqn:Hfull.
      * apply Z.leb_le in Hfull.
        rewrite slice_from_start.
        set (audio_data := firstn (Z.to_nat frame_bytes) (buffer ++ data')).
        fold (emit r audio_data).
        unfold bind at 1.
        pose proof (keeps_is_recording_emit r audio_data s) as K1.
        pose proof (keeps_process_emit r audio_data s) as K2.
        pose proof (sent_emit r audio_data s) as K3.
        destruct (total_emit r audio_data s) as [[] T].
        destruct (emit r audio_data s) as [res s1].
        simpl in K1, K2, K3, T. subst res.
        destruct (IH (skipn (Z.to_nat frame_bytes) (buffer ++ data')) s1 p)
          as (lo & fr & s' & E1 & E2 & E3 & E4 & E5).
        -- rewrite K1. exact Hrec.
        -- rewrite K2. exact Hproc.
        -- exists lo, ((audio_data, now r) :: fr), s'.
           split; [exact E1|]. split; [rewrite E2, K3, <- app_assoc; reflexivity|].
           split; [constructor; [|exact E3]|].
           ++ unfold audio_data, len, frame_bytes in *. cbn [fst].
              rewrite length_firstn. lia.
           ++ split.
              ** cbn [map concat fst]. rewrite <- app_assoc, E4.
                 unfold audio_data.
                 rewrite app_assoc, firstn_skipn, <- app_assoc. reflexivity.
              ** intros Hb Hlen. inversion Hb as [|? ? Hr Hrest]; subst.
                 apply E5; [exact Hrest|].
                 unfold bounded in Hr. rewrite Hchunk in Hr. fold data' in Hr.
                 unfold len, frame_bytes, chunk_size in *.
                 rewrite length_skipn. rewrite length_app in *. lia.
      * apply Z.leb_gt in Hfull.
        destruct (IH (buffer ++ data') s p Hrec Hproc)
          as (lo & fr & s' & E1 & E2 & E3 & E4 & E5).
        exists lo, fr, s'. repeat split; auto.
        -- rewrite E4, <- app_assoc. reflexivity.
        -- intros Hb _. inversion Hb; subst. auto.
    + unfold bind at 1, modify.
      destruct (IH buffer (logger LError "Error processing audio chunk" s) p)
        as (lo & fr & s' & E1 & E2 & E3 & E4 & E5); auto.
      exists lo, fr, s'. repeat split; auto.
      intros Hb Hlen. inversion Hb; subst. auto.
Qed.

End Segmenter.

Import Segmenter.

Lemma concat_frames_length (frames : list (list byte * Q)) :
  Forall (fun f => len (fst f) = WebcamCapture.frame_bytes) frames ->
  len (concat (map fst frames)) = (WebcamCapture.frame_bytes * len frames)%Z.
Proof.
  unfold len, WebcamCapture.frame_bytes.
  induction 1 as [|f frames Hf _ IH]; cbn [map concat length].
  - lia.
  - rewrite length_app. lia.
Qed.

(** C3. While the capture is recording, [_process_audio_stream] returns
    normally and hands on only frames of exactly 32000 bytes, in stream
    order: the frames handed on, put end to end and followed by what is left
    in the local buffer, are the bytes read up to the end of the stream.
    What is left is dropped with the buffer and never handed on.  When every
    read returns at most [chunk_size] bytes, as [read(chunk_size)] does,
    what is left is shorter than a frame, so exactly the complete frames of
    the stream are handed on and only a partial frame is discarded. *)
Theorem frame_sizing :
  forall (self : WebcamCapture.t) (p : WebcamCapture.Popen)
         (reads : list WebcamCapture.read),
    self.(WebcamCapture.is_recording) = true ->
    self.(WebcamCapture.process) = Some p ->
    let self' := snd (WebcamCapture._process_audio_stream reads self) in
    exists (frames : list (list byte * Q)) (leftover : list byte),
      fst (WebcamCapture._process_audio_stream reads self) = Ret tt
      /\ self'.(WebcamCapture.sent) = self.(WebcamCapture.sent) ++ frames
      /\ Forall (fun f => len (fst f) = 32000%Z) frames
      /\ concat (map fst frames) ++ leftover = stream_bytes reads
      /\ (Forall bounded reads ->
          (0 <= len leftover < 32000)%Z
          /\ len frames = (len (stream_bytes reads) / 32000)%Z).
Proof.
  intros self p reads Hrec Hproc self'.
  destruct (@stream_loop_frames reads []
              (WebcamCapture.logger LInfo "Starting audio stream processing" self) p
              Hrec Hproc)
    as (leftover & frames & s' & E & Hsent & Hall & Hcat & Hlen).
  change ([] ++ stream_bytes reads) with (stream_bytes reads) in Hcat.
  exists frames, leftover.
  assert (R : WebcamCapture._process_audio_stream reads self
              = (Ret tt, WebcamCapture.logger LInfo "Audio stream processing stopped" s')).
  { unfold WebcamCapture._process_audio_stream, bind at 1, get. rewrite Hproc.
    unfold bind at 1, modify. unfold bind at 1, try_except. unfold bind at 1.
    rewrite E. reflexivity. }
  unfold self'. rewrite R. cbn [fst snd].
  split; [reflexivity|]. split; [exact Hsent|]. split; [exact Hall|].
  split; [exact Hcat|].
  intros Hb. specialize (Hlen Hb eq_refl).
  assert (Htotal : len (stream_bytes reads)
                   = (32000 * len frames + len leftover)%Z).
  { rewrite <- Hcat. unfold len at 1. rewrite length_app.
    pose proof (concat_frames_length Hall) as Hc.
    unfold len, WebcamCapture.frame_bytes in *. lia. }
  assert (Hlo : (0 <= len leftover < 32000)%Z).
  { unfold len, WebcamCapture.frame_bytes in *. lia. }
  split; [exact Hlo|].
  rewrite Htotal.
  apply Z.div_unique with (r := len leftover); [left; exact Hlo | reflexivity].
Qed.

Lemma reads_74000_bounded : Forall bounded reads_74000.
Proof.
  apply Forall_app. split.
  - apply Forall_forall. intros r Hr. apply repeat_spec in Hr. subst r.
    vm_compute. discriminate.
  - constructor; [vm_compute; discriminate | constructor].
Qed.

Lemma frame_sizing_74000 :
  exists (frames : list (list byte * Q)) (leftover : list byte),
    (snd (WebcamCapture._process_audio_stream reads_74000 recording)).(WebcamCapture.sent)
    = frames
    /\ Forall (fun f => len (fst f) = 32000%Z) frames
    /\ concat (map fst frames) ++ leftover = stream_bytes reads_74000
    /\ (0 <= len leftover < 32000)%Z
    /\ len frames = (len (stream_bytes reads_74000) / 32000)%Z.
Proof.
  destruct (@frame_sizing recording {| WebcamCapture.pid := 4242 |} reads_74000
              eq_refl eq_refl)
    as (frames & leftover & _ & Hsent & Hall & Hcat & Hb).
  destruct (Hb reads_74000_bounded) as [Hlo Hn].
  exists frames, leftover. auto.
Defined.

(** The example of the specification: of 74000 bytes, two frames of 32000
    bytes are handed on and the remaining 10000 bytes are not. *)
Example trailing_10000_discarded :
  map (fun f => len (fst f))
      (snd (WebcamCapture._process_audio_stream reads_74000 recording)).(WebcamCapture.sent)
  = [32000; 32000]%Z
  /\ len (stream_bytes reads_74000) = 74000%Z.
Proof. vm_compute. split; reflexivity. Qed.

(** ** Supervision *)

Module Supervisor.
Import WebcamCapture.

Lemma restart_attempts_app (s : t) entries :
  length (filter is_restart_entry (s.(log) ++ entries))
  = (restart_attempts s + length (filter is_restart_entry entries))%nat.
Proof. unfold restart_attempts. rewrite filter_app, length_app. reflexivity. Qed.

Lemma monitor_iteration_died (s : t) p hc :
  s.(process) = Some p -> died hc ->
  exists p',
    fst (monitor_iteration hc s) = Ret tt
    /\ (snd (monitor_iteration hc s)).(is_recording) = s.(is_recording)
    /\ (snd (monitor_iteration hc s)).(settings) = s.(settings)
    /\ (snd (monitor_iteration hc s)).(process) = Some p'
    /\ restart_attempts (snd (monitor_iteration hc s)) = S (restart_attempts s).
Proof.
  intros Hp (code & Hpoll & _).
  unfold monitor_iteration, try_except, bind, get, modify, _restart_capture,
    _start_capture_process, _wait_for_process, try_except, bind, get, modify,
    call, raise, ret.
  rewrite Hp, Hpoll. cbn [process logger]. rewrite Hp.
  destruct (spawn hc) as [p'|e]; [exists p' | exists p]; cbn [fst snd];
    (split; [reflexivity|]); (split; [reflexivity|]); (split; [reflexivity|]);
    (split; [first [reflexivity | exact Hp]|]);
    unfold restart_attempts; cbn [log logger set_process];
    rewrite <- !app_assoc; cbn [app];
    rewrite restart_attempts_app; cbn; unfold restart_attempts; lia.
Qed.

Lemma monitor_restarts_every_time checks :
  Forall died checks ->
  forall (s : t) p,
    s.(is_recording) = true -> s.(process) = Some p ->
    exists s',
      _monitor_capture checks s = (Ret tt, s')
      /\ s'.(is_recording) = true
      /\ s'.(settings) = s.(settings)
      /\ restart_attempts s' = (restart_attempts s + length checks)%nat.
Proof.
  induction 1 as [|hc rest Hd _ IH]; intros s p Hrec Hp.
  - exists s. simpl. repeat split; auto.
  - cbn [_monitor_capture]. unfold bind at 1, get. rewrite Hrec.
    destruct (@monitor_iteration_died s p hc Hp Hd) as (p' & E1 & E2 & E3 & E4 & E5).
    unfold bind.
    destruct (monitor_iteration hc s) as [[[]|e] s1]; simpl in E1, E2, E3, E4, E5;
      [|discriminate].
    destruct (IH s1 p') as (s' & F1 & F2 & F3 & F4).
    + rewrite E2. exact Hrec.
    + exact E4.
    + exists s'. repeat split; auto.
      * rewrite F3. exact E3.
      * rewrite F4, E5. simpl. lia.
Qed.

End Supervisor.

Import Supervisor.

(** C2 (as amended). While the capture is recording, every health check
    that finds the process exited with a non-zero code makes one restart
    attempt, however many came before: after [n] such checks [n] more
    attempts have been made, the monitor has returned normally from each and
    the capture is still recording.  No counter is kept and
    [max_restart_attempts] is not consulted. *)
Theorem restarts_unbounded :
  forall (self : WebcamCapture.t) (p : WebcamCapture.Popen)
         (checks : list WebcamCapture.health_check),
    self.(WebcamCapture.is_recording) = true ->
    self.(WebcamCapture.process) = Some p ->
    Forall died checks ->
    let self' := snd (WebcamCapture._monitor_capture checks self) in
    fst (WebcamCapture._monitor_capture checks self) = Ret tt
    /\ WebcamCapture.restart_attempts self'
       = (WebcamCapture.restart_attempts self + length checks)%nat
    /\ self'.(WebcamCapture.is_recording) = true
    /\ self'.(WebcamCapture.settings) = self.(WebcamCapture.settings).
Proof.
  intros self p checks Hrec Hp Hd self'.
  destruct (@monitor_restarts_every_time checks Hd self p Hrec Hp)
    as (s' & E & H1 & H2 & H3).
  unfold self'. rewrite E. cbn [fst snd]. auto.
Qed.

Lemma restarts_unbounded_five :
  WebcamCapture.restart_attempts
    (snd (WebcamCapture._monitor_capture five_crashes recording)) = 5%nat
  /\ (snd (WebcamCapture._monitor_capture five_crashes recording))
       .(WebcamCapture.is_recording) = true.
Proof.
  destruct (@restarts_unbounded recording {| WebcamCapture.pid := 4242 |} five_crashes)
    as (_ & Hn & Hrec & _).
  - reflexivity.
  - reflexivity.
  - unfold five_crashes.
    repeat (apply Forall_cons; [exists 1%Z; split; [reflexivity | discriminate]|]).
    apply Forall_nil.
  - split; [exact Hn | exact Hrec].
Defined.

(** C2 as stated fails: with [max_restart_attempts = 3], a process that
    exits with code 1 at five health checks in a row is restarted five
    times, and the capture is still recording afterwards. *)
Lemma restart_bound_exceeded :
  let self' := snd (WebcamCapture._monitor_capture five_crashes recording) in
  recording.(WebcamCapture.settings).(Settings.system).(Settings.max_restart_attempts) = 3%Z
  /\ WebcamCapture.restart_attempts self' = 5%nat
  /\ self'.(WebcamCapture.is_recording) = true
  /\ self'.(WebcamCapture.process) = Some {| WebcamCapture.pid := 5 |}.
Proof. vm_compute. repeat split; reflexivity. Qed.

(** * Further properties *)

(** ** Samples and their bytes *)

Module CodecFacts.

Lemma Z_of_byte_range b : (0 <= Z_of_byte b < 256)%Z.
Proof.
  unfold Z_of_byte. pose proof (Byte.to_N_bounded b). lia.
Qed.

Lemma byte_of_Z_of_byte b : byte_of_Z (Z_of_byte b) = b.
Proof.
  unfold byte_of_Z. pose proof (Z_of_byte_range b) as R.
  rewrite Z.mod_small by exact R.
  unfold Z_of_byte. rewrite N2Z.id, Byte.of_to_N. reflexivity.
Qed.

Lemma Z_of_byte_of_Z z : Z_of_byte (byte_of_Z z) = (z mod 256)%Z.
Proof.
  unfold byte_of_Z, Z_of_byte.
  pose proof (Z.mod_pos_bound z 256 ltac:(lia)) as R.
  destruct (Byte.of_N (Z.to_N (z mod 256))) as [b|] eqn:E.
  - apply Byte.to_of_N in E. rewrite E. lia.
  - apply Byte.of_N_None_iff in E. lia.
Qed.

Lemma int16_wrap_range u : (-32768 <= int16_wrap u <= 32767)%Z.
Proof.
  unfold int16_wrap. pose proof (Z.mod_pos_bound u 65536 ltac:(lia)).
  destruct (Z.ltb_spec (u mod 65536) 32768); lia.
Qed.

Lemma int16_wrap_mod u : (int16_wrap u mod 65536 = u mod 65536)%Z.
Proof.
  unfold int16_wrap. pose proof (Z.mod_pos_bound u 65536 ltac:(lia)).
  destruct (Z.ltb_spec (u mod 65536) 32768).
  - apply Z.mod_mod; lia.
  - replace (u mod 65536 - 65536)%Z with (u mod 65536 + (-1) * 65536)%Z by lia.
    rewrite Z.mod_add by lia. apply Z.mod_mod; lia.
Qed.

Lemma int16_wrap_small z : (-32768 <= z <= 32767)%Z -> int16_wrap (z mod 65536) = z.
Proof.
  intros R. unfold int16_wrap. rewrite Z.mod_mod by lia.
  destruct (Z.ltb_spec (z mod 65536) 32768) as [L|L].
  - destruct (Z.neg_nonneg_cases z) as [N|N].
    + replace z with (z + 65536 + (-1) * 65536)%Z in L by lia.
      rewrite Z.mod_add, Z.mod_small in L by lia. lia.
    + apply Z.mod_small. lia.
  - destruct (Z.neg_nonneg_cases z) as [N|N].
    + replace z with (z + 65536 + (-1) * 65536)%Z at 1 by lia.
      rewrite Z.mod_add, Z.mod_small by lia. lia.
    + rewrite Z.mod_small in L by lia. lia.
Qed.

Lemma pair_bytes lo hi :
  let u := (int16_wrap (Z_of_byte lo + 256 * Z_of_byte hi) mod 65536)%Z in
  byte_of_Z u = lo /\ byte_of_Z (u / 256) = hi.
Proof.
  intros u. subst u. rewrite int16_wrap_mod.
  pose proof (Z_of_byte_range lo). pose proof (Z_of_byte_range hi).
  rewrite Z.mod_small by lia. split.
  - rewrite <- (byte_of_Z_of_byte lo) at 2. unfold byte_of_Z.
    replace ((Z_of_byte lo + 256 * Z_of_byte hi) mod 256)%Z with (Z_of_byte lo mod 256)%Z;
      [reflexivity|].
    rewrite (Z.mul_comm 256), Z.mod_add by lia. reflexivity.
  - rewrite (Z.mul_comm 256), Z.div_add, Z.div_small by lia.
    simpl. apply byte_of_Z_of_byte.
Qed.

Lemma tobytes_pairs : forall n data,
  (length data <= n)%nat -> Nat.even (length data) = true ->
  tobytes (pairs_to_int16 data) = data.
Proof.
  induction n as [|n IH]; intros data L E.
  - destruct data; [reflexivity | simpl in L; lia].
  - destruct data as [|lo [|hi rest]]; [reflexivity | discriminate |].
    cbn [pairs_to_int16 tobytes].
    destruct (pair_bytes lo hi) as [E1 E2]. cbv zeta in E1, E2.
    rewrite E1, E2, IH; [reflexivity | simpl in L; lia | exact E].
Qed.

Lemma pairs_range : forall n data,
  (length data <= n)%nat ->
  Forall (fun z => (-32768 <= z <= 32767)%Z) (pairs_to_int16 data).
Proof.
  induction n as [|n IH]; intros data L.
  - destruct data; [constructor | simpl in L; lia].
  - destruct data as [|lo [|hi rest]]; try constructor.
    + apply int16_wrap_range.
    + apply IH. simpl in L. lia.
Qed.

Lemma pairs_length : forall n data,
  (length data <= n)%nat -> Nat.even (length data) = true ->
  length data = (2 * length (pairs_to_int16 data))%nat.
Proof.
  induction n as [|n IH]; intros data L E.
  - destruct data; [reflexivity | simpl in L; lia].
  - destruct data as [|lo [|hi rest]]; [reflexivity | discriminate |].
    cbn [pairs_to_int16 length]. rewrite (IH rest); [lia | simpl in L; lia | exact E].
Qed.

Lemma tobytes_length a : length (tobytes a) = (2 * length a)%nat.
Proof. induction a as [|z a IH]; simpl; [reflexivity | rewrite IH; lia]. Qed.

Lemma pairs_tobytes a :
  Forall (fun z => (-32768 <= z <= 32767)%Z) a -> pairs_to_int16 (tobytes a) = a.
Proof.
  induction 1 as [|z a R _ IH]; [reflexivity|].
  cbn [tobytes pairs_to_int16]. rewrite IH. f_equal.
  rewrite !Z_of_byte_of_Z.
  pose proof (Z.mod_pos_bound z 65536 ltac:(lia)) as B.
  rewrite (Z.mod_small (z mod 65536 / 256)) by
    (split; [apply Z.div_pos; lia | apply Z.div_lt_upper_bound; lia]).
  rewrite Z.add_comm, <- Z.div_mod by lia.
  apply int16_wrap_small. exact R.
Qed.

(** Encoding int16 samples and decoding the bytes gives the samples back. *)
Lemma frombuffer_tobytes (audio_array : list Z) :
  Forall (fun z => (-32768 <= z <= 32767)%Z) audio_array ->
  frombuffer (tobytes audio_array) = Ret audio_array.
Proof.
  intros R. unfold frombuffer. rewrite tobytes_length.
  replace (Nat.even (2 * length audio_array)) with true.
  - rewrite pairs_tobytes by exact R. reflexivity.
  - symmetry. apply Nat.even_spec. exists (length audio_array). reflexivity.
Qed.

End CodecFacts.

(** X1. The samples [process_chunk] decodes from a capture frame
    ([np.frombuffer]) are int16 values, half as many as there are bytes, and
    encoding them again, as the heuristic backend does before it cuts
    sub-frames ([astype(np.int16).tobytes()]), gives back the bytes of the
    frame: the backend windows the very bytes capture handed on. *)
Theorem tobytes_frombuffer :
  forall (data : list byte) (audio_array : list Z),
    frombuffer data = Ret audio_array ->
    tobytes audio_array = data
    /\ Forall (fun z => (-32768 <= z <= 32767)%Z) audio_array
    /\ len data = (2 * len audio_array)%Z.
Proof.
  intros data a H. unfold frombuffer in H.
  destruct (Nat.even (length data)) eqn:E; [|discriminate].
  injection H as <-. split; [|split].
  - apply (@CodecFacts.tobytes_pairs (length data)); [lia | exact E].
  - apply (@CodecFacts.pairs_range (length data)). lia.
  - unfold len. rewrite (@CodecFacts.pairs_length (length data) data); [lia | lia | exact E].
Qed.

Lemma tobytes_frombuffer_two_samples :
  frombuffer [x0c; x00; xf9; xff] = Ret [12; -7]%Z
  /\ tobytes [12; -7]%Z = [x0c; x00; xf9; xff].
Proof.
  split; [reflexivity|].
  apply (@tobytes_frombuffer [x0c; x00; xf9; xff] [12; -7]%Z). reflexivity.
Defined.

(** ** Detector statistics and life cycle *)

(** X2. Before the Silero network is run, a frame shorter than 512 samples
    is padded with zeros at the end up to 512 samples; a longer frame is
    left as it is.  The samples themselves are never altered. *)
Theorem pad512_spec :
  forall (audio_tensor : list Q),
    length (SileroVAD.pad512 audio_tensor) = Nat.max 512 (length audio_tensor)
    /\ firstn (length audio_tensor) (SileroVAD.pad512 audio_tensor) = audio_tensor
    /\ skipn (length audio_tensor) (SileroVAD.pad512 audio_tensor)
       = repeat 0 (512 - length audio_tensor).
Proof.
  intros l. unfold SileroVAD.pad512.
  destruct (Nat.ltb_spec (length l) 512) as [L|L].
  - split; [rewrite length_app, repeat_length; lia | split].
    + rewrite firstn_app, Nat.sub_diag, firstn_all, firstn_O. apply app_nil_r.
    + rewrite skipn_app, Nat.sub_diag, skipn_all. reflexivity.
  - split; [lia | split; [apply firstn_all|]].
    rewrite skipn_all. replace (512 - length l)%nat with 0%nat by lia. reflexivity.
Qed.

Module DetectorFacts.

Lemma silero_detect_loaded (s : SileroVAD.t) run clock audio c :
  s.(SileroVAD.model) = Some run ->
  run (SileroVAD.pad512 (map inject_Z audio)) s.(SileroVAD.sample_rate) = Ret c ->
  SileroVAD.detect_voice_activity clock audio s
  = (Ret (Qltb s.(SileroVAD.threshold) c),
     SileroVAD.set_stats
       (record_detection (snd clock - fst clock) (Qltb s.(SileroVAD.threshold) c)
          s.(SileroVAD.stats)) s).
Proof.
  intros Hm Hr.
  unfold SileroVAD.detect_voice_activity, bind, get. rewrite Hm.
  unfold try_except, SileroVAD.detect_body, bind, get, call, modify, ret.
  rewrite Hr. reflexivity.
Qed.

Lemma silero_detect_failed (s : SileroVAD.t) run clock audio e :
  s.(SileroVAD.model) = Some run ->
  run (SileroVAD.pad512 (map inject_Z audio)) s.(SileroVAD.sample_rate) = Raise e ->
  SileroVAD.detect_voice_activity clock audio s
  = (Ret false, SileroVAD.logger LError "Error in Silero VAD detection" s).
Proof.
  intros Hm Hr.
  unfold SileroVAD.detect_voice_activity, bind, get. rewrite Hm.
  unfold try_except, SileroVAD.detect_body, bind, get, call, modify, ret.
  rewrite Hr. reflexivity.
Qed.

Lemma silero_counted (s : SileroVAD.t) clock audio :
  exists has_voice s',
    SileroVAD.detect_voice_activity clock audio s = (Ret has_voice, s')
    /\ counted clock has_voice s.(SileroVAD.stats) s'.(SileroVAD.stats)
    /\ SileroVAD.model_loaded s' = SileroVAD.model_loaded s.
Proof.
  destruct (SileroVAD.model s) as [run|] eqn:Hm.
  - destruct (run (SileroVAD.pad512 (map inject_Z audio)) s.(SileroVAD.sample_rate))
      as [c|e] eqn:Hr.
    + rewrite (silero_detect_loaded s clock audio Hm Hr).
      do 2 eexists. split; [reflexivity|]. split; [right; reflexivity | reflexivity].
    + rewrite (silero_detect_failed s clock audio Hm Hr).
      do 2 eexists. split; [reflexivity|]. split; [left; split; reflexivity | reflexivity].
  - rewrite (silero_detect_unloaded s clock audio Hm).
    do 2 eexists. split; [reflexivity|]. split; [left; split; reflexivity | reflexivity].
Qed.

Lemma keeps_frames_loop {X} (f : WebRTCVAD.t -> X) is_speech rate audio_bytes step indices :
  (forall lv msg s, f (WebRTCVAD.logger lv msg s) = f s) ->
  forall v t, keeps f (WebRTCVAD.frames_loop is_speech rate audio_bytes step indices v t).
Proof.
  intros Hl. induction indices as [|i rest IH]; intros v t; cbn [WebRTCVAD.frames_loop].
  - frame.
  - destruct (len (slice audio_bytes i (i + step)) =? step)%Z; [|apply IH].
    apply keeps_bind; [|intros a; apply IH].
    frame. apply Hl.
Qed.

Lemma total_frames_loop is_speech rate audio_bytes step indices :
  forall v t, total (WebRTCVAD.frames_loop is_speech rate audio_bytes step indices v t).
Proof.
  induction indices as [|i rest IH]; intros v t; cbn [WebRTCVAD.frames_loop].
  - frame.
  - destruct (len (slice audio_bytes i (i + step)) =? step)%Z; [|apply IH].
    apply total_bind; [|intros a; apply IH].
    frame.
Qed.

Lemma webrtc_body_run (w : WebRTCVAD.t) is_speech clock audio indices :
  WebRTCVAD.supported w.(WebRTCVAD.sample_rate) = true ->
  range0 (len (tobytes audio)) (w.(WebRTCVAD.frame_size) * 2) = Ret indices ->
  exists has_voice w',
    WebRTCVAD.detect_body is_speech clock audio w = (Ret has_voice, w')
    /\ w'.(WebRTCVAD.stats)
       = record_detection (snd clock - fst clock) has_voice w.(WebRTCVAD.stats)
    /\ w'.(WebRTCVAD.vad) = w.(WebRTCVAD.vad).
Proof.
  intros Hs Hr.
  unfold WebRTCVAD.detect_body, bind, get, call, modify, ret.
  rewrite Hs, Hr. cbn [negb].
  pose proof (@total_frames_loop is_speech (WebRTCVAD.sample_rate w) (tobytes audio)
                (WebRTCVAD.frame_size w * 2) indices 0%Z 0%Z w) as [counters Hc].
  pose proof (@keeps_frames_loop _ WebRTCVAD.stats is_speech (WebRTCVAD.sample_rate w)
                (tobytes audio) (WebRTCVAD.frame_size w * 2) indices
                (fun _ _ _ => eq_refl) 0%Z 0%Z w) as Hst.
  pose proof (@keeps_frames_loop _ WebRTCVAD.vad is_speech (WebRTCVAD.sample_rate w)
                (tobytes audio) (WebRTCVAD.frame_size w * 2) indices
                (fun _ _ _ => eq_refl) 0%Z 0%Z w) as Hm.
  destruct (WebRTCVAD.frames_loop is_speech (WebRTCVAD.sample_rate w) (tobytes audio)
              (WebRTCVAD.frame_size w * 2) indices 0 0 w) as [r w'].
  simpl in Hc, Hst, Hm. subst r.
  do 2 eexists. split; [reflexivity|]. cbn. rewrite Hst, Hm. split; reflexivity.
Qed.

Lemma webrtc_detect_run (w : WebRTCVAD.t) is_speech clock audio indices :
  w.(WebRTCVAD.vad) = Some is_speech ->
  WebRTCVAD.supported w.(WebRTCVAD.sample_rate) = true ->
  range0 (len (tobytes audio)) (w.(WebRTCVAD.frame_size) * 2) = Ret indices ->
  exists has_voice w',
    WebRTCVAD.detect_voice_activity clock audio w = (Ret has_voice, w')
    /\ w'.(WebRTCVAD.stats)
       = record_detection (snd clock - fst clock) has_voice w.(WebRTCVAD.stats)
    /\ w'.(WebRTCVAD.vad) = w.(WebRTCVAD.vad).
Proof.
  intros Hv Hs Hr.
  unfold WebRTCVAD.detect_voice_activity, bind, get. rewrite Hv. unfold try_except.
  destruct (webrtc_body_run w is_speech clock audio Hs Hr) as (b & w' & -> & H1 & H2).
  exists b, w'. split; [reflexivity|]. split; [assumption | congruence].
Qed.

Lemma webrtc_counted (w : WebRTCVAD.t) clock audio :
  exists has_voice w',
    WebRTCVAD.detect_voice_activity clock audio w = (Ret has_voice, w')
    /\ counted clock has_voice w.(WebRTCVAD.stats) w'.(WebRTCVAD.stats)
    /\ WebRTCVAD.model_loaded w' = WebRTCVAD.model_loaded w.
Proof.
  destruct (WebRTCVAD.vad w) as [is_speech|] eqn:Hv.
  2:{ rewrite (webrtc_detect_unloaded w clock audio Hv).
      do 2 eexists. split; [reflexivity|]. split; [left; split; reflexivity | reflexivity]. }
  destruct (WebRTCVAD.supported (WebRTCVAD.sample_rate w)) eqn:Hs.
  2:{ rewrite (WebRTCFacts.detect_unsupported w clock audio Hv Hs).
      do 2 eexists. split; [reflexivity|]. split; [left; split; reflexivity | reflexivity]. }
  destruct (range0 (len (tobytes audio)) (WebRTCVAD.frame_size w * 2)) as [indices|e] eqn:Hr.
  - destruct (webrtc_detect_run w clock audio Hv Hs Hr) as (b & w' & -> & H1 & H2).
    exists b, w'. split; [reflexivity|]. split; [right; exact H1|].
    unfold WebRTCVAD.model_loaded. rewrite H2. reflexivity.
  - unfold WebRTCVAD.detect_voice_activity, bind, get. rewrite Hv.
    unfold try_except, WebRTCVAD.detect_body, bind, get, call, modify, ret.
    rewrite Hs, Hr. cbn [negb].
    do 2 eexists. split; [reflexivity|]. split; [left; split; reflexivity | reflexivity].
Qed.

Lemma detect_counted v clock audio :
  exists has_voice v',
    VoiceActivityDetector.detect_voice_activity clock audio v = (Ret has_voice, v')
    /\ counted clock has_voice (VoiceActivityDetector.stats v)
         (VoiceActivityDetector.stats v')
    /\ VoiceActivityDetector.model_loaded v' = VoiceActivityDetector.model_loaded v.
Proof.
  destruct v as [s|w];
    unfold VoiceActivityDetector.detect_voice_activity, VoiceActivityDetector.delegate.
  - destruct (silero_counted s clock audio) as (b & s' & H1 & H2 & H3).
    change (detect_voice_activity clock audio s)
      with (SileroVAD.detect_voice_activity clock audio s).
    rewrite H1. exists b, (VoiceActivityDetector.Silero s'). auto.
  - destruct (webrtc_counted w clock audio) as (b & w' & H1 & H2 & H3).
    change (detect_voice_activity clock audio w)
      with (WebRTCVAD.detect_voice_activity clock audio w).
    rewrite H1. exists b, (VoiceActivityDetector.WebRTC w'). auto.
Qed.

Lemma facade_detect_unloaded v clock audio :
  VoiceActivityDetector.model_loaded v = false ->
  VoiceActivityDetector.detect_voice_activity clock audio v = (Ret false, v).
Proof.
  destruct v as [s|w]; intros H;
    unfold VoiceActivityDetector.detect_voice_activity, VoiceActivityDetector.delegate.
  - change (detect_voice_activity clock audio s)
      with (SileroVAD.detect_voice_activity clock audio s).
    rewrite silero_detect_unloaded; [reflexivity|].
    cbn in H. unfold SileroVAD.model_loaded in H.
    destruct (SileroVAD.model s); [discriminate | reflexivity].
  - change (detect_voice_activity clock audio w)
      with (WebRTCVAD.detect_voice_activity clock audio w).
    rewrite webrtc_detect_unloaded; [reflexivity|].
    cbn in H. unfold WebRTCVAD.model_loaded in H.
    destruct (WebRTCVAD.vad w); [discriminate | reflexivity].
Qed.

Lemma counted_consistent clock has_voice st st' :
  counted clock has_voice st st' -> consistent st -> consistent st'.
Proof.
  intros [[-> _]| ->] (H1 & H2 & H3); [repeat split; assumption|].
  unfold consistent, record_detection; cbn. destruct has_voice; lia.
Qed.

Lemma initialize_stats v load make :
  VoiceActivityDetector.stats (snd (VoiceActivityDetector.initialize load make v))
  = VoiceActivityDetector.stats v.
Proof.
  destruct v as [s|w]; cbn.
  - unfold SileroVAD.initialize, try_except, bind, modify, call, raise.
    destruct load; reflexivity.
  - unfold WebRTCVAD.initialize, try_except, bind, modify, call, raise.
    destruct make; reflexivity.
Qed.

Lemma cleanup_stats v :
  VoiceActivityDetector.stats (snd (VoiceActivityDetector.cleanup v))
  = VoiceActivityDetector.stats v.
Proof. destruct v; reflexivity. Qed.

Lemma step_consistent v c :
  consistent (VoiceActivityDetector.stats v) ->
  consistent (VoiceActivityDetector.stats (step_detector v c)).
Proof.
  intros H. destruct c as [load make|clock audio|]; cbn [step_detector].
  - rewrite initialize_stats. exact H.
  - destruct (detect_counted v clock audio) as (b & v' & -> & Hc & _).
    exact (counted_consistent Hc H).
  - rewrite cleanup_stats. exact H.
Qed.

Lemma run_consistent calls : forall v,
  consistent (VoiceActivityDetector.stats v) ->
  consistent (VoiceActivityDetector.stats (run_detector calls v)).
Proof.
  unfold run_detector. induction calls as [|c calls IH]; intros v H; [exact H|].
  cbn [fold_left]. apply IH. apply step_consistent. exact H.
Qed.

Lemma init_stats settings v :
  VoiceActivityDetector.init settings = Ret v ->
  VoiceActivityDetector.stats v = vad_stats0.
Proof.
  unfold VoiceActivityDetector.init.
  destruct (String.eqb _ "silero"); [intros [= <-]; reflexivity|].
  destruct (String.eqb _ "webrtc"); [intros [= <-]; reflexivity | discriminate].
Qed.

Lemma init_consistent settings v :
  VoiceActivityDetector.init settings = Ret v ->
  consistent (VoiceActivityDetector.stats v).
Proof.
  intros H. rewrite (init_stats _ H). unfold consistent. cbn. lia.
Qed.

Lemma ratio_bounds voice total :
  (0 <= voice <= total)%Z -> (0 < total)%Z ->
  0 <= inject_Z voice / inject_Z total <= 1.
Proof.
  intros [H0 H1] Ht.
  assert (0 < inject_Z total) as Hp
    by (change (inject_Z 0 < inject_Z total); rewrite <- Zlt_Qlt; exact Ht).
  split.
  - apply Qle_shift_div_l; [exact Hp|]. rewrite Qmult_0_l.
    change (inject_Z 0 <= inject_Z voice). rewrite <- Zle_Qle. exact H0.
  - apply Qle_shift_div_r; [exact Hp|]. rewrite Qmult_1_l.
    rewrite <- Zle_Qle. exact H1.
Qed.

Lemma get_status_ratio v :
  consistent (VoiceActivityDetector.stats v) ->
  0 <= (VoiceActivityDetector.get_status v).(voice_ratio) <= 1.
Proof.
  intros (H1 & H2 & H3).
  assert (forall st, consistent st ->
            0 <= (if (0 <? detections_total st)%Z
                  then inject_Z (voice_detected st) / inject_Z (detections_total st)
                  else 0) <= 1) as G.
  { intros st (A & B & C). destruct (Z.ltb_spec 0 (detections_total st)).
    - apply ratio_bounds; lia.
    - split; [apply Qle_refl | discriminate]. }
  destruct v as [s|w]; cbn in *; apply G; repeat split; assumption.
Qed.

End DetectorFacts.

(** X3. With a loaded Silero network that returns a confidence for the
    (padded) frame, the frame is voice exactly when the confidence is
    strictly above the threshold; a confidence equal to the threshold is
    silence.  Either way one detection is counted and its processing time
    added. *)
Theorem silero_threshold_rule :
  forall (self : SileroVAD.t) (run : SileroVAD.net) (clock : Q * Q) (audio : list Z)
         (confidence : Q),
    self.(SileroVAD.model) = Some run ->
    run (SileroVAD.pad512 (map inject_Z audio)) self.(SileroVAD.sample_rate)
      = Ret confidence ->
    let outcome := SileroVAD.detect_voice_activity clock audio self in
    (fst outcome = Ret true <-> self.(SileroVAD.threshold) < confidence)
    /\ (fst outcome = Ret false <-> confidence <= self.(SileroVAD.threshold))
    /\ (snd outcome).(SileroVAD.stats).(detections_total)
       = (self.(SileroVAD.stats).(detections_total) + 1)%Z
    /\ (snd outcome).(SileroVAD.stats).(vad_processing_time_total)
       = self.(SileroVAD.stats).(vad_processing_time_total) + (snd clock - fst clock).
Proof.
  intros self run clock audio c Hm Hr outcome. subst outcome.
  rewrite (DetectorFacts.silero_detect_loaded self clock audio Hm Hr). cbn [fst snd].
  split; [|split; [|split; reflexivity]].
  - rewrite <- Qltb_lt. split; [intros [= ->]; reflexivity | intros ->; reflexivity].
  - rewrite <- Qltb_ge. split; [intros [= ->]; reflexivity | intros ->; reflexivity].
Qed.

Lemma silero_threshold_rule_confident :
  fst (SileroVAD.detect_voice_activity (0, 1 # 100) sample_frame confident_silero)
  = Ret true.
Proof.
  apply (proj1 (@silero_threshold_rule confident_silero confident_net (0, 1 # 100)
                  sample_frame (7 # 10) eq_refl eq_refl)).
  reflexivity.
Defined.

(** X4. [detect_voice_activity] of the facade never raises, whichever the
    backend and whatever it meets.  It leaves the counters alone (and then
    answers [False]) or counts exactly one detection, as voice when it
    answers [True] and as silence when it answers [False]; so an answer
    [True] is always counted as voice.  It never loads or unloads the
    backend. *)
Theorem detection_counted_once :
  forall (v : VoiceActivityDetector.t) (clock : Q * Q) (audio : list Z),
    let outcome := VoiceActivityDetector.detect_voice_activity clock audio v in
    exists has_voice : bool,
      fst outcome = Ret has_voice
      /\ (VoiceActivityDetector.stats (snd outcome) = VoiceActivityDetector.stats v
          /\ has_voice = false
          \/ VoiceActivityDetector.stats (snd outcome)
             = record_detection (snd clock - fst clock) has_voice
                 (VoiceActivityDetector.stats v))
      /\ VoiceActivityDetector.model_loaded (snd outcome)
         = VoiceActivityDetector.model_loaded v.
Proof.
  intros v clock audio outcome. subst outcome.
  destruct (DetectorFacts.detect_counted v clock audio) as (b & v' & -> & Hc & Hm).
  exists b. split; [reflexivity|]. split; [exact Hc | exact Hm].
Qed.

(** X5. Whatever sequence of [initialize], [detect_voice_activity] and
    [cleanup] calls a detector built by [VoiceActivityDetector(settings)]
    goes through, failed calls included, its counters add up
    ([detections_total = voice_detected + silence_detected], none negative)
    and the [voice_ratio] reported by [get_status] lies between 0 and 1. *)
Theorem detector_counters_consistent :
  forall (settings : Settings.t) (v : VoiceActivityDetector.t)
         (calls : list detector_call),
    VoiceActivityDetector.init settings = Ret v ->
    let v' := run_detector calls v in
    consistent (VoiceActivityDetector.stats v')
    /\ 0 <= (VoiceActivityDetector.get_status v').(voice_ratio) <= 1.
Proof.
  intros settings v calls Hi v'.
  assert (consistent (VoiceActivityDetector.stats v')) as Hc.
  { apply DetectorFacts.run_consistent. exact (DetectorFacts.init_consistent _ Hi). }
  split; [exact Hc | exact (DetectorFacts.get_status_ratio _ Hc)].
Qed.

Lemma detector_counters_consistent_sample :
  consistent
    (VoiceActivityDetector.stats
       (run_detector sample_calls
          (VoiceActivityDetector.Silero (SileroVAD.init Settings.default))))
  /\ 0 <= (VoiceActivityDetector.get_status
             (run_detector sample_calls
                (VoiceActivityDetector.Silero (SileroVAD.init Settings.default))))
          .(voice_ratio) <= 1.
Proof.
  exact (@detector_counters_consistent Settings.default
           (VoiceActivityDetector.Silero (SileroVAD.init Settings.default))
           sample_calls eq_refl).
Defined.

(** X6. [initialize] of the facade succeeds exactly when the constructor of
    its own backend does (the other backend's dependency plays no part); a
    failure is re-raised as it is and leaves a model loaded earlier in
    place.  The counters are not reset either way. *)
Theorem initialize_outcome :
  forall (v : VoiceActivityDetector.t) (load : result SileroVAD.net)
         (make : result WebRTCVAD.detector),
    let outcome := VoiceActivityDetector.initialize load make v in
    let built : result unit :=
      match v with
      | VoiceActivityDetector.Silero _ =>
          match load with Ret _ => Ret tt | Raise e => Raise e end
      | VoiceActivityDetector.WebRTC _ =>
          match make with Ret _ => Ret tt | Raise e => Raise e end
      end in
    fst outcome = built
    /\ VoiceActivityDetector.model_loaded (snd outcome)
       = match built with
         | Ret _ => true
         | Raise _ => VoiceActivityDetector.model_loaded v
         end
    /\ VoiceActivityDetector.stats (snd outcome) = VoiceActivityDetector.stats v.
Proof.
  intros [s|w] load make; cbn.
  - unfold SileroVAD.initialize, try_except, bind, modify, call, raise.
    destruct load; cbn; repeat split.
  - unfold WebRTCVAD.initialize, try_except, bind, modify, call, raise.
    destruct make; cbn; repeat split.
Qed.

(** X7. [cleanup] always returns, unloads the backend and keeps the
    counters; every later [detect_voice_activity] answers [False] and
    changes nothing, until the detector is initialized again. *)
Theorem cleanup_then_detect :
  forall (v : VoiceActivityDetector.t),
    let v' := snd (VoiceActivityDetector.cleanup v) in
    fst (VoiceActivityDetector.cleanup v) = Ret tt
    /\ VoiceActivityDetector.model_loaded v' = false
    /\ VoiceActivityDetector.stats v' = VoiceActivityDetector.stats v
    /\ (forall clock audio,
          VoiceActivityDetector.detect_voice_activity clock audio v' = (Ret false, v')).
Proof.
  intros v v'.
  assert (VoiceActivityDetector.model_loaded v' = false) as Hm
    by (subst v'; destruct v; reflexivity).
  split; [destruct v; reflexivity|]. split; [exact Hm|].
  split; [subst v'; destruct v; reflexivity|].
  intros clock audio. apply DetectorFacts.facade_detect_unloaded. exact Hm.
Qed.

Module SubFrameFacts.
Import WebRTCVAD.

Lemma sub_frames_length (frame_size : Z) (audio : list Z) :
  (0 < frame_size)%Z ->
  len (sub_frames frame_size (tobytes audio)) = (len audio / frame_size)%Z.
Proof.
  intros Hf. unfold sub_frames, len.
  rewrite length_map, length_seq, CodecFacts.tobytes_length.
  replace (Z.to_nat (frame_size * 2)) with (2 * Z.to_nat frame_size)%nat by lia.
  rewrite Nat.Div0.div_mul_cancel_l by lia.
  rewrite Nat2Z.inj_div, Z2Nat.id by lia. reflexivity.
Qed.

Lemma sub_frames_complete (frame_size : Z) (audio_bytes f : list byte) :
  (0 < frame_size)%Z ->
  In f (sub_frames frame_size audio_bytes) -> len f = (frame_size * 2)%Z.
Proof.
  intros Hf Hin. unfold sub_frames in Hin.
  apply in_map_iff in Hin as (k & <- & Hk). apply in_seq in Hk.
  pose proof (@WebRTCFacts.window_complete audio_bytes (Z.to_nat (frame_size * 2)) k
                ltac:(lia)) as W.
  replace (k <? length audio_bytes / Z.to_nat (frame_size * 2))%nat with true in W
    by (symmetry; apply Nat.ltb_lt; lia).
  apply Z.eqb_eq in W. rewrite W. lia.
Qed.

Lemma range0_returns stop step :
  (0 < step)%Z -> exists indices, range0 stop step = Ret indices.
Proof.
  intros H. unfold range0.
  destruct (Z.eqb_spec step 0); [lia|]. destruct (Z.ltb_spec step 0); [lia|].
  eexists. reflexivity.
Qed.

End SubFrameFacts.

(** X8. An initialized heuristic backend with a supported sample rate
    answers [False] for every frame shorter than one 30 ms sub-frame, the
    empty frame included, whatever its detector would say: there is no
    complete sub-frame to classify.  The frame is counted as one detection
    of silence. *)
Theorem short_frame_is_silence :
  forall (w : WebRTCVAD.t) (is_speech : WebRTCVAD.detector) (clock : Q * Q)
         (audio : list Z),
    w.(WebRTCVAD.vad) = Some is_speech ->
    well_formed w ->
    WebRTCVAD.supported w.(WebRTCVAD.sample_rate) = true ->
    (len audio < w.(WebRTCVAD.frame_size))%Z ->
    let outcome := WebRTCVAD.detect_voice_activity clock audio w in
    fst outcome = Ret false
    /\ (snd outcome).(WebRTCVAD.stats)
       = record_detection (snd clock - fst clock) false w.(WebRTCVAD.stats).
Proof.
  intros w is_speech clock audio Hv Hw Hs Hl outcome. subst outcome.
  pose proof (WebRTCFacts.supported_frame_size Hw Hs) as Hf.
  assert (sub_frames w.(WebRTCVAD.frame_size) (tobytes audio) = []) as E.
  { apply length_zero_iff_nil.
    pose proof (SubFrameFacts.sub_frames_length audio Hf) as L.
    rewrite Z.div_small in L by (unfold len in *; lia). unfold len in L. lia. }
  pose proof (@WebRTCFacts.detect_supported w is_speech clock audio Hv Hw Hs) as D.
  cbv zeta in D. rewrite E in D.
  destruct (@SubFrameFacts.range0_returns (len (tobytes audio)) (WebRTCVAD.frame_size w * 2)
              ltac:(lia)) as [indices Hr].
  destruct (DetectorFacts.webrtc_detect_run w clock audio Hv Hs Hr) as (b & w' & Heq & Hst & _).
  rewrite Heq in D |- *. cbn in D |- *. injection D as ->. split; [reflexivity | exact Hst].
Qed.

Lemma short_frame_is_silence_8k :
  fst (WebRTCVAD.detect_voice_activity (0, 1 # 100) (repeat 1000%Z 200) webrtc_8k)
  = Ret false.
Proof.
  apply (@short_frame_is_silence webrtc_8k
           (fun frame _ => Ret (negb (Z_of_byte (hd x00 frame) =? 0)%Z))
           (0, 1 # 100) (repeat 1000%Z 200) eq_refl).
  - split; reflexivity.
  - reflexivity.
  - reflexivity.
Defined.

(** X9. The loop of the heuristic backend hands its detector complete
    sub-frames only, each of [frame_size] samples (twice as many bytes);
    when the detector returns a verdict on each, the number of classified
    sub-frames is the whole number of sub-frames that fit in the frame
    ([len(audio) // frame_size]): trailing samples short of a sub-frame are
    never classified, and the voice count cannot exceed the total. *)
Theorem complete_sub_frames_classified :
  forall (w : WebRTCVAD.t) (is_speech : WebRTCVAD.detector) (audio : list Z)
         (indices : list Z) (s : WebRTCVAD.t),
    (0 < w.(WebRTCVAD.frame_size))%Z ->
    (forall f, exists verdict, is_speech f w.(WebRTCVAD.sample_rate) = Ret verdict) ->
    range0 (len (tobytes audio)) (w.(WebRTCVAD.frame_size) * 2) = Ret indices ->
    exists voice_frames : Z,
      fst (WebRTCVAD.frames_loop is_speech w.(WebRTCVAD.sample_rate) (tobytes audio)
             (w.(WebRTCVAD.frame_size) * 2) indices 0 0 s)
      = Ret (voice_frames, (len audio / w.(WebRTCVAD.frame_size))%Z)
      /\ (0 <= voice_frames <= len audio / w.(WebRTCVAD.frame_size))%Z
      /\ Forall (fun f => len f = (w.(WebRTCVAD.frame_size) * 2)%Z)
                (windows (tobytes audio) (w.(WebRTCVAD.frame_size) * 2) indices).
Proof.
  intros w is_speech audio indices s Hf Hret Hr.
  rewrite WebRTCFacts.frames_loop_counts.
  rewrite (WebRTCFacts.windows_range _ Hf Hr).
  rewrite (@filter_all _ (classified is_speech (WebRTCVAD.sample_rate w))).
  2:{ intros f _. unfold classified. destruct (Hret f) as [b ->]. reflexivity. }
  eexists. split; [|split].
  - f_equal. f_equal. cbn. exact (SubFrameFacts.sub_frames_length audio Hf).
  - pose proof (filter_length_le (voiced is_speech (WebRTCVAD.sample_rate w))
                  (sub_frames (WebRTCVAD.frame_size w) (tobytes audio))) as L.
    pose proof (SubFrameFacts.sub_frames_length audio Hf) as E. unfold len in *. lia.
  - apply Forall_forall. intros f Hin. exact (SubFrameFacts.sub_frames_complete _ _ Hf Hin).
Qed.

Lemma complete_sub_frames_classified_8k :
  exists voice_frames : Z,
    fst (WebRTCVAD.frames_loop
           (fun frame _ => Ret (negb (Z_of_byte (hd x00 frame) =? 0)%Z))
           8000 (tobytes (repeat 1000%Z 500)) (240 * 2)
           [0; 480; 960]%Z 0 0 webrtc_8k)
    = Ret (voice_frames, (len (repeat 1000%Z 500) / 240)%Z)
    /\ (0 <= voice_frames <= len (repeat 1000%Z 500) / 240)%Z
    /\ Forall (fun f => len f = (240 * 2)%Z)
              (windows (tobytes (repeat 1000%Z 500)) (240 * 2) [0; 480; 960]%Z).
Proof.
  apply (@complete_sub_frames_classified webrtc_8k
           (fun frame _ => Ret (negb (Z_of_byte (hd x00 frame) =? 0)%Z))
           (repeat 1000%Z 500) [0; 480; 960]%Z webrtc_8k).
  - reflexivity.
  - intros f. eexists. reflexivity.
  - reflexivity.
Defined.

(** ** The phrase table *)

Module CaseFacts.

Lemma lower_char_idem c : lower_char (lower_char c) = lower_char c.
Proof.
  destruct c as [[] [] [] [] [] [] [] []]; reflexivity.
Qed.

Lemma lower_idem s : lower (lower s) = lower s.
Proof.
  induction s as [|c s IH]; [reflexivity|].
  cbn [lower]. rewrite lower_char_idem, IH. reflexivity.
Qed.

Lemma chars_app a b : chars (a ++ b) = chars a ++ chars b.
Proof. induction a as [|c a IH]; [reflexivity|]. cbn. rewrite IH. reflexivity. Qed.

Lemma chars_lower s c : In c (chars (lower s)) -> lower_char c = c.
Proof.
  induction s as [|d s IH]; cbn; [tauto|].
  intros [<-|H]; [apply lower_char_idem | exact (IH H)].
Qed.

Lemma lower_changes s : lower s <> s -> exists c, In c (chars s) /\ lower_char c <> c.
Proof.
  induction s as [|c s IH]; cbn; [congruence|].
  intros H. destruct (ascii_dec (lower_char c) c) as [E|E].
  - destruct IH as (d & Hd & Hn); [rewrite E in H; congruence|].
    exists d. auto.
  - exists c. auto.
Qed.

Lemma lstrip_suffix s : exists a, s = (a ++ lstrip s)%string.
Proof.
  induction s as [|c s [a IH]]; [exists EmptyString; reflexivity|].
  cbn [lstrip]. destruct (isspace c).
  - exists (String c a). cbn. rewrite <- IH. reflexivity.
  - exists EmptyString. reflexivity.
Qed.

Lemma rstrip_prefix s : exists b, s = (rstrip s ++ b)%string.
Proof.
  induction s as [|c s [b IH]]; [exists EmptyString; reflexivity|].
  cbn [rstrip]. destruct (rstrip s) as [|d r] eqn:E.
  - destruct (isspace c).
    + exists (String c s). reflexivity.
    + exists b. cbn in *. rewrite <- IH. reflexivity.
  - exists b. cbn in *. rewrite <- IH. reflexivity.
Qed.

Lemma chars_strip s c : In c (chars (strip s)) -> In c (chars s).
Proof.
  unfold strip. intros H.
  destruct (lstrip_suffix s) as [a Ha]. destruct (rstrip_prefix (lstrip s)) as [b Hb].
  rewrite Ha, Hb, !chars_app. apply in_or_app. right. apply in_or_app. left. exact H.
Qed.

Lemma chars_substring p s c : substring_of p s -> In c (chars p) -> In c (chars s).
Proof.
  intros (a & b & ->) H. rewrite !chars_app.
  apply in_or_app. right. apply in_or_app. left. exact H.
Qed.

(** A phrase that [str.lower] would change occurs in no lowercased
    transcript. *)
Lemma mixed_case_misses phrase txt :
  lower phrase <> phrase -> contains phrase (strip (lower txt)) = false.
Proof.
  intros H. apply StringFacts.contains_false. intros Hsub.
  destruct (lower_changes H) as (c & Hc & Hn). apply Hn.
  apply (@chars_lower txt). apply chars_strip.
  eapply chars_substring; eassumption.
Qed.

End CaseFacts.

Module TableFacts.
Import AudioProcessor.

Section Values.
Variable V : Type.
Implicit Types d : list (string * V).

Lemma lookup_dict_set_same d key value : lookup (dict_set d key value) key = Some value.
Proof.
  induction d as [|[k v] d IH]; cbn.
  - rewrite String.eqb_refl. reflexivity.
  - destruct (String.eqb_spec k key) as [->|N]; cbn.
    + rewrite String.eqb_refl. reflexivity.
    + destruct (String.eqb_spec k key); [contradiction | exact IH].
Qed.

Lemma lookup_dict_set_other d key value k' :
  k' <> key -> lookup (dict_set d key value) k' = lookup d k'.
Proof.
  intros N. induction d as [|[k v] d IH]; cbn.
  - destruct (String.eqb_spec key k'); [congruence | reflexivity].
  - destruct (String.eqb_spec k key) as [->|N']; cbn.
    + destruct (String.eqb_spec key k'); [congruence | reflexivity].
    + destruct (String.eqb_spec k k'); [reflexivity | exact IH].
Qed.

Lemma lookup_none d key : lookup d key = None <-> ~ In key (keys d).
Proof.
  induction d as [|[k v] d IH]; cbn; [tauto|].
  destruct (String.eqb_spec k key) as [->|N].
  - split; [discriminate | intros H; exfalso; apply H; left; reflexivity].
  - rewrite IH. split; [intros H [E|I]; [contradiction | exact (H I)] | tauto].
Qed.

Lemma existsb_keys d key :
  existsb (fun kv => String.eqb (fst kv) key) d = true <-> In key (keys d).
Proof.
  rewrite existsb_exists. unfold keys. rewrite in_map_iff.
  split; intros ([k v] & H1 & H2); exists (k, v); cbn in *.
  - apply String.eqb_eq in H2. auto.
  - split; [exact H2 | apply String.eqb_eq; exact H1].
Qed.

Lemma existsb_lookup d key :
  existsb (fun kv => String.eqb (fst kv) key) d = false <-> lookup d key = None.
Proof.
  rewrite lookup_none, <- existsb_keys.
  destruct (existsb _ d); split; congruence.
Qed.

Lemma keys_dict_set d key value :
  keys (dict_set d key value) = if existsb (fun kv => String.eqb (fst kv) key) d
                                then keys d else keys d ++ [key].
Proof.
  induction d as [|[k v] d IH]; cbn; [reflexivity|].
  destruct (String.eqb_spec k key) as [->|N]; cbn; [reflexivity|].
  unfold keys in IH. rewrite IH.
  destruct (existsb (fun kv => String.eqb (fst kv) key) d); reflexivity.
Qed.

Lemma nodup_dict_set d key value : NoDup (keys d) -> NoDup (keys (dict_set d key value)).
Proof.
  intros H. rewrite keys_dict_set.
  destruct (existsb (fun kv => String.eqb (fst kv) key) d) eqn:E; [exact H|].
  apply NoDup_app; [exact H | repeat constructor; cbn; tauto |].
  intros k Hk [<-|[]]. apply existsb_keys in Hk. congruence.
Qed.

Lemma keys_dict_del d key : forall k, In k (keys (dict_del d key)) -> In k (keys d).
Proof.
  induction d as [|[k v] d IH]; cbn; [tauto|]. intros k'.
  destruct (String.eqb k key); cbn; [tauto|]. intros [E|I]; [auto | right; exact (IH _ I)].
Qed.

Lemma nodup_dict_del d key : NoDup (keys d) -> NoDup (keys (dict_del d key)).
Proof.
  induction d as [|[k v] d IH]; cbn; [constructor|]. intros H. inversion H; subst.
  destruct (String.eqb k key); cbn; [assumption|].
  constructor; [|apply IH; assumption].
  intros I. apply keys_dict_del in I. contradiction.
Qed.

Lemma lookup_dict_del_same d key : NoDup (keys d) -> lookup (dict_del d key) key = None.
Proof.
  induction d as [|[k v] d IH]; cbn; [reflexivity|]. intros H. inversion H; subst.
  destruct (String.eqb_spec k key) as [->|N]; cbn.
  - apply lookup_none. assumption.
  - destruct (String.eqb_spec k key); [contradiction | apply IH; assumption].
Qed.

Lemma lookup_dict_del_other d key k' :
  k' <> key -> lookup (dict_del d key) k' = lookup d k'.
Proof.
  intros N. induction d as [|[k v] d IH]; cbn; [reflexivity|].
  destruct (String.eqb_spec k key) as [->|N']; cbn.
  - destruct (String.eqb_spec key k'); [congruence | reflexivity].
  - destruct (String.eqb_spec k k'); [reflexivity | exact IH].
Qed.

Lemma dict_del_dict_set d key value :
  lookup d key = None -> dict_del (dict_set d key value) key = d.
Proof.
  induction d as [|[k v] d IH]; cbn.
  - rewrite String.eqb_refl. reflexivity.
  - destruct (String.eqb_spec k key) as [->|N]; [discriminate|].
    intros H. cbn. destruct (String.eqb_spec k key); [contradiction|].
    rewrite IH; [reflexivity | exact H].
Qed.

End Values.

End TableFacts.

Module InitFacts.
Import AudioProcessor.

Lemma build_phrases_spec phrases : forall entries acc table,
  build_phrases phrases entries acc = Ret table ->
  NoDup (keys acc) ->
  NoDup (keys table)
  /\ (length table <= length acc + length entries)%nat
  /\ (forall k, In k (keys acc) -> In k (keys table))
  /\ Forall (fun kh => exists phrase, Settings.phrase_of phrases (fst kh) = Ret phrase
                                      /\ In phrase (keys table)) entries.
Proof.
  induction entries as [|[key h] rest IH]; intros acc table H Hn; cbn in H.
  - injection H as <-.
    split; [exact Hn | split; [cbn; lia | split; [auto | constructor]]].
  - destruct (Settings.phrase_of phrases key) as [phrase|e] eqn:E; [|discriminate].
    destruct (IH _ _ H ltac:(apply TableFacts.nodup_dict_set; exact Hn)) as (A & B & C & D).
    assert (forall k, In k (keys acc) -> In k (keys (dict_set acc phrase h))) as Sub.
    { intros k Hk. rewrite TableFacts.keys_dict_set.
      destruct (existsb _ acc); [exact Hk | apply in_or_app; left; exact Hk]. }
    assert (In phrase (keys (dict_set acc phrase h))) as Inp.
    { rewrite TableFacts.keys_dict_set.
      destruct (existsb _ acc) eqn:Ex.
      - apply TableFacts.existsb_keys. exact Ex.
      - apply in_or_app. right. left. reflexivity. }
    split; [exact A|]. split.
    + assert (length (dict_set acc phrase h) <= S (length acc))%nat as L.
      { pose proof (f_equal (@length _) (TableFacts.keys_dict_set acc phrase h)) as L.
        unfold keys in L. rewrite length_map in L. rewrite L.
        destruct (existsb _ acc); [rewrite length_map; lia|].
        rewrite length_app, length_map. cbn. lia. }
      cbn [length]. lia.
    + split; [intros k Hk; apply C, Sub, Hk|].
      constructor; [|exact D]. exists phrase. cbn. split; [exact E | apply C, Inp].
Qed.


Lemma init_fields settings (self : t) :
  init settings = Ret self ->
  NoDup (keys self.(activation_phrases))
  /\ (length self.(activation_phrases) <= 5)%nat
  /\ Forall (fun entry =>
               exists phrase,
                 Settings.phrase_of settings.(Settings.activation).(Settings.phrases)
                   (fst entry) = Ret phrase
                 /\ In phrase (keys self.(activation_phrases)))
            builtin_handlers
  /\ self.(is_running) = false
  /\ self.(audio_buffer) = []
  /\ self.(voice_segments) = []
  /\ self.(_whisper_model) = None
  /\ self.(audio_buffer_maxlen)
     = (settings.(Settings.audio).(Settings.buffer_duration_sec)
        * settings.(Settings.audio).(Settings.sample_rate))%Z
  /\ (0 <= self.(audio_buffer_maxlen))%Z
  /\ self.(stats) = stats0
  /\ VoiceActivityDetector.stats self.(vad) = vad_stats0.
Proof.
  intros H. unfold init in H.
  destruct (VoiceActivityDetector.init settings) as [v|] eqn:V; [|discriminate].
  destruct (Z.ltb_spec (Settings.buffer_duration_sec (Settings.audio settings)
                        * Settings.sample_rate (Settings.audio settings)) 0);
    [discriminate|].
  destruct (build_phrases _ _ _) as [table|] eqn:B; [|discriminate].
  injection H as <-. cbn.
  destruct (build_phrases_spec _ _ _ B ltac:(constructor)) as (A & L & _ & D).
  pose proof (DetectorFacts.init_stats _ V).
  repeat split; auto.
Qed.

End InitFacts.

(** X10. A processor built by [AudioProcessor(settings)] holds each of the
    five configured phrases as a key of its phrase table, with no key
    twice and at most five entries (exactly the configured phrases, so
    fewer than five when two commands share a phrase); it is not running,
    has no Whisper model, no buffered samples and no voice segments, and
    the capacity of its sample buffer is
    [buffer_duration_sec * sample_rate]. *)
Theorem init_phrase_table :
  forall (settings : Settings.t) (self : AudioProcessor.t),
    AudioProcessor.init settings = Ret self ->
    let table := self.(AudioProcessor.activation_phrases) in
    NoDup (keys table)
    /\ (length table <= 5)%nat
    /\ Forall (fun entry =>
                 exists phrase,
                   Settings.phrase_of settings.(Settings.activation).(Settings.phrases)
                     (fst entry) = Ret phrase
                   /\ In phrase (keys table))
              AudioProcessor.builtin_handlers
    /\ self.(AudioProcessor.is_running) = false
    /\ self.(AudioProcessor.audio_buffer) = []
    /\ self.(AudioProcessor.voice_segments) = []
    /\ self.(AudioProcessor._whisper_model) = None
    /\ self.(AudioProcessor.audio_buffer_maxlen)
       = (settings.(Settings.audio).(Settings.buffer_duration_sec)
          * settings.(Settings.audio).(Settings.sample_rate))%Z.
Proof.
  intros settings self H table. subst table.
  destruct (InitFacts.init_fields _ H) as (A & B & C & D & E & F & G & I & _).
  repeat split; assumption.
Qed.

Lemma init_phrase_table_default :
  NoDup (keys fresh_processor.(AudioProcessor.activation_phrases))
  /\ (length fresh_processor.(AudioProcessor.activation_phrases) <= 5)%nat.
Proof.
  pose proof (@init_phrase_table Settings.default fresh_processor eq_refl) as H.
  exact (conj (proj1 H) (proj1 (proj2 H))).
Defined.


(** X12. [add_custom_activation_phrase(phrase, handler)] registers the
    handler under the lowercased phrase, a key that lowercasing leaves
    unchanged, so that it can occur in a lowercased transcript; the
    handlers of all other keys stay as they were and no key appears twice.
    If the lowercased phrase was not a key before, removing the phrase
    again, in whatever letter case it is spelled, restores the table. *)
Theorem add_phrase_lookup :
  forall (self : AudioProcessor.t) (phrase : string) (h : AudioProcessor.handler),
    let added := snd (AudioProcessor.add_custom_activation_phrase phrase h self) in
    fst (AudioProcessor.add_custom_activation_phrase phrase h self) = Ret tt
    /\ lookup added.(AudioProcessor.activation_phrases) (lower phrase) = Some h
    /\ lower (lower phrase) = lower phrase
    /\ (forall key, key <> lower phrase ->
          lookup added.(AudioProcessor.activation_phrases) key
          = lookup self.(AudioProcessor.activation_phrases) key)
    /\ (NoDup (keys self.(AudioProcessor.activation_phrases)) ->
        NoDup (keys added.(AudioProcessor.activation_phrases)))
    /\ (lookup self.(AudioProcessor.activation_phrases) (lower phrase) = None ->
        forall spelling, lower spelling = lower phrase ->
          (snd (AudioProcessor.remove_activation_phrase spelling added))
            .(AudioProcessor.activation_phrases)
          = self.(AudioProcessor.activation_phrases)).
Proof.
  intros self phrase h. cbn.
  split; [reflexivity|]. split; [apply TableFacts.lookup_dict_set_same|].
  split; [apply CaseFacts.lower_idem|]. split; [|split].
  - intros key N. apply TableFacts.lookup_dict_set_other. exact N.
  - apply TableFacts.nodup_dict_set.
  - intros L spelling E.
    unfold AudioProcessor.remove_activation_phrase, bind, get. cbn. rewrite E.
    destruct (existsb _ _) eqn:X.
    + cbn. apply TableFacts.dict_del_dict_set. exact L.
    + apply TableFacts.existsb_lookup in X.
      rewrite TableFacts.lookup_dict_set_same in X. discriminate.
Qed.

(** X13. After [remove_activation_phrase(phrase)] the lowercased phrase is
    not a key of the table, the handlers of all other keys are as before
    and no key appears twice; removing a phrase that is not a key changes
    nothing, not even the log. *)
Theorem remove_phrase_absent :
  forall (self : AudioProcessor.t) (phrase : string),
    NoDup (keys self.(AudioProcessor.activation_phrases)) ->
    let removed := snd (AudioProcessor.remove_activation_phrase phrase self) in
    fst (AudioProcessor.remove_activation_phrase phrase self) = Ret tt
    /\ lookup removed.(AudioProcessor.activation_phrases) (lower phrase) = None
    /\ (forall key, key <> lower phrase ->
          lookup removed.(AudioProcessor.activation_phrases) key
          = lookup self.(AudioProcessor.activation_phrases) key)
    /\ NoDup (keys removed.(AudioProcessor.activation_phrases))
    /\ (lookup self.(AudioProcessor.activation_phrases) (lower phrase) = None ->
        removed = self).
Proof.
  intros self phrase Hn removed. subst removed.
  unfold AudioProcessor.remove_activation_phrase, bind, get.
  destruct (existsb _ (AudioProcessor.activation_phrases self)) eqn:E; cbn.
  - split; [reflexivity|]. split; [apply TableFacts.lookup_dict_del_same; exact Hn|].
    split; [intros key N; apply TableFacts.lookup_dict_del_other; exact N|].
    split; [apply TableFacts.nodup_dict_del; exact Hn|].
    intros L. apply TableFacts.existsb_lookup in L. congruence.
  - split; [reflexivity|]. split; [apply TableFacts.existsb_lookup; exact E|].
    split; [reflexivity|]. split; [exact Hn | reflexivity].
Qed.

Lemma remove_phrase_absent_show_status :
  lookup (snd (AudioProcessor.remove_activation_phrase "Computer SHOW Status"
                 fresh_processor)).(AudioProcessor.activation_phrases)
         (lower "Computer SHOW Status") = None.
Proof.
  refine (proj1 (proj2 (@remove_phrase_absent fresh_processor "Computer SHOW Status" _))).
  repeat constructor; cbn; intuition discriminate.
Defined.

(** X14. Phrases are compared with the lowercased transcript as they are
    stored.  A phrase that contains a capital letter (one that [str.lower]
    would change), as a phrase taken from the settings may, is a substring
    of no lowercased transcript: a table of such phrases matches nothing,
    dispatches nothing and leaves the processor as it was, whatever was
    said. *)
Theorem mixed_case_phrase_never_matches :
  forall (txt : string) (current_time : Q)
         (table : list (string * AudioProcessor.handler)) (self : AudioProcessor.t),
    Forall (fun entry => lower (fst entry) <> fst entry) table ->
    Forall (fun entry => contains (fst entry) (strip (lower txt)) = false) table
    /\ AudioProcessor.match_phrases (strip (lower txt)) current_time table self
       = (Ret (false, None), self).
Proof.
  intros txt now table self H.
  assert (Forall (fun entry => contains (fst entry) (strip (lower txt)) = false) table) as G.
  { eapply Forall_impl; [|exact H]. intros entry. apply CaseFacts.mixed_case_misses. }
  split; [exact G|].
  apply RecognizerFacts.match_phrases_miss. apply Forall_forall. exact G.
Qed.

Lemma mixed_case_phrase_never_matches_capitalised :
  AudioProcessor.match_phrases (strip (lower "Computer Start Recording")) 100
    capitalised_table fresh_processor
  = (Ret (false, None), fresh_processor).
Proof.
  apply (@mixed_case_phrase_never_matches "Computer Start Recording" 100
           capitalised_table fresh_processor).
  constructor; [cbn; discriminate | constructor].
Defined.

(** ** Starting and stopping the processor *)

(** X15. [start] on a running processor does nothing.  Otherwise it
    initializes the detector and then loads Whisper: when both succeed the
    processor is running with both loaded; when the detector fails its
    exception is re-raised, Whisper is not loaded and the processor stays
    stopped; when only Whisper fails its exception is re-raised and the
    processor stays stopped although the detector remains initialized. *)
Theorem start_outcome :
  forall (self : AudioProcessor.t) (load_silero : result SileroVAD.net)
         (make_webrtc : result WebRTCVAD.detector)
         (load_whisper : result AudioProcessor.whisper),
    let outcome := AudioProcessor.start load_silero make_webrtc load_whisper self in
    let self' := snd outcome in
    let backend : result unit :=
      match self.(AudioProcessor.vad) with
      | VoiceActivityDetector.Silero _ =>
          match load_silero with Ret _ => Ret tt | Raise e => Raise e end
      | VoiceActivityDetector.WebRTC _ =>
          match make_webrtc with Ret _ => Ret tt | Raise e => Raise e end
      end in
    if self.(AudioProcessor.is_running) then outcome = (Ret tt, self)
    else
      match backend, load_whisper with
      | Ret _, Ret model =>
          fst outcome = Ret tt
          /\ self'.(AudioProcessor.is_running) = true
          /\ VoiceActivityDetector.model_loaded self'.(AudioProcessor.vad) = true
          /\ self'.(AudioProcessor._whisper_model) = Some model
      | Ret _, Raise e =>
          fst outcome = Raise e
          /\ self'.(AudioProcessor.is_running) = false
          /\ VoiceActivityDetector.model_loaded self'.(AudioProcessor.vad) = true
          /\ self'.(AudioProcessor._whisper_model) = self.(AudioProcessor._whisper_model)
      | Raise e, _ =>
          fst outcome = Raise e
          /\ self'.(AudioProcessor.is_running) = false
          /\ VoiceActivityDetector.model_loaded self'.(AudioProcessor.vad)
             = VoiceActivityDetector.model_loaded self.(AudioProcessor.vad)
          /\ self'.(AudioProcessor._whisper_model) = self.(AudioProcessor._whisper_model)
      end.
Proof.
  intros self load make lw. cbv zeta.
  destruct self as [st v ab am vs ap ir la stt wm lg tr].
  destruct ir; [reflexivity|].
  destruct v as [s|w]; cbn [AudioProcessor.vad AudioProcessor.is_running].
  - destruct load as [m|e], lw as [wmod|e'];
      cbn; unfold SileroVAD.model_loaded; cbn; repeat split; try assumption.
    all: destruct (SileroVAD.model s); reflexivity.
  - destruct make as [m|e], lw as [wmod|e'];
      cbn; unfold WebRTCVAD.model_loaded; cbn; repeat split; try assumption.
    all: destruct (WebRTCVAD.vad w); reflexivity.
Qed.

(** X16. [stop] never raises and leaves the processor stopped: a running
    processor has its detector unloaded, while the Whisper model, the
    buffered samples, the voice segments, the cooldown timestamp and the
    counters are all kept.  Stopping again changes nothing, and every chunk
    handed to the stopped processor is ignored. *)
Theorem stop_effect :
  forall (self : AudioProcessor.t),
    let self' := snd (AudioProcessor.stop self) in
    fst (AudioProcessor.stop self) = Ret tt
    /\ self'.(AudioProcessor.is_running) = false
    /\ (self.(AudioProcessor.is_running) = true ->
        VoiceActivityDetector.model_loaded self'.(AudioProcessor.vad) = false)
    /\ self'.(AudioProcessor._whisper_model) = self.(AudioProcessor._whisper_model)
    /\ self'.(AudioProcessor.audio_buffer) = self.(AudioProcessor.audio_buffer)
    /\ self'.(AudioProcessor.voice_segments) = self.(AudioProcessor.voice_segments)
    /\ self'.(AudioProcessor.last_activation_time)
       = self.(AudioProcessor.last_activation_time)
    /\ self'.(AudioProcessor.stats) = self.(AudioProcessor.stats)
    /\ AudioProcessor.stop self' = (Ret tt, self')
    /\ (forall clk audio_data timestamp,
          AudioProcessor.process_chunk clk audio_data timestamp self' = (Ret tt, self')).
Proof.
  intros self self'.
  assert (self'.(AudioProcessor.is_running) = false) as R
    by apply ProcessorFacts.stop_not_running.
  assert (AudioProcessor.stop self' = (Ret tt, self')) as I
    by (unfold AudioProcessor.stop, bind, get; rewrite R; reflexivity).
  assert (forall clk audio_data timestamp,
            AudioProcessor.process_chunk clk audio_data timestamp self' = (Ret tt, self')) as P
    by (intros; unfold AudioProcessor.process_chunk, bind, get; rewrite R; reflexivity).
  split; [|split; [exact R | split; [|split; [|split; [|split; [|split; [|split; [|split;
    [exact I | exact P]]]]]]]]];
    clear R I P; subst self'; destruct self as [st v ab am vs ap ir la stt wm lg tr];
    destruct ir, v; try reflexivity; cbn; discriminate.
Qed.

(** ** Chunks and recognition attempts at the edges *)

(** X17. A running processor handed a chunk with an odd number of bytes
    (which cannot be decoded into 16-bit samples) logs an error and does
    nothing else: no sample is buffered, the detector is not consulted and
    the chunk is not counted. *)
Theorem process_chunk_odd_length :
  forall (self : AudioProcessor.t) (clk : AudioProcessor.clock)
         (audio_data : list byte) (timestamp : Q),
    self.(AudioProcessor.is_running) = true ->
    Nat.odd (length audio_data) = true ->
    AudioProcessor.process_chunk clk audio_data timestamp self
    = (Ret tt, AudioProcessor.logger LError "Error processing audio chunk" self).
Proof.
  intros self clk data ts Hr Ho.
  unfold AudioProcessor.process_chunk, bind at 1, get. rewrite Hr. cbn [negb].
  unfold try_except, bind at 1, call, frombuffer.
  rewrite <- Nat.negb_odd, Ho. reflexivity.
Qed.

Lemma process_chunk_odd_length_three_bytes :
  AudioProcessor.process_chunk clock0 [x01; x00; x02] 100 (listening "hello")
  = (Ret tt, AudioProcessor.logger LError "Error processing audio chunk"
               (listening "hello")).
Proof.
  apply (@process_chunk_odd_length (listening "hello") clock0 [x01; x00; x02] 100);
    reflexivity.
Defined.

(** X18. While fewer than three voice segments are retained, a voice chunk
    is only recorded: with at most one segment held before the chunk,
    [_handle_voice_detected] appends the segment, evicts the expired ones
    and counts the detection, and makes no recognition attempt (no
    transcription, no dispatch, the cooldown timestamp untouched). *)
Theorem voice_needs_three_segments :
  forall (self : AudioProcessor.t) (audio_array : list Z) (timestamp current_time : Q),
    self.(AudioProcessor.settings).(Settings.audio).(Settings.sample_rate) <> 0%Z ->
    (length self.(AudioProcessor.voice_segments) < 2)%nat ->
    AudioProcessor._handle_voice_detected audio_array timestamp current_time self
    = (Ret tt, with_segment self audio_array timestamp)
    /\ (with_segment self audio_array timestamp).(AudioProcessor.trace)
       = self.(AudioProcessor.trace)
    /\ (with_segment self audio_array timestamp).(AudioProcessor.last_activation_time)
       = self.(AudioProcessor.last_activation_time).
Proof.
  intros self a ts now Hrate Hlen.
  rewrite (handle_voice_unfold self a ts now Hrate).
  replace (3 <=? _)%nat with false; [repeat split|].
  symmetry. apply Nat.leb_gt. unfold with_segment. cbn.
  eapply Nat.le_lt_trans; [apply filter_length_le|].
  rewrite length_app. cbn. lia.
Qed.

Lemma voice_needs_three_segments_fresh :
  AudioProcessor._handle_voice_detected sample_frame 100 100 fresh_processor
  = (Ret tt, with_segment fresh_processor sample_frame 100).
Proof.
  apply (@voice_needs_three_segments fresh_processor sample_frame 100 100).
  - discriminate.
  - cbn. lia.
Defined.

Module AttemptFacts.
Import AudioProcessor.

Lemma last_n_nil {A} (n : nat) (l : list A) : (0 < n)%nat -> last_n n l = [] -> l = [].
Proof.
  unfold last_n. intros Hn H. destruct l as [|a l]; [reflexivity|]. exfalso.
  apply (f_equal (@length A)) in H. rewrite length_skipn in H.
  cbn [length] in H. lia.
Qed.

Lemma concatenate_raises (self : t) :
  (exists e, concatenate (map audio (last_n 5 self.(voice_segments))) = Raise e)
  <-> self.(voice_segments) = [].
Proof.
  split.
  - intros [e H]. unfold concatenate in H.
    destruct (map audio (last_n 5 (voice_segments self))) eqn:E; [|discriminate].
    apply map_eq_nil in E. apply (@last_n_nil _ 5); [lia | exact E].
  - intros ->. eexists. reflexivity.
Qed.

End AttemptFacts.

(** X19. A recognition attempt that is not gated and obtains no text
    journals nothing, dispatches nothing and leaves the cooldown alone.
    With no voice segment to combine (which is the only way combining
    fails) it logs an error; with no Whisper model loaded it changes nothing
    at all; when Whisper raises, the error is logged and swallowed; and when
    the transcript is empty once stripped, the attempt ends after the
    transcription. *)
Theorem attempt_without_transcript :
  forall (self : AudioProcessor.t) (current_time : Q),
    AudioProcessor.gated self current_time = false ->
    let attempt := AudioProcessor._check_for_activation_phrases current_time self in
    ((exists e,
        AudioProcessor.concatenate
          (map AudioProcessor.audio (last_n 5 self.(AudioProcessor.voice_segments)))
        = Raise e)
     <-> self.(AudioProcessor.voice_segments) = [])
    /\ match AudioProcessor.concatenate
               (map AudioProcessor.audio (last_n 5 self.(AudioProcessor.voice_segments)))
       with
       | Raise _ =>
           attempt
           = (Ret tt,
              AudioProcessor.logger LError "Error checking activation phrases" self)
       | Ret combined =>
           match self.(AudioProcessor._whisper_model) with
           | None => attempt = (Ret tt, self)
           | Some transcribe =>
               match transcribe (map (fun z => inject_Z z / 32768) combined) with
               | Raise _ =>
                   attempt
                   = (Ret tt,
                      AudioProcessor.logger LError "Error transcribing audio"
                        (AudioProcessor.record (AudioProcessor.Transcribed combined) self))
               | Ret heard =>
                   strip (match heard with Some txt => txt | None => EmptyString end)
                     = EmptyString ->
                   attempt
                   = (Ret tt,
                      AudioProcessor.record (AudioProcessor.Transcribed combined) self)
               end
           end
       end.
Proof.
  intros self now Hg attempt. subst attempt.
  split; [apply AttemptFacts.concatenate_raises|].
  destruct (AudioProcessor.concatenate _) as [combined|e] eqn:Hc.
  2:{ unfold AudioProcessor._check_for_activation_phrases, bind, get, try_except, call,
        modify.
      cbv beta iota. rewrite Hg, Hc. reflexivity. }
  destruct (AudioProcessor._whisper_model self) as [transcribe|] eqn:Hw.
  - destruct (transcribe (map (fun z => inject_Z z / 32768) combined)) as [heard|e] eqn:Ht.
    + intros Hs.
      unfold AudioProcessor._check_for_activation_phrases, AudioProcessor._transcribe_audio,
        bind, get, try_except, call, modify, ret.
      cbv beta iota. rewrite Hg, Hc. cbv beta iota. rewrite Hw. cbv beta iota.
      rewrite Ht. cbv beta iota. rewrite Hs. reflexivity.
    + unfold AudioProcessor._check_for_activation_phrases, AudioProcessor._transcribe_audio,
        bind, get, try_except, call, modify, ret.
      cbv beta iota. rewrite Hg, Hc. cbv beta iota. rewrite Hw. cbv beta iota.
      rewrite Ht. reflexivity.
  - unfold AudioProcessor._check_for_activation_phrases, AudioProcessor._transcribe_audio,
      bind, get, try_except, call, modify, ret.
    cbv beta iota. rewrite Hg, Hc. cbv beta iota. rewrite Hw. reflexivity.
Qed.

Lemma attempt_without_transcript_blank :
  AudioProcessor._check_for_activation_phrases 100 (listening "   ")
  = (Ret tt,
     AudioProcessor.record
       (AudioProcessor.Transcribed (sample_frame ++ sample_frame ++ sample_frame))
       (listening "   ")).
Proof.
  apply (proj2 (@attempt_without_transcript (listening "   ") 100 eq_refl)).
  reflexivity.
Defined.

(** ** Invariants of a processor session *)

Module SessionFacts.
Import AudioProcessor.

Lemma keeps_steady_match_phrases text_lower current_time table :
  keeps steady (match_phrases text_lower current_time table).
Proof.
  induction table as [|[phrase h] rest IH]; cbn [match_phrases].
  - frame.
  - destruct (contains phrase text_lower); [|exact IH].
    pose proof (@ProcessorFrames.keeps_dispatch _ steady
                  ltac:(reflexivity) ltac:(reflexivity) h).
    frame; auto.
Qed.

Lemma keeps_steady_check current_time :
  keeps steady (_check_for_activation_phrases current_time).
Proof.
  unfold _check_for_activation_phrases, match_and_record, write_transcription.
  pose proof (@ProcessorFrames.keeps_transcribe _ steady
                ltac:(reflexivity) ltac:(reflexivity)).
  pose proof keeps_steady_match_phrases.
  frame; auto.
Qed.

Lemma keeps_rigid_process_chunk clk audio_data timestamp :
  keeps rigid (process_chunk clk audio_data timestamp).
Proof.
  unfold process_chunk, _handle_voice_detected, _handle_silence_detected,
    _mark_for_pruning.
  pose proof (@ProcessorFrames.keeps_check _ rigid
                ltac:(reflexivity) ltac:(reflexivity) ltac:(reflexivity)
                ltac:(reflexivity)).
  frame; auto.
Qed.

Lemma keeps_buffer_check current_time :
  keeps (fun s => (audio_buffer s, vad s)) (_check_for_activation_phrases current_time).
Proof.
  apply ProcessorFrames.keeps_check; reflexivity.
Qed.

Lemma deque_extend_bound {A} (maxlen : Z) (buf xs : list A) :
  (0 <= maxlen)%Z -> (len (deque_extend maxlen buf xs) <= maxlen)%Z.
Proof.
  intros H. unfold deque_extend, len. rewrite length_skipn. lia.
Qed.

Lemma process_chunk_undecoded (s : t) clk audio_data timestamp e :
  s.(is_running) = true ->
  frombuffer audio_data = Raise e ->
  process_chunk clk audio_data timestamp s
  = (Ret tt, logger LError "Error processing audio chunk" s).
Proof.
  intros Hrun Hbuf.
  unfold process_chunk, bind at 1, get. rewrite Hrun. cbn [negb].
  unfold try_except, bind at 1, call. rewrite Hbuf. reflexivity.
Qed.

Lemma process_chunk_voice (s : t) clk audio_data audio_array timestamp v' :
  s.(is_running) = true ->
  frombuffer audio_data = Ret audio_array ->
  VoiceActivityDetector.detect_voice_activity clk.(t_vad) audio_array s.(vad)
    = (Ret true, v') ->
  process_chunk clk audio_data timestamp s
  = match _handle_voice_detected audio_array timestamp clk.(t_check)
            (classified_as s audio_array v') with
    | (Ret _, s2) => (Ret tt, count_chunk clk s2)
    | (Raise _, s2) => (Ret tt, logger LError "Error processing audio chunk" s2)
    end.
Proof.
  intros Hrun Hbuf Hdet.
  unfold process_chunk, bind at 1, get. rewrite Hrun. cbn [negb].
  unfold try_except, bind at 1, call. rewrite Hbuf.
  unfold bind at 1, modify. unfold bind at 1. unfold bind at 1, zoom.
  cbn [vad record set_audio_buffer]. rewrite Hdet.
  unfold bind at 1. fold (classified_as s audio_array v').
  destruct (_handle_voice_detected audio_array timestamp (t_check clk)
              (classified_as s audio_array v')) as [[u|e] s2]; reflexivity.
Qed.

Lemma handle_voice_zero_rate (s : t) audio_array timestamp current_time :
  s.(settings).(Settings.audio).(Settings.sample_rate) = 0%Z ->
  _handle_voice_detected audio_array timestamp current_time s = (Raise ZeroDivisionError, s).
Proof.
  intros Z0. unfold _handle_voice_detected, bind at 1, get. rewrite Z0. reflexivity.
Qed.

Lemma handle_voice_counters (s : t) audio_array timestamp current_time :
  s.(settings).(Settings.audio).(Settings.sample_rate) <> 0%Z ->
  exists s2,
    _handle_voice_detected audio_array timestamp current_time s = (Ret tt, s2)
    /\ s2.(audio_buffer) = s.(audio_buffer) /\ s2.(vad) = s.(vad)
    /\ s2.(stats).(chunks_processed) = s.(stats).(chunks_processed)
    /\ s2.(stats).(processing_time_total) = s.(stats).(processing_time_total)
    /\ (s2.(stats).(voice_segments_detected) = s.(stats).(voice_segments_detected) + 1)%Z
    /\ (s2.(stats).(activations_detected) = s.(stats).(activations_detected)
        \/ s2.(stats).(activations_detected) = s.(stats).(activations_detected) + 1)%Z.
Proof.
  intros NZ. rewrite (@handle_voice_unfold s audio_array timestamp current_time NZ).
  set (s1 := with_segment s audio_array timestamp).
  destruct (3 <=? length (voice_segments s1))%nat.
  - pose proof (keeps_steady_check current_time s1) as K1.
    pose proof (keeps_buffer_check current_time s1) as K2.
    pose proof (Cooldown.moves_check current_time s1) as K3.
    destruct (ProcessorFrames.total_check current_time s1) as [u Hu].
    destruct (_check_for_activation_phrases current_time s1) as [r s2].
    cbn [fst snd] in Hu, K1, K2, K3. subst r. destruct u.
    exists s2. split; [reflexivity|].
    unfold steady in K1. injection K1 as E1 E2 E3. injection K2 as E4 E5.
    rewrite E1, E2, E3, E4, E5. repeat split.
    destruct K3 as [K3|K3]; unfold cool in K3; injection K3 as _ K3; rewrite K3; cbn; auto.
  - exists s1. split; [reflexivity|]. repeat split. left. reflexivity.
Qed.

Lemma start_preserves l m w (s : t) :
  let s' := snd (start l m w s) in
  s'.(audio_buffer) = s.(audio_buffer)
  /\ s'.(audio_buffer_maxlen) = s.(audio_buffer_maxlen)
  /\ s'.(activation_phrases) = s.(activation_phrases)
  /\ s'.(stats) = s.(stats)
  /\ VoiceActivityDetector.stats s'.(vad) = VoiceActivityDetector.stats s.(vad).
Proof.
  destruct s as [st v ab am vs ap ir la stt wm lg tr].
  destruct ir; [cbn; repeat split|].
  destruct v as [sv|wv]; [destruct l, w | destruct m, w]; cbn; repeat split.
Qed.

Lemma stop_preserves (s : t) :
  let s' := snd (stop s) in
  s'.(audio_buffer) = s.(audio_buffer)
  /\ s'.(audio_buffer_maxlen) = s.(audio_buffer_maxlen)
  /\ s'.(activation_phrases) = s.(activation_phrases)
  /\ s'.(stats) = s.(stats)
  /\ VoiceActivityDetector.stats s'.(vad) = VoiceActivityDetector.stats s.(vad).
Proof.
  destruct s as [st v ab am vs ap ir la stt wm lg tr].
  destruct ir; [|cbn; repeat split].
  destruct v as [sv|wv]; cbn; repeat split.
Qed.

Lemma chunk_sound (s : t) clk audio_data timestamp :
  sound s -> sound (snd (process_chunk clk audio_data timestamp s)).
Proof.
  intros (Hb & Hk & Ho & Hc).
  pose proof (keeps_rigid_process_chunk clk audio_data timestamp s) as K.
  remember (snd (process_chunk clk audio_data timestamp s)) as s' eqn:Es.
  unfold rigid in K. injection K as _ K2 K3 _ _.
  unfold sound. rewrite K2, K3.
  destruct (is_running s) eqn:Hrun.
  2:{ unfold process_chunk, bind, get in Es. rewrite Hrun in Es. cbn in Es. subst s'.
      exact (conj Hb (conj Hk (conj Ho Hc))). }
  destruct (frombuffer audio_data) as [a|e] eqn:Hbuf.
  2:{ rewrite (@process_chunk_undecoded s clk audio_data timestamp e Hrun Hbuf) in Es.
      subst s'. exact (conj Hb (conj Hk (conj Ho Hc))). }
  destruct (DetectorFacts.detect_counted s.(vad) clk.(t_vad) a) as (b & v' & Hd & Hcnt & _).
  assert (consistent (VoiceActivityDetector.stats v')) as Hc'
    by exact (DetectorFacts.counted_consistent Hcnt Hc).
  assert (0 <= len (deque_extend (audio_buffer_maxlen s) (audio_buffer s) a)
          <= audio_buffer_maxlen s)%Z as Hb'.
  { split; [unfold len; lia | apply deque_extend_bound; lia]. }
  destruct Ho as (O1 & O2 & O3 & O4).
  destruct b.
  - assert (voice_detected (VoiceActivityDetector.stats v')
            = voice_detected (VoiceActivityDetector.stats s.(vad)) + 1)%Z as Hv.
    { destruct Hcnt as [[_ F]| ->]; [discriminate | reflexivity]. }
    rewrite (@process_chunk_voice s clk audio_data a timestamp v' Hrun Hbuf Hd) in Es.
    destruct (Z.eq_dec s.(settings).(Settings.audio).(Settings.sample_rate) 0) as [Z0|NZ].
    + rewrite handle_voice_zero_rate in Es by exact Z0. subst s'. cbn.
      split; [exact Hb'|]. split; [exact Hk|]. split; [|exact Hc'].
      unfold ordered. cbn. lia.
    + destruct (@handle_voice_counters (classified_as s a v') a timestamp clk.(t_check) NZ)
        as (s2 & E0 & E1 & E2 & E3 & E4 & E5 & E6).
      rewrite E0 in Es. subst s'.
      cbn in E1, E2, E3, E4, E5, E6 |- *. rewrite E1, E2.
      split; [exact Hb'|]. split; [exact Hk|]. split; [|exact Hc'].
      unfold ordered. cbn. rewrite E2. lia.
  - rewrite (@FailClosed.process_chunk_silence s clk audio_data a timestamp v' Hrun Hbuf Hd)
      in Es.
    assert (voice_detected (VoiceActivityDetector.stats v')
            = voice_detected (VoiceActivityDetector.stats s.(vad)))%Z as Hv.
    { destruct Hcnt as [[-> _]| ->]; reflexivity. }
    subst s'. unfold ordered, after_silence. cbn.
    split; [exact Hb'|]. split; [exact Hk|]. split; [lia | exact Hc'].
Qed.

Lemma serve_sound (s : t) r : sound s -> sound (serve s r).
Proof.
  intros H. destruct r as [l m w| |clk d ts|p h|p]; cbn [serve].
  - destruct H as (Hb & Hk & Ho & Hc).
    destruct (start_preserves l m w s) as (E1 & E2 & E3 & E4 & E5).
    unfold sound, ordered. rewrite E1, E2, E3, E4, E5. auto.
  - destruct H as (Hb & Hk & Ho & Hc).
    destruct (stop_preserves s) as (E1 & E2 & E3 & E4 & E5).
    unfold sound, ordered. rewrite E1, E2, E3, E4, E5. auto.
  - apply chunk_sound. exact H.
  - destruct H as (Hb & Hk & Ho & Hc). unfold sound, ordered. cbn.
    split; [exact Hb|]. split; [apply TableFacts.nodup_dict_set; exact Hk|]. auto.
  - destruct H as (Hb & Hk & Ho & Hc).
    unfold remove_activation_phrase, bind, get.
    destruct (existsb _ (activation_phrases s)); cbn; [|exact (conj Hb (conj Hk (conj Ho Hc)))].
    unfold sound, ordered. cbn.
    split; [exact Hb|]. split; [apply TableFacts.nodup_dict_del; exact Hk|]. auto.
Qed.

Lemma session_sound requests : forall s, sound s -> sound (session requests s).
Proof.
  unfold session. induction requests as [|r rest IH]; intros s H; [exact H|].
  cbn [fold_left]. apply IH. apply serve_sound. exact H.
Qed.

Lemma init_sound settings (s : t) : init settings = Ret s -> sound s.
Proof.
  intros H.
  destruct (InitFacts.init_fields _ H) as (N & _ & _ & _ & B & _ & _ & _ & M & S0 & V0).
  unfold sound, ordered. rewrite B, S0, V0. cbn.
  split; [lia|]. split; [exact N|]. split; [lia|]. unfold consistent. cbn. lia.
Qed.

Lemma session_maxlen requests : forall (s : t),
  (session requests s).(audio_buffer_maxlen) = s.(audio_buffer_maxlen).
Proof.
  unfold session. induction requests as [|r rest IH]; intros s; [reflexivity|].
  cbn [fold_left]. rewrite IH.
  destruct r as [l m w| |clk d ts|p h|p]; cbn [serve].
  - apply (start_preserves l m w s).
  - apply (stop_preserves s).
  - pose proof (keeps_rigid_process_chunk clk d ts s) as K.
    unfold rigid in K. congruence.
  - reflexivity.
  - unfold remove_activation_phrase, bind, get.
    destruct (existsb _ _); reflexivity.
Qed.

End SessionFacts.

(** X20. The sample buffer is bounded.  Whatever a processor built by
    [AudioProcessor(settings)] is asked, in whatever order ([start], [stop],
    chunks of any content, phrases added and removed; failed calls
    included), the [buffer_size] that [get_status] reports never exceeds
    [buffer_max_size], which stays [buffer_duration_sec * sample_rate]. *)
Theorem session_buffer_bounded :
  forall (settings : Settings.t) (self : AudioProcessor.t) (requests : list request),
    AudioProcessor.init settings = Ret self ->
    let status := AudioProcessor.get_status (session requests self) in
    (0 <= status.(AudioProcessor.buffer_size) <= status.(AudioProcessor.buffer_max_size))%Z
    /\ status.(AudioProcessor.buffer_max_size)
       = (settings.(Settings.audio).(Settings.buffer_duration_sec)
          * settings.(Settings.audio).(Settings.sample_rate))%Z.
Proof.
  intros settings self requests H status.
  destruct (SessionFacts.session_sound requests (SessionFacts.init_sound _ H)) as (B & _).
  split; [exact B|].
  destruct (InitFacts.init_fields _ H) as (_ & _ & _ & _ & _ & _ & _ & M & _).
  subst status. cbn. rewrite <- M. apply SessionFacts.session_maxlen.
Qed.

Lemma session_buffer_bounded_sample :
  (0 <= (AudioProcessor.get_status (session sample_requests fresh_processor))
          .(AudioProcessor.buffer_size)
     <= (AudioProcessor.get_status (session sample_requests fresh_processor))
          .(AudioProcessor.buffer_max_size))%Z.
Proof.
  exact (proj1 (@session_buffer_bounded Settings.default fresh_processor sample_requests
                  eq_refl)).
Defined.

(** X21. The counters stay ordered.  Under the same requests, in any order,
    the processor never counts more activations than voice segments, more
    voice segments than processed chunks, or more voice segments than its
    detector counted voice detections; no counter is negative. *)
Theorem session_counters_ordered :
  forall (settings : Settings.t) (self : AudioProcessor.t) (requests : list request),
    AudioProcessor.init settings = Ret self ->
    let self' := session requests self in
    let counters := self'.(AudioProcessor.stats) in
    (0 <= counters.(AudioProcessor.activations_detected)
     <= counters.(AudioProcessor.voice_segments_detected))%Z
    /\ (counters.(AudioProcessor.voice_segments_detected)
        <= counters.(AudioProcessor.chunks_processed))%Z
    /\ (counters.(AudioProcessor.voice_segments_detected)
        <= (VoiceActivityDetector.stats self'.(AudioProcessor.vad)).(voice_detected))%Z.
Proof.
  intros settings self requests H self' counters.
  destruct (SessionFacts.session_sound requests (SessionFacts.init_sound _ H))
    as (_ & _ & (O1 & O2 & O3 & O4) & _).
  subst counters self'. auto.
Qed.

Lemma session_counters_ordered_sample :
  ((session sample_requests fresh_processor).(AudioProcessor.stats)
     .(AudioProcessor.voice_segments_detected)
   <= (session sample_requests fresh_processor).(AudioProcessor.stats)
        .(AudioProcessor.chunks_processed))%Z.
Proof.
  exact (proj1 (proj2 (@session_counters_ordered Settings.default fresh_processor
                         sample_requests eq_refl))).
Defined.

(** X22. The phrase table stays a dictionary.  Under the same requests, in
    any order, no phrase is ever a key twice, so the first match met while
    the table is walked is the only entry for its phrase. *)
Theorem session_phrases_distinct :
  forall (settings : Settings.t) (self : AudioProcessor.t) (requests : list request),
    AudioProcessor.init settings = Ret self ->
    NoDup (keys (session requests self).(AudioProcessor.activation_phrases)).
Proof.
  intros settings self requests H.
  exact (proj1 (proj2 (SessionFacts.session_sound requests (SessionFacts.init_sound _ H)))).
Qed.

Lemma session_phrases_distinct_sample :
  NoDup (keys (session sample_requests fresh_processor).(AudioProcessor.activation_phrases)).
Proof.
  exact (@session_phrases_distinct Settings.default fresh_processor sample_requests eq_refl).
Defined.


(** ** Starting, stopping and pausing capture *)

Module CaptureFacts.
Import WebcamCapture.


Lemma monitor_paused checks : forall (s : t),
  s.(process) = None -> _monitor_capture checks s = (Ret tt, s).
Proof.
  induction checks as [|hc rest IH]; intros s H; [reflexivity|].
  cbn [_monitor_capture]. unfold bind at 1, get.
  destruct (is_recording s); [|reflexivity].
  unfold bind at 1, monitor_iteration, try_except, bind at 1, get.
  rewrite H. cbn. apply IH. exact H.
Qed.

Lemma monitor_stopped checks (s : t) :
  s.(is_recording) = false -> _monitor_capture checks s = (Ret tt, s).
Proof.
  intros H. destruct checks as [|hc rest]; [reflexivity|].
  cbn [_monitor_capture]. unfold bind, get. rewrite H. reflexivity.
Qed.

Lemma restart_outcome sp (s : t) :
  _restart_capture sp s
  = (Ret tt,
     match sp with
     | Ret p =>
         logger LInfo "Capture process restarted successfully"
           (set_process (Some p)
              (logger LInfo "Starting FFmpeg process"
                 (logger LInfo "Restarting capture process" s)))
     | Raise e =>
         logger LError "Failed to restart capture process"
           (logger LError "Failed to start FFmpeg process"
              (logger LInfo "Starting FFmpeg process"
                 (logger LInfo "Restarting capture process" s)))
     end).
Proof.
  unfold _restart_capture, _start_capture_process, _wait_for_process,
    try_except, bind, modify, get, call, raise, ret.
  cbn. destruct (process s); destruct sp; reflexivity.
Qed.

Lemma restart_counts sp (s : t) :
  let s' := snd (_restart_capture sp s) in
  restart_attempts s' = S (restart_attempts s)
  /\ s'.(is_recording) = s.(is_recording)
  /\ s'.(last_heartbeat) = s.(last_heartbeat)
  /\ s'.(process) = match sp with Ret p => Some p | Raise _ => s.(process) end.
Proof.
  rewrite restart_outcome. cbn [snd].
  destruct sp; unfold restart_attempts; cbn;
    rewrite ?filter_app, ?length_app; cbn; repeat split; lia.
Qed.

Lemma monitor_cons hc rest (s s1 : t) :
  s.(is_recording) = true ->
  monitor_iteration hc s = (Ret tt, s1) ->
  _monitor_capture (hc :: rest) s = _monitor_capture rest s1.
Proof.
  intros R E. cbn [_monitor_capture]. unfold bind, get. rewrite R, E. reflexivity.
Qed.

End CaptureFacts.

(** X23. [start] on a capture that is already recording only logs a
    warning: no second process is spawned.  Otherwise, when FFmpeg can be
    spawned the capture is recording with the new process and its start
    time; when it cannot, the exception is re-raised and the capture is
    left not recording, with the process handle and start time it had. *)
Theorem capture_start_outcome :
  forall (self : WebcamCapture.t) (spawn : result WebcamCapture.Popen) (started_at : Q),
    let outcome := WebcamCapture.start spawn started_at self in
    let self' := snd outcome in
    if self.(WebcamCapture.is_recording) then
      outcome = (Ret tt, WebcamCapture.logger LWarning "Capture already running" self)
    else
      match spawn with
      | Ret p =>
          fst outcome = Ret tt
          /\ self'.(WebcamCapture.is_recording) = true
          /\ self'.(WebcamCapture.process) = Some p
          /\ self'.(WebcamCapture.start_time) = Some started_at
      | Raise e =>
          fst outcome = Raise e
          /\ self'.(WebcamCapture.is_recording) = false
          /\ self'.(WebcamCapture.process) = self.(WebcamCapture.process)
          /\ self'.(WebcamCapture.start_time) = self.(WebcamCapture.start_time)
      end.
Proof.
  intros self sp started_at. cbv zeta.
  destruct self as [st ap ir pr stt hb lg sn].
  destruct ir; [reflexivity|]. destruct sp; cbn; repeat split.
Qed.


(** X25. [pause_video] on a recording capture never raises, drops the
    process handle and keeps the capture recording.  While paused, the
    stream reader returns at once without handing on any frame and the
    monitor restarts nothing, whatever it observes.  [resume_video] never
    raises: it spawns a new process, or leaves the capture paused when
    FFmpeg cannot be spawned; on a capture that holds a process it does
    nothing. *)
Theorem pause_resume_video :
  forall (self : WebcamCapture.t) (spawn : result WebcamCapture.Popen),
    self.(WebcamCapture.is_recording) = true ->
    let paused := snd (WebcamCapture.pause_video self) in
    let resumed := snd (WebcamCapture.resume_video spawn paused) in
    fst (WebcamCapture.pause_video self) = Ret tt
    /\ paused.(WebcamCapture.process) = None
    /\ paused.(WebcamCapture.is_recording) = true
    /\ (forall reads,
          WebcamCapture._process_audio_stream reads paused = (Ret tt, paused))
    /\ (forall checks, WebcamCapture._monitor_capture checks paused = (Ret tt, paused))
    /\ fst (WebcamCapture.resume_video spawn paused) = Ret tt
    /\ resumed.(WebcamCapture.process)
       = match spawn with Ret p => Some p | Raise _ => None end
    /\ resumed.(WebcamCapture.is_recording) = true
    /\ (forall p spawn',
          self.(WebcamCapture.process) = Some p ->
          WebcamCapture.resume_video spawn' self = (Ret tt, self)).
Proof.
  intros self sp R paused resumed.
  assert (fst (WebcamCapture.pause_video self) = Ret tt
          /\ paused.(WebcamCapture.process) = None
          /\ paused.(WebcamCapture.is_recording) = true) as (A & B & C).
  { subst paused. destruct self as [st ap ir pr stt hb lg sn]. cbn in R. subst ir.
    destruct pr; cbn; repeat split. }
  split; [exact A|]. split; [exact B|]. split; [exact C|].
  split; [|split; [|split; [|split; [|split]]]].
  - intros reads. unfold WebcamCapture._process_audio_stream, bind, get. rewrite B.
    reflexivity.
  - intros checks. apply CaptureFacts.monitor_paused. exact B.
  - subst resumed. destruct paused as [st ap ir pr stt hb lg sn]. cbn in B. subst pr.
    destruct sp; reflexivity.
  - subst resumed. destruct paused as [st ap ir pr stt hb lg sn]. cbn in B. subst pr.
    destruct sp; reflexivity.
  - subst resumed. destruct paused as [st ap ir pr stt hb lg sn]. cbn in B, C. subst pr ir.
    destruct sp; reflexivity.
  - intros p sp' P. unfold WebcamCapture.resume_video, bind, get. rewrite P. reflexivity.
Qed.

Lemma pause_resume_video_recording :
  (snd (WebcamCapture.pause_video recording)).(WebcamCapture.process) = None
  /\ (snd (WebcamCapture.resume_video (Ret {| WebcamCapture.pid := 7 |})
             (snd (WebcamCapture.pause_video recording)))).(WebcamCapture.process)
     = Some {| WebcamCapture.pid := 7 |}.
Proof.
  pose proof (@pause_resume_video recording (Ret {| WebcamCapture.pid := 7 |}) eq_refl)
    as H.
  exact (conj (proj1 (proj2 H)) (proj1 (proj2 (proj2 (proj2 (proj2 (proj2 (proj2 H)))))))).
Defined.

(** ** Heartbeat supervision *)

Module HeartbeatFacts.
Import WebcamCapture.

Lemma monitor_iteration_stale (s : t) p beat hc :
  s.(process) = Some p -> s.(last_heartbeat) = Some beat ->
  alive hc -> stale beat hc ->
  monitor_iteration hc s
  = (Ret tt,
     snd (_restart_capture hc.(spawn)
            (logger LWarning "No audio data received, restarting capture" s))).
Proof.
  intros Hp Hb Ha Hs. unfold alive in Ha. unfold stale in Hs.
  apply Qltb_lt in Hs.
  unfold monitor_iteration, try_except, bind at 1, get. rewrite Hp, Ha, Hb, Hs.
  unfold bind, modify. rewrite CaptureFacts.restart_outcome. reflexivity.
Qed.

Lemma monitor_iteration_quiet (s : t) hc :
  alive hc -> recent s.(last_heartbeat) hc ->
  monitor_iteration hc s = (Ret tt, s).
Proof.
  intros Ha Hq. unfold alive in Ha. unfold recent in Hq.
  unfold monitor_iteration, try_except, bind, get.
  destruct (process s); [|reflexivity]. rewrite Ha.
  destruct (last_heartbeat s) as [beat|]; [|reflexivity].
  apply Qltb_ge in Hq. rewrite Hq. reflexivity.
Qed.

Lemma monitor_stale checks : forall (s : t) p beat,
  s.(is_recording) = true -> s.(process) = Some p -> s.(last_heartbeat) = Some beat ->
  Forall (fun hc => alive hc /\ stale beat hc) checks ->
  exists s',
    _monitor_capture checks s = (Ret tt, s')
    /\ restart_attempts s' = (restart_attempts s + length checks)%nat
    /\ s'.(last_heartbeat) = Some beat
    /\ s'.(is_recording) = true.
Proof.
  induction checks as [|hc rest IH]; intros s p beat R P B F.
  - exists s. cbn. repeat split; auto.
  - inversion F as [|? ? [Ha Hs] F']; subst.
    rewrite (@CaptureFacts.monitor_cons hc rest s _ R
               (@monitor_iteration_stale s p beat hc P B Ha Hs)).
    set (s0 := logger LWarning "No audio data received, restarting capture" s).
    destruct (CaptureFacts.restart_counts hc.(spawn) s0) as (C1 & C2 & C3 & C6).
    set (s1 := snd (_restart_capture (spawn hc) s0)) in *.
    assert (exists p', process s1 = Some p') as [p' P'].
    { rewrite C6. destruct (spawn hc); [eauto|]. exists p. exact P. }
    destruct (IH s1 p' beat) as (s' & I1 & I2 & I3 & I4); auto.
    { rewrite C2. exact R. } { rewrite C3. exact B. }
    exists s'. split; [exact I1|]. split; [|auto].
    rewrite I2, C1. subst s0. unfold restart_attempts. cbn [log logger].
    rewrite filter_app, length_app. cbn. lia.
Qed.

End HeartbeatFacts.

(** X26. A restart does not refresh the heartbeat.  While the process is
    found running but the last frame was handed on more than 60 seconds
    before each check, the monitor makes one restart attempt at every
    check, whether or not the attempts succeed, for as many checks as it
    makes; the heartbeat stays where it was and the capture keeps
    recording. *)
Theorem stale_heartbeat_restarts_every_check :
  forall (checks : list WebcamCapture.health_check) (self : WebcamCapture.t)
         (p : WebcamCapture.Popen) (beat : Q),
    self.(WebcamCapture.is_recording) = true ->
    self.(WebcamCapture.process) = Some p ->
    self.(WebcamCapture.last_heartbeat) = Some beat ->
    Forall (fun hc => alive hc /\ stale beat hc) checks ->
    let self' := snd (WebcamCapture._monitor_capture checks self) in
    fst (WebcamCapture._monitor_capture checks self) = Ret tt
    /\ WebcamCapture.restart_attempts self'
       = (WebcamCapture.restart_attempts self + length checks)%nat
    /\ self'.(WebcamCapture.last_heartbeat) = Some beat
    /\ self'.(WebcamCapture.is_recording) = true.
Proof.
  intros checks self p beat R P B F.
  destruct (@HeartbeatFacts.monitor_stale checks self p beat R P B F) as (s' & -> & H).
  exact (conj eq_refl H).
Qed.

Lemma stale_heartbeat_restarts_every_check_three :
  WebcamCapture.restart_attempts
    (snd (WebcamCapture._monitor_capture
            [running_check 61 1; running_check 91 2; running_check 121 3]
            quiet_recording)) = 3%nat.
Proof.
  refine (proj1 (proj2 (@stale_heartbeat_restarts_every_check
                          [running_check 61 1; running_check 91 2; running_check 121 3]
                          quiet_recording {| WebcamCapture.pid := 4242 |} 0
                          eq_refl eq_refl eq_refl _))).
  repeat (apply Forall_cons; [split; reflexivity|]). apply Forall_nil.
Defined.

(** X27. The monitor leaves a healthy capture alone: as long as each check
    finds the process running and the last frame, if any was ever handed
    on, at most 60 seconds old, nothing is restarted and nothing changes.
    In particular a capture that has not handed on a single frame is never
    restarted for silence. *)
Theorem healthy_capture_left_alone :
  forall (checks : list WebcamCapture.health_check) (self : WebcamCapture.t),
    Forall (fun hc => alive hc /\ recent self.(WebcamCapture.last_heartbeat) hc) checks ->
    WebcamCapture._monitor_capture checks self = (Ret tt, self).
Proof.
  induction checks as [|hc rest IH]; intros self F; [reflexivity|].
  inversion F as [|? ? [Ha Hq] F']; subst.
  destruct (WebcamCapture.is_recording self) eqn:R.
  - rewrite (@CaptureFacts.monitor_cons hc rest self self R
               (@HeartbeatFacts.monitor_iteration_quiet self hc Ha Hq)).
    apply IH. exact F'.
  - apply CaptureFacts.monitor_stopped. exact R.
Qed.

Lemma healthy_capture_left_alone_no_frame_yet :
  WebcamCapture._monitor_capture [running_check 30 1; running_check 6000 2] recording
  = (Ret tt, recording).
Proof.
  apply (@healthy_capture_left_alone [running_check 30 1; running_check 6000 2] recording).
  repeat (apply Forall_cons; [split; [reflexivity | exact I]|]). apply Forall_nil.
Defined.

(** X28. A restart that fails is swallowed.  When the monitor finds the
    process dead and FFmpeg cannot be spawned again, the check still
    returns normally: the failure is logged twice (by the spawn and by the
    restart), the dead process handle is kept and the capture keeps
    recording, so that the next check tries again. *)
Theorem failed_restart_swallowed :
  forall (self : WebcamCapture.t) (p : WebcamCapture.Popen)
         (hc : WebcamCapture.health_check) (e : exn),
    self.(WebcamCapture.process) = Some p ->
    died hc ->
    hc.(WebcamCapture.spawn) = Raise e ->
    let self' := snd (WebcamCapture.monitor_iteration hc self) in
    fst (WebcamCapture.monitor_iteration hc self) = Ret tt
    /\ self'.(WebcamCapture.process) = Some p
    /\ self'.(WebcamCapture.is_recording) = self.(WebcamCapture.is_recording)
    /\ self'.(WebcamCapture.log)
       = self.(WebcamCapture.log)
         ++ [ (LWarning, "Capture process died, restarting");
              (LInfo, "Restarting capture process");
              (LInfo, "Starting FFmpeg process");
              (LError, "Failed to start FFmpeg process");
              (LError, "Failed to restart capture process") ]%string.
Proof.
  intros self p hc e P (code & Hc & _) Hs. cbv zeta.
  assert (WebcamCapture.monitor_iteration hc self
          = (Ret tt,
             snd (WebcamCapture._restart_capture hc.(WebcamCapture.spawn)
                    (WebcamCapture.logger LWarning "Capture process died, restarting" self))))
    as E.
  { unfold WebcamCapture.monitor_iteration, try_except, bind at 1, get.
    rewrite P, Hc. unfold bind, modify. rewrite CaptureFacts.restart_outcome. reflexivity. }
  rewrite E, CaptureFacts.restart_outcome, Hs. cbn.
  repeat split; auto. repeat rewrite <- app_assoc. reflexivity.
Qed.

Lemma failed_restart_swallowed_no_ffmpeg :
  fst (WebcamCapture.monitor_iteration crash_no_ffmpeg recording) = Ret tt
  /\ (snd (WebcamCapture.monitor_iteration crash_no_ffmpeg recording))
       .(WebcamCapture.process) = Some {| WebcamCapture.pid := 4242 |}.
Proof.
  assert (died crash_no_ffmpeg) as D
    by (exists 1%Z; split; [reflexivity | discriminate]).
  destruct (@failed_restart_swallowed recording {| WebcamCapture.pid := 4242 |}
              crash_no_ffmpeg (BackendError "ffmpeg not found") eq_refl D eq_refl)
    as (A & B & _).
  split; [exact A | exact B].
Defined.

(** ** The stream and a processor that is not listening *)

Module DropFacts.
Import WebcamCapture.

Lemma send_stopped r audio_data (s : t) :
  s.(audio_processor).(AudioProcessor.is_running) = false ->
  send r audio_data s = (Ret tt, record_sent audio_data r.(now) s).
Proof.
  intros H. unfold send, bind, modify, zoom. cbn [audio_processor record_sent].
  unfold AudioProcessor.process_chunk, bind, get. rewrite H. cbn.
  destruct s; reflexivity.
Qed.

Lemma stream_loop_drops reads : forall buffer (s : t),
  s.(audio_processor).(AudioProcessor.is_running) = false ->
  (snd (stream_loop reads buffer s)).(audio_processor) = s.(audio_processor).
Proof.
  induction reads as [|r rest IH]; intros buffer s H; [reflexivity|].
  cbn [stream_loop]. unfold bind at 1, get.
  destruct (is_recording s); [|reflexivity].
  destruct (process s); [|reflexivity].
  destruct (chunk r) as [[|b data]|e].
  - reflexivity.
  - destruct (frame_bytes <=? len (buffer ++ b :: data))%Z; [|apply IH; exact H].
    unfold bind at 1, try_except, bind at 1.
    rewrite send_stopped by exact H. unfold modify. cbn [fst snd].
    rewrite IH; [reflexivity | exact H].
  - unfold bind, modify. rewrite IH; [reflexivity | exact H].
Qed.

Lemma stream_loop_short reads : forall buffer (s : t) out s',
  (len buffer + len (stream_bytes reads) < frame_bytes)%Z ->
  stream_loop reads buffer s = (out, s') ->
  (exists leftover, out = Ret leftover)
  /\ s'.(sent) = s.(sent) /\ s'.(last_heartbeat) = s.(last_heartbeat)
  /\ s'.(audio_processor) = s.(audio_processor).
Proof.
  induction reads as [|r rest IH]; intros buffer s out s' H E.
  - injection E as <- <-. repeat split. eauto.
  - cbn [stream_loop] in E. unfold bind at 1, get in E.
    destruct (is_recording s); [|injection E as <- <-; repeat split; eauto].
    destruct (process s); [|injection E as <- <-; repeat split; eauto].
    cbn [stream_bytes] in H.
    destruct (chunk r) as [[|b data]|e].
    + injection E as <- <-. repeat split. eauto.
    + assert (len (buffer ++ b :: data) + len (stream_bytes rest) < frame_bytes)%Z as H'.
      { unfold len in *. rewrite length_app in *. lia. }
      replace (frame_bytes <=? len (buffer ++ b :: data))%Z with false in E
        by (symmetry; apply Z.leb_gt; unfold len in *; lia).
      exact (IH _ _ _ _ H' E).
    + unfold bind, modify in E.
      destruct (IH _ _ _ _ H E) as (A & B & C & D).
      repeat split; assumption.
Qed.

End DropFacts.

(** X29. Frames reach the processor only while it is running.  If the
    processor is not running when the stream reader works (capture started
    first, or the processor stopped), the reader cuts and hands on its
    frames as always but the processor ignores every one of them: it is
    left exactly as it was, for any stream. *)
Theorem stopped_processor_drops_frames :
  forall (self : WebcamCapture.t) (reads : list WebcamCapture.read),
    self.(WebcamCapture.audio_processor).(AudioProcessor.is_running) = false ->
    (snd (WebcamCapture._process_audio_stream reads self)).(WebcamCapture.audio_processor)
    = self.(WebcamCapture.audio_processor).
Proof.
  intros self reads H.
  unfold WebcamCapture._process_audio_stream, bind at 1, get.
  destruct (WebcamCapture.process self); [|reflexivity].
  unfold bind at 1, modify. unfold bind at 1, try_except, bind at 1.
  pose proof (@DropFacts.stream_loop_drops reads []
                (WebcamCapture.logger LInfo "Starting audio stream processing" self) H) as D.
  destruct (WebcamCapture.stream_loop reads [] _) as [[leftover|e] s1]; cbn in D |- *; exact D.
Qed.

Lemma stopped_processor_drops_frames_74000 :
  (snd (WebcamCapture._process_audio_stream reads_74000 recording))
    .(WebcamCapture.audio_processor) = fresh_processor.
Proof.
  exact (@stopped_processor_drops_frames recording reads_74000 eq_refl).
Defined.

(** X30. A stream that ends before a full frame of 32000 bytes has been
    read produces nothing: the reader returns normally, no frame is handed
    to the processor and the heartbeat is not set, so the monitor's
    heartbeat check has nothing to go by. *)
Theorem short_stream_no_heartbeat :
  forall (self : WebcamCapture.t) (reads : list WebcamCapture.read),
    (len (stream_bytes reads) < 32000)%Z ->
    let self' := snd (WebcamCapture._process_audio_stream reads self) in
    fst (WebcamCapture._process_audio_stream reads self) = Ret tt
    /\ self'.(WebcamCapture.sent) = self.(WebcamCapture.sent)
    /\ self'.(WebcamCapture.last_heartbeat) = self.(WebcamCapture.last_heartbeat)
    /\ self'.(WebcamCapture.audio_processor) = self.(WebcamCapture.audio_processor).
Proof.
  intros self reads H self'.
  destruct (WebcamCapture._process_audio_stream reads self) as [out s2] eqn:E.
  subst self'. cbn [fst snd].
  unfold WebcamCapture._process_audio_stream, bind at 1, get in E.
  destruct (WebcamCapture.process self); [|injection E as <- <-; repeat split].
  unfold bind at 1, modify in E. unfold bind at 1, try_except, bind at 1 in E.
  destruct (WebcamCapture.stream_loop reads []
              (WebcamCapture.logger LInfo "Starting audio stream processing" self))
    as [out1 s1] eqn:L.
  destruct (@DropFacts.stream_loop_short reads [] _ out1 s1 ltac:(exact H) L)
    as ([leftover ->] & A & B & C).
  cbn in E. injection E as <- <-. cbn. repeat split; assumption.
Qed.

Lemma short_stream_no_heartbeat_two_reads :
  (snd (WebcamCapture._process_audio_stream
          [read_of (repeat x01 1000); read_of (repeat x01 1000); read_of []]
          recording)).(WebcamCapture.last_heartbeat) = None.
Proof.
  refine (proj1 (proj2 (proj2
            (@short_stream_no_heartbeat recording
               [read_of (repeat x01 1000); read_of (repeat x01 1000); read_of []] _)))).
  reflexivity.
Defined.
